(** * HashiCorp Vault credential plugins (awx/main/credential_plugins/hashivault.py)

    A shallow embedding of the two backends [kv_backend] and [ssh_backend]
    together with the standard-library functions they call
    ([str] methods, [pathlib.Path.parts], [urllib.parse.urljoin]) and the
    part of [requests] they rely on ([raise_for_status], [json]).

    Python [str] values are represented by [string]; a character is a byte
    of the UTF-8 encoding, so [str.encode()] is the identity.  All the
    separators the code looks for are ASCII, hence searching and splitting
    on bytes agrees with searching and splitting on code points. *)

From Stdlib Require Import ZArith Ascii String List Bool Lia.
From stdpp Require Import gmap strings list.

Set Warnings "-register-all".
#[local] Open Scope Z_scope.
#[local] Arguments String.append !s1 s2 : simpl nomatch.

(** ** Python [str] methods *)

Module Str.

Definition len (s : string) : Z := Z.of_nat (String.length s).

(** [c in s] for a one-character [c]. *)
Fixpoint contains (c : ascii) (s : string) : bool :=
  match s with
  | EmptyString => false
  | String a s' => if Ascii.eqb a c then true else contains c s'
  end.

(** [s.lstrip(c)] for a one-character set. *)
Fixpoint lstrip (c : ascii) (s : string) : string :=
  match s with
  | EmptyString => EmptyString
  | String a s' => if Ascii.eqb a c then lstrip c s' else s
  end.

(** [s.rstrip(c)] for a one-character set: every trailing [c] goes. *)
Fixpoint rstrip (c : ascii) (s : string) : string :=
  match s with
  | EmptyString => EmptyString
  | String a s' =>
      match rstrip c s' with
      | EmptyString => if Ascii.eqb a c then EmptyString else String a EmptyString
      | r => String a r
      end
  end.

(** [s.split(sep)] for a one-character separator; never the empty list. *)
Fixpoint split (sep : ascii) (s : string) : list string :=
  match s with
  | EmptyString => [EmptyString]
  | String a s' =>
      if Ascii.eqb a sep then EmptyString :: split sep s'
      else match split sep s' with
           | h :: t => String a h :: t
           | [] => [String a EmptyString]
           end
  end.

(** [sep.join(l)]. *)
Fixpoint join (sep : string) (l : list string) : string :=
  match l with
  | [] => EmptyString
  | [x] => x
  | x :: l' => x +:+ sep +:+ join sep l'
  end.

(** [s.find(c, start)], scanning [s] whose first character has index
    [pos]; [-1] when there is no occurrence at or after [start]. *)
Fixpoint find_at (c : ascii) (s : string) (pos start : Z) : Z :=
  match s with
  | EmptyString => -1
  | String a s' =>
      if (start <=? pos) && Ascii.eqb a c then pos
      else find_at c s' (pos + 1) start
  end.

Definition find_from (c : ascii) (s : string) (start : Z) : Z :=
  find_at c s 0 start.

Definition find (c : ascii) (s : string) : Z := find_from c s 0.

(** [s.rfind(c)]: the last occurrence, [-1] when there is none. *)
Fixpoint rfind_at (c : ascii) (s : string) (pos : Z) : Z :=
  match s with
  | EmptyString => -1
  | String a s' =>
      let r := rfind_at c s' (pos + 1) in
      if 0 <=? r then r else if Ascii.eqb a c then pos else -1
  end.

Definition rfind (c : ascii) (s : string) : Z := rfind_at c s 0.

Fixpoint take (n : nat) (s : string) : string :=
  match n, s with
  | S n', String a s' => String a (take n' s')
  | _, _ => EmptyString
  end.

Fixpoint drop (n : nat) (s : string) : string :=
  match n, s with
  | S n', String _ s' => drop n' s'
  | _, _ => s
  end.

(** A slice bound as Python resolves it: negative bounds count from the
    end, and everything is clamped to [0 .. len s]. *)
Definition bound (s : string) (i : Z) : nat :=
  Z.to_nat (Z.min (len s) (if i <? 0 then Z.max 0 (len s + i) else i)).

(** [s[:i]], [s[i:]] and [s[i:j]]. *)
Definition slice_to (s : string) (i : Z) : string := take (bound s i) s.
Definition slice_from (s : string) (i : Z) : string := drop (bound s i) s.
Definition slice (s : string) (i j : Z) : string :=
  take (bound s j - bound s i)%nat (drop (bound s i) s).

(** [s.split(c, 1)] when [c in s]: the text before and after the first [c]. *)
Definition split1 (c : ascii) (s : string) : string * string :=
  let i := find c s in (slice_to s i, slice_from s (i + 1)).

Definition lower_char (a : ascii) : ascii :=
  let n := nat_of_ascii a in
  if ((65 <=? n) && (n <=? 90))%nat then ascii_of_nat (n + 32) else a.

(** [s.lower()] on ASCII letters (the only use is on URL schemes). *)
Fixpoint lower (s : string) : string :=
  match s with
  | EmptyString => EmptyString
  | String a s' => String (lower_char a) (lower s')
  end.

(** [all(c in chars for c in s)]. *)
Fixpoint all_in (chars s : string) : bool :=
  match s with
  | EmptyString => true
  | String a s' => contains a chars && all_in chars s'
  end.

(** [s.endswith(c)] for a one-character [c]. *)
Fixpoint endswith (c : ascii) (s : string) : bool :=
  match s with
  | EmptyString => false
  | String a EmptyString => Ascii.eqb a c
  | String _ s' => endswith c s'
  end.

(** [c * k]: the character repeated [k] times. *)
Fixpoint mul (c : ascii) (k : nat) : string :=
  match k with
  | O => EmptyString
  | S k' => String c (mul c k')
  end.

(** Truth value of a [str]: the empty string is false. *)
Definition truthy (s : string) : bool :=
  match s with EmptyString => false | _ => true end.

End Str.

(** ** Python values and exceptions *)

(** What [response.json()] can return, and what a JSON request body is
    made of.  A [dict] with [str] keys is a finite map. *)
Inductive value : Type :=
  | PyNone
  | PyBool (b : bool)
  | PyInt (n : Z)
  | PyFloat (literal : string)
  | PyStr (s : string)
  | PyList (l : list value)
  | PyDict (d : gmap string value).

(** [requests.Response], as far as the backends look at it: the status
    code and the outcome of decoding the body as JSON ([None] when the
    body is not valid JSON).  The raw body is kept for error reports. *)
Record Response : Type := mkResponse {
  status_code : Z;
  text : string;
  decoded : option value;
}.

Inductive exception : Type :=
  | KeyError (key : string)
  | TypeError
  | ValueError (msg : string)
  | RuntimeError (msg : string)
  | HTTPError (response : Response)
  | ConnectionError (msg : string).

(** A computation either returns or raises. *)
Inductive result (A : Type) : Type :=
  | Ok (a : A)
  | Raise (e : exception).
Arguments Ok {A} a.
Arguments Raise {A} e.

Definition rbind {A B} (r : result A) (k : A -> result B) : result B :=
  match r with
  | Ok a => k a
  | Raise e => Raise e
  end.

(** [obj[key]] for a [str] key: only a [dict] can be subscripted by a
    string; a missing key raises [KeyError], any other receiver raises
    [TypeError]. *)
Definition subscript (obj : value) (key : string) : result value :=
  match obj with
  | PyDict d =>
      match d !! key with
      | Some v => Ok v
      | None => Raise (KeyError key)
      end
  | _ => Raise TypeError
  end.

(** ** [pathlib] (POSIX flavour)

    [os.sep] is [/]; a path has no drive. *)

Module Pathlib.

Definition wanted (x : string) : bool :=
  Str.truthy x && negb (String.eqb x ".").

(** [_PosixFlavour.splitroot]: drive (always empty), root, remainder. *)
Definition splitroot (part : string) : string * string * string :=
  match part with
  | String c _ =>
      if Ascii.eqb c "/" then
        let stripped_part := Str.lstrip "/" part in
        if Str.len part - Str.len stripped_part =? 2
        then (EmptyString, "//", stripped_part)
        else (EmptyString, "/", stripped_part)
      else (EmptyString, EmptyString, part)
  | EmptyString => (EmptyString, EmptyString, part)
  end.

(** [_Flavour.parse_parts] on a single argument.  The components are
    collected back to front and reversed at the end, as in the source;
    empty components and [.] are dropped. *)
Definition parse_parts (part : string) : string * string * list string :=
  if negb (Str.truthy part) then (EmptyString, EmptyString, [])
  else
    let '(drv, root, rel) := splitroot part in
    let parsed :=
      if Str.contains "/" rel
      then List.filter wanted (rev (Str.split "/" rel))
      else if wanted rel then [rel] else [] in
    let parsed :=
      if Str.truthy drv || Str.truthy root then parsed ++ [drv +:+ root]
      else parsed in
    (drv, root, rev parsed).

(** [pathlib.Path(s).parts]. *)
Definition parts (s : string) : list string :=
  let '(_, _, parsed) := parse_parts s in parsed.

End Pathlib.

(** ** [urllib.parse]

    Modelled on [Lib/urllib/parse.py] of CPython 3.6, the interpreter AWX
    ran on when this module was written.  The parse cache and the
    [bytes] coercion of the arguments do not change any result and are
    left out. *)

Module Urllib.

Definition uses_relative : list string :=
  [""; "ftp"; "http"; "gopher"; "nntp"; "imap"; "wais"; "file"; "https";
   "shttp"; "mms"; "prospero"; "rtsp"; "rtspu"; "sftp"; "svn"; "svn+ssh";
   "ws"; "wss"].

Definition uses_netloc : list string :=
  [""; "ftp"; "http"; "gopher"; "nntp"; "telnet"; "imap"; "wais"; "file";
   "mms"; "https"; "shttp"; "snews"; "prospero"; "rtsp"; "rtspu"; "rsync";
   "svn"; "svn+ssh"; "sftp"; "nfs"; "git"; "git+ssh"; "ws"; "wss"].

Definition uses_params : list string :=
  [""; "ftp"; "hdl"; "prospero"; "http"; "imap"; "https"; "shttp"; "rtsp";
   "rtspu"; "sip"; "sips"; "mms"; "sftp"; "tel"].

Definition scheme_chars : string :=
  "abcdefghijklmnopqrstuvwxyzABCDEFGHIJKLMNOPQRSTUVWXYZ0123456789+-.".

Definition digits : string := "0123456789".

(** [x in l] for a list of strings. *)
Definition mem (x : string) (l : list string) : bool :=
  existsb (String.eqb x) l.

(** [_splitnetloc(url, start)]: the network location runs from [start]
    to the first of [/], [?], [#]. *)
Definition splitnetloc (url : string) (start : Z) : string * string :=
  let step (delim : Z) (c : ascii) :=
    let wdelim := Str.find_from c url start in
    if 0 <=? wdelim then Z.min delim wdelim else delim in
  let delim := fold_left step ["/"; "?"; "#"]%char (Str.len url) in
  (Str.slice url start delim, Str.slice_from url delim).

(** [_splitparams(url)]. *)
Definition splitparams (url : string) : string * string :=
  if Str.contains "/" url then
    let i := Str.find_from ";" url (Str.rfind "/" url) in
    if i <? 0 then (url, EmptyString)
    else (Str.slice_to url i, Str.slice_from url (i + 1))
  else
    let i := Str.find ";" url in
    (Str.slice_to url i, Str.slice_from url (i + 1)).

Definition SplitResult : Type := string * string * string * string * string.
Definition ParseResult : Type :=
  string * string * string * string * string * string.

(** The lines of [urlsplit] that follow scheme detection (the source
    repeats them in its [http] shortcut): network location, fragment,
    query. *)
Definition split_after_scheme (scheme url : string) : result SplitResult :=
  rbind
    (if String.eqb (Str.slice_to url 2) "//" then
       let '(netloc, url) := splitnetloc url 2 in
       if (Str.contains "[" netloc && negb (Str.contains "]" netloc))
          || (Str.contains "]" netloc && negb (Str.contains "[" netloc))
       then Raise (ValueError "Invalid IPv6 URL")
       else Ok (netloc, url)
     else Ok (EmptyString, url))
    (fun '(netloc, url) =>
       let '(url, fragment) :=
         if Str.contains "#" url then Str.split1 "#" url
         else (url, EmptyString) in
       let '(url, query) :=
         if Str.contains "?" url then Str.split1 "?" url
         else (url, EmptyString) in
       Ok (scheme, netloc, url, query, fragment)).

(** [urlsplit(url, scheme)], with fragments allowed. *)
Definition urlsplit (url scheme : string) : result SplitResult :=
  let i := Str.find ":" url in
  if 0 <? i then
    if String.eqb (Str.slice_to url i) "http" then
      split_after_scheme (Str.lower (Str.slice_to url i))
                         (Str.slice_from url (i + 1))
    else if Str.all_in scheme_chars (Str.slice_to url i) then
      let rest := Str.slice_from url (i + 1) in
      if negb (Str.truthy rest) || negb (Str.all_in digits rest)
      then split_after_scheme (Str.lower (Str.slice_to url i)) rest
      else split_after_scheme scheme url
    else split_after_scheme scheme url
  else split_after_scheme scheme url.

(** [urlparse(url, scheme)]. *)
Definition urlparse (url scheme : string) : result ParseResult :=
  rbind (urlsplit url scheme)
    (fun '(scheme, netloc, url, query, fragment) =>
       if mem scheme uses_params && Str.contains ";" url then
         let '(url, params) := splitparams url in
         Ok (scheme, netloc, url, params, query, fragment)
       else Ok (scheme, netloc, url, EmptyString, query, fragment)).

(** [urlunsplit]. *)
Definition urlunsplit (c : SplitResult) : string :=
  let '(scheme, netloc, url, query, fragment) := c in
  let url :=
    if Str.truthy netloc
       || (Str.truthy scheme && mem scheme uses_netloc
           && negb (String.eqb (Str.slice_to url 2) "//"))
    then
      let url :=
        if Str.truthy url && negb (String.eqb (Str.slice_to url 1) "/")
        then "/" +:+ url else url in
      "//" +:+ netloc +:+ url
    else url in
  let url := if Str.truthy scheme then scheme +:+ ":" +:+ url else url in
  let url := if Str.truthy query then url +:+ "?" +:+ query else url in
  if Str.truthy fragment then url +:+ "#" +:+ fragment else url.

(** [urlunparse]. *)
Definition urlunparse (c : ParseResult) : string :=
  let '(scheme, netloc, url, params, query, fragment) := c in
  let url := if Str.truthy params then url +:+ ";" +:+ params else url in
  urlunsplit (scheme, netloc, url, query, fragment).

(** [segments[1:-1] = filter(None, segments[1:-1])]. *)
Definition filter_middle (segments : list string) : list string :=
  match segments with
  | first :: (_ :: _) as rest =>
      first :: List.filter Str.truthy (removelast rest)
            ++ [List.last rest EmptyString]
  | _ => segments
  end.

(** The loop of [urljoin] that removes dot segments; [..] pops the last
    resolved segment when there is one. *)
Definition resolve (segments : list string) : list string :=
  fold_left
    (fun resolved_path seg =>
       if String.eqb seg ".." then removelast resolved_path
       else if String.eqb seg "." then resolved_path
       else resolved_path ++ [seg])
    segments [].

(** [urljoin(base, url)]. *)
Definition urljoin (base url : string) : result string :=
  if negb (Str.truthy base) then Ok url
  else if negb (Str.truthy url) then Ok base
  else
    rbind (urlparse base EmptyString)
      (fun '(bscheme, bnetloc, bpath, bparams, bquery, bfragment) =>
    rbind (urlparse url bscheme)
      (fun '(scheme, netloc, path, params, query, fragment) =>
    if negb (String.eqb scheme bscheme) || negb (mem scheme uses_relative)
    then Ok url
    else if mem scheme uses_netloc && Str.truthy netloc
    then Ok (urlunparse (scheme, netloc, path, params, query, fragment))
    else
      let netloc := if mem scheme uses_netloc then bnetloc else netloc in
      if negb (Str.truthy path) && negb (Str.truthy params) then
        let query := if negb (Str.truthy query) then bquery else query in
        Ok (urlunparse (scheme, netloc, bpath, bparams, query, fragment))
      else
        let base_parts := Str.split "/" bpath in
        let base_parts :=
          if negb (String.eqb (List.last base_parts EmptyString) EmptyString)
          then removelast base_parts else base_parts in
        let segments :=
          if String.eqb (Str.slice_to path 1) "/" then Str.split "/" path
          else filter_middle (base_parts ++ Str.split "/" path) in
        let resolved_path := resolve segments in
        let last_seg := List.last segments EmptyString in
        let resolved_path :=
          if String.eqb last_seg "." || String.eqb last_seg ".."
          then resolved_path ++ [EmptyString] else resolved_path in
        let joined := Str.join "/" resolved_path in
        Ok (urlunparse (scheme, netloc,
                        if Str.truthy joined then joined else "/",
                        params, query, fragment)))).

End Urllib.

(** ** [requests] *)

Inductive http_method : Type := GET | POST.

(** The keyword arguments the backends pass to [Session.get] and
    [Session.post]: the [request_kwargs] dictionary of the source. *)
Record RequestKwargs : Type := mkKwargs {
  kw_timeout : Z;
  kw_verify : option string;
  kw_params : option (gmap string string);
  kw_json : option value;
}.

(** One outbound call: method, URL, the session's headers, and the
    keyword arguments. *)
Record Request : Type := mkRequest {
  method : http_method;
  request_url : string;
  headers : gmap string string;
  request_kwargs : RequestKwargs;
}.

(** [Response.raise_for_status()]: client (4xx) and server (5xx) errors
    raise [HTTPError], which carries the response; any other status
    passes. *)
Definition raise_for_status (response : Response) : result unit :=
  if (400 <=? status_code response) && (status_code response <? 600)
  then Raise (HTTPError response)
  else Ok tt.

(** [Response.json()]: [ValueError] when the body is not JSON. *)
Definition response_json (response : Response) : result value :=
  match decoded response with
  | Some v => Ok v
  | None => Raise (ValueError "Expecting value")
  end.

(** ** The process and its environment *)

(** What an invocation leaves behind: the named pipes it created, each
    with the bytes its writer thread holds, and the calls it made on the
    session, [sess.get] or [sess.post], each with its arguments (oldest
    first).  [sent] records calls, not traffic: what [requests] puts on
    the wire for one call (nothing for a URL it refuses, one request more
    for every redirect it follows) is not recorded. *)
Record Fifo : Type := mkFifo {
  fifo_path : string;
  fifo_mode : Z;
  fifo_data : string;
}.

Record World : Type := mkWorld {
  fifos : list Fifo;
  sent : list Request;
}.

(** A statement of the source: runs in a world, returns or raises, and
    leaves a world. *)
Definition M (A : Type) : Type := World -> result A * World.

Definition ret {A} (a : A) : M A := fun w => (Ok a, w).

Definition raise {A} (e : exception) : M A := fun w => (Raise e, w).

Definition bind {A B} (m : M A) (k : A -> M B) : M B :=
  fun w =>
    match m w with
    | (Ok a, w') => k a w'
    | (Raise e, w') => (Raise e, w')
    end.

(** A pure computation that may raise, run as a statement. *)
Definition lift {A} (r : result A) : M A := fun w => (r, w).

Notation "'let*' x ':=' m 'in' k" := (bind m (fun x => k))
  (at level 10, x name, m at level 100, k at level 200).
Notation "m ';;' k" := (bind m (fun _ => k))
  (at level 100, k at level 200, right associativity).

(** [kwargs[key]]. *)
Definition getitem (kwargs : gmap string string) (key : string) : result string :=
  match kwargs !! key with
  | Some v => Ok v
  | None => Raise (KeyError key)
  end.

(** Truth value of [kwargs.get(key)]: false for [None] and for [str()]. *)
Definition truthy_opt (o : option string) : bool :=
  match o with
  | Some s => Str.truthy s
  | None => false
  end.

(** ** hashivault.py *)

(** [mount_point, *path = parts]: needs at least one element. *)
Definition unpack_first (parts : list string) : result (string * list string) :=
  match parts with
  | mount_point :: path => Ok (mount_point, path)
  | [] => Raise (ValueError "not enough values to unpack (expected at least 1, got 0)")
  end.

(** The [try] block of the v2 branch of [kv_backend] (lines 119-121). *)
Definition try_mount_point_and_path (secret_path : string)
  : result (string * list string) :=
  rbind (unpack_first (Pathlib.parts (Str.lstrip "/" secret_path)))
    (fun '(mount_point, path) =>
       let _ := Str.join "/" path in
       Ok (mount_point, path)).

(** [try: body except Exception: handler]. *)
Definition try_except {A} (body : result A) (handler : exception -> result A)
  : result A :=
  match body with
  | Ok a => Ok a
  | Raise e => handler e
  end.

(** The whole [try ... except Exception] statement (lines 119-123). *)
Definition mount_point_and_path (secret_path : string)
  : result (string * list string) :=
  try_except (try_mount_point_and_path secret_path)
             (fun _ => Ok (secret_path, [])).

(** [urljoin(kwargs['url'], 'v1')] (lines 103 and 149). *)
Definition base_url (kwargs : gmap string string) : result string :=
  rbind (getitem kwargs "url") (fun server => Urllib.urljoin server "v1").

(** The two plugins the module registers. *)
Inductive plugin : Type := hashivault_kv_plugin | hashivault_ssh_plugin.

(** [stat.S_IRUSR | stat.S_IWUSR]: read and write for the owner only. *)
Definition S_IRUSR_IWUSR : Z := Z.lor 256 128.

Section Backends.

(** The path [tempfile] picks for the [n]-th pipe of the process. *)
Variable candidate_name : nat -> string.

(** The headers a fresh [requests.Session] starts with. *)
Variable default_headers : gmap string string.

(** [requests], the network and the Vault server: what a call on the
    session gives, the final response (after the redirects [requests]
    follows) or the message of the exception [requests] raises (a URL it
    refuses, a connection failure, a timeout). *)
Variable remote : Request -> Response + string.

(** [create_temporary_fifo(data)]: makes a pipe at a fresh path, starts
    the thread that will write [data] into it, returns the path. *)
Definition create_temporary_fifo (data : string) : M string :=
  fun w =>
    let path := candidate_name (List.length (fifos w)) in
    (Ok path, {| fifos := fifos w ++ [mkFifo path S_IRUSR_IWUSR data];
                 sent := sent w |}).

(** [sess.get(url, **kw)] and [sess.post(url, **kw)]: the call is
    recorded, and returns or raises as [remote] says. *)
Definition send (req : Request) : M Response :=
  fun w =>
    let w' := {| fifos := fifos w; sent := sent w ++ [req] |} in
    match remote req with
    | inl response => (Ok response, w')
    | inr msg => (Raise (ConnectionError msg), w')
    end.

Definition session_headers (token : string) : gmap string string :=
  <["Authorization" := "Bearer " +:+ token]> default_headers.

(** Lines 109-111 and 154-156: the initial [request_kwargs]. *)
Definition initial_kwargs (cacert : option string) : M RequestKwargs :=
  let request_kwargs :=
    {| kw_timeout := 30; kw_verify := None; kw_params := None;
       kw_json := None |} in
  if truthy_opt cacert then
    let* path := create_temporary_fifo (default EmptyString cacert) in
    ret {| kw_timeout := kw_timeout request_kwargs;
           kw_verify := Some path;
           kw_params := kw_params request_kwargs;
           kw_json := kw_json request_kwargs |}
  else ret request_kwargs.

Definition kv_backend (kwargs : gmap string string) : M value :=
  let* token := lift (getitem kwargs "token") in
  let* url := lift (base_url kwargs) in
  let* secret_path := lift (getitem kwargs "secret_path") in
  let secret_key := kwargs !! "secret_key" in
  let cacert := kwargs !! "cacert" in
  let* api_version := lift (getitem kwargs "api_version") in
  let* request_kwargs := initial_kwargs cacert in
  let sess_headers := session_headers token in
  let* json :=
    if String.eqb api_version "v2" then
      let* request_kwargs :=
        if truthy_opt (kwargs !! "secret_version") then
          let* version := lift (getitem kwargs "secret_version") in
          ret {| kw_timeout := kw_timeout request_kwargs;
                 kw_verify := kw_verify request_kwargs;
                 kw_params := Some {[ "version" := version ]};
                 kw_json := kw_json request_kwargs |}
        else ret request_kwargs in
      let* split := lift (mount_point_and_path secret_path) in
      let '(mount_point, path) := split in
      let request_url :=
        Str.rstrip "/" (Str.join "/" ([url; mount_point; "data"] ++ path)) in
      let* response := send (mkRequest GET request_url sess_headers request_kwargs) in
      lift (raise_for_status response);;
      let* body := lift (response_json response) in
      lift (subscript body "data")
    else
      let request_url := Str.rstrip "/" (Str.join "/" [url; secret_path]) in
      let* response := send (mkRequest GET request_url sess_headers request_kwargs) in
      lift (raise_for_status response);;
      lift (response_json response) in
  match secret_key with
  | Some key =>
      if Str.truthy key then
        match rbind (subscript json "data") (fun d => subscript d key) with
        | Raise (KeyError _) =>
            raise (RuntimeError (key +:+ " is not present at " +:+ secret_path))
        | r => lift r
        end
      else lift (subscript json "data")
  | None => lift (subscript json "data")
  end.

Definition ssh_backend (kwargs : gmap string string) : M value :=
  let* token := lift (getitem kwargs "token") in
  let* url := lift (base_url kwargs) in
  let* secret_path := lift (getitem kwargs "secret_path") in
  let* role := lift (getitem kwargs "role") in
  let cacert := kwargs !! "cacert" in
  let* request_kwargs := initial_kwargs cacert in
  let* public_key := lift (getitem kwargs "public_key") in
  let body : gmap string value := {[ "public_key" := PyStr public_key ]} in
  let* body :=
    if truthy_opt (kwargs !! "valid_principals") then
      let* principals := lift (getitem kwargs "valid_principals") in
      ret (<["valid_principals" := PyStr principals]> body)
    else ret body in
  let request_kwargs :=
    {| kw_timeout := kw_timeout request_kwargs;
       kw_verify := kw_verify request_kwargs;
       kw_params := kw_params request_kwargs;
       kw_json := Some (PyDict body) |} in
  let sess_headers := session_headers token in
  let request_url :=
    Str.rstrip "/" (Str.join "/" [url; secret_path; "sign"; role]) in
  let* resp := send (mkRequest POST request_url sess_headers request_kwargs) in
  lift (raise_for_status resp);;
  let* body := lift (response_json resp) in
  let* data := lift (subscript body "data") in
  lift (subscript data "signed_key").

(** The backend each registered plugin dispatches to (lines 172-182). *)
Definition backend (p : plugin) : gmap string string -> M value :=
  match p with
  | hashivault_kv_plugin => kv_backend
  | hashivault_ssh_plugin => ssh_backend
  end.

End Backends.

(** What [kv_backend] does with the response once it has one
    (lines 128-144), as a pure function of the response. *)
Definition kv_handle (api_version : string) (secret_key : option string)
    (secret_path : string) (response : Response) : result value :=
  rbind (raise_for_status response) (fun _ =>
  rbind (response_json response) (fun body =>
  rbind (if String.eqb api_version "v2" then subscript body "data" else Ok body)
    (fun json =>
       if truthy_opt secret_key then
         let key := default EmptyString secret_key in
         match rbind (subscript json "data") (fun d => subscript d key) with
         | Raise (KeyError _) =>
             Raise (RuntimeError (key +:+ " is not present at " +:+ secret_path))
         | r => r
         end
       else subscript json "data"))).

(** What [ssh_backend] does with the response (lines 168-169). *)
Definition ssh_handle (resp : Response) : result value :=
  rbind (raise_for_status resp) (fun _ =>
  rbind (response_json resp) (fun body =>
  rbind (subscript body "data") (fun data =>
  subscript data "signed_key"))).

(** The secret mapping of a decoded KV response: [data.data] for the
    versioned engine, [data] otherwise. *)
Definition secret_mapping (api_version : string) (body : value) : result value :=
  if String.eqb api_version "v2"
  then rbind (subscript body "data") (fun d => subscript d "data")
  else subscript body "data".

(** A network location as [urlsplit] delimits it: none of [/], [?], [#],
    and square brackets only in pairs. *)
Definition is_netloc (netloc : string) : bool :=
  negb (Str.contains "/" netloc) && negb (Str.contains "?" netloc)
  && negb (Str.contains "#" netloc)
  && Bool.eqb (Str.contains "[" netloc) (Str.contains "]" netloc).

(** What an exception raised before any request can be. *)
Definition early_error (e : exception) : Prop :=
  (exists key, e = KeyError key) \/ e = ValueError "Invalid IPv6 URL".

(** ** Sample invocations *)

Definition sample_names (n : nat) : string := "/tmp/tmpdir/" +:+ Str.mul "x" (S n).

Definition no_headers : gmap string string := ∅.

Definition fresh_world : World := {| fifos := []; sent := [] |}.

Definition json_response (status : Z) (body : value) : Response :=
  {| status_code := status; text := EmptyString; decoded := Some body |}.

Definition always (response : Response) (req : Request) : Response + string :=
  inl response.

Definition foo_bar : gmap string value := {[ "foo" := PyStr "bar" ]}.

(** [{"data": {"data": {"foo": "bar"}}}] and [{"data": {"foo": "bar"}}]. *)
Definition v2_body : value := PyDict {[ "data" := PyDict {[ "data" := PyDict foo_bar ]} ]}.
Definition v1_body : value := PyDict {[ "data" := PyDict foo_bar ]}.

Definition kv_v2_kwargs : gmap string string :=
  {[ "url" := "http://vault:8200"; "token" := "s.token";
     "secret_path" := "/kv/team/db/"; "api_version" := "v2";
     "secret_key" := "foo"; "secret_version" := "3" ]}.

Definition kv_v1_kwargs : gmap string string :=
  {[ "url" := "http://vault:8200"; "token" := "s.token";
     "secret_path" := "kv/creds"; "api_version" := "v1" ]}.

Definition kv_v2_request : Request :=
  {| method := GET;
     request_url := "http://vault:8200/v1/kv/data/team/db";
     headers := {[ "Authorization" := "Bearer s.token" ]};
     request_kwargs :=
       {| kw_timeout := 30; kw_verify := None;
          kw_params := Some {[ "version" := "3" ]}; kw_json := None |} |}.

Definition kv_v1_request : Request :=
  {| method := GET;
     request_url := "http://vault:8200/v1/kv/creds";
     headers := {[ "Authorization" := "Bearer s.token" ]};
     request_kwargs :=
       {| kw_timeout := 30; kw_verify := None; kw_params := None;
          kw_json := None |} |}.

Definition ssh_kwargs : gmap string string :=
  {[ "url" := "https://vault.example.com"; "token" := "s.token";
     "secret_path" := "ssh-client-signer"; "role" := "ops";
     "public_key" := "ssh-rsa AAAA"; "valid_principals" := "ubuntu" ]}.

Definition ssh_request : Request :=
  {| method := POST;
     request_url := "https://vault.example.com/v1/ssh-client-signer/sign/ops";
     headers := {[ "Authorization" := "Bearer s.token" ]};
     request_kwargs :=
       {| kw_timeout := 30; kw_verify := None; kw_params := None;
          kw_json := Some (PyDict {[ "public_key" := PyStr "ssh-rsa AAAA";
                                     "valid_principals" := PyStr "ubuntu" ]}) |} |}.

(** A Vault served under a path of a reverse proxy. *)
Definition proxied_kwargs : gmap string string :=
  <["url" := "https://vault.example.com/vault"]> kv_v1_kwargs.

Definition ssh_body : value :=
  PyDict {[ "data" := PyDict {[ "signed_key" := PyStr "ssh-rsa-cert-v01 AAAA" ]} ]}.

(** A KV lookup that pins the server's certificate. *)
Definition pinned_kwargs : gmap string string :=
  <["cacert" := "PEM"]> kv_v1_kwargs.

Definition pinned_request : Request :=
  {| method := GET;
     request_url := "http://vault:8200/v1/kv/creds";
     headers := {[ "Authorization" := "Bearer s.token" ]};
     request_kwargs :=
       {| kw_timeout := 30; kw_verify := Some (sample_names 0);
          kw_params := None; kw_json := None |} |}.

(** A response that is not JSON, and one whose secret is not a mapping. *)
Definition html_response : Response :=
  {| status_code := 200; text := "<html></html>"; decoded := None |}.

Definition scalar_body : value := PyDict {[ "data" := PyStr "s3cr3t" ]}.

(** A Vault behind a reverse proxy, the path given with its trailing
    slash. *)
Definition slash_kwargs : gmap string string :=
  <["url" := "https://proxy.example.com/vault/"]> kv_v1_kwargs.

(** A mistyped IPv6 address. *)
Definition bracket_kwargs : gmap string string :=
  <["url" := "http://[::1"]> kv_v1_kwargs.

(** ** What the backends read *)

(** The parameters a backend reads with [kwargs[...]], in the order it
    reads them (lines 102-107 and 148-158); all the others are read with
    [kwargs.get]. *)
Definition reads (p : plugin) : list string :=
  match p with
  | hashivault_kv_plugin => ["token"; "url"; "secret_path"; "api_version"]
  | hashivault_ssh_plugin =>
      ["token"; "url"; "secret_path"; "role"; "public_key"]
  end.

(** The first of [keys] that [kwargs] does not hold. *)
Fixpoint first_missing (keys : list string) (kwargs : gmap string string)
  : option string :=
  match keys with
  | [] => None
  | key :: keys' =>
      match kwargs !! key with
      | Some _ => first_missing keys' kwargs
      | None => Some key
      end
  end.

Definition is_dict (v : value) : bool :=
  match v with
  | PyDict _ => true
  | _ => false
  end.

(** The pipe [create_temporary_fifo] adds to a world for a certificate,
    given the path [tempfile] picks. *)
Definition pipe_for (candidate_name : nat -> string) (w : World)
    (pem : string) : Fifo :=
  mkFifo (candidate_name (List.length (fifos w))) S_IRUSR_IWUSR pem.

(** The world a backend leaves once it has sent [req]: one more request,
    and one more pipe when a certificate was given. *)
Definition world_after (candidate_name : nat -> string) (w : World)
    (cacert : option string) (req : Request) : World :=
  {| fifos := if truthy_opt cacert
              then fifos w ++ [pipe_for candidate_name w
                                 (default EmptyString cacert)]
              else fifos w;
     sent := sent w ++ [req] |}.

(** The method a backend sends its request with. *)
Definition method_of (p : plugin) : http_method :=
  match p with
  | hashivault_kv_plugin => GET
  | hashivault_ssh_plugin => POST
  end.

(** A path component as the versioned engine uses it: not empty, not
    [.], and free of separators. *)
Definition component (x : string) : bool :=
  Pathlib.wanted x && negb (Str.contains "/" x).

(** The URL the KV backend requests (lines 119-125 and 131). *)
Definition kv_request_url (api_version url secret_path : string)
  : result string :=
  if String.eqb api_version "v2" then
    rbind (mount_point_and_path secret_path)
      (fun '(mount_point, path) =>
         Ok (Str.rstrip "/"
               (Str.join "/" ([url; mount_point; "data"] ++ path))))
  else Ok (Str.rstrip "/" (Str.join "/" [url; secret_path])).

(** A segment of a URL path that holds none of the delimiters [/], [?],
    [#], [;]. *)
Definition plain (x : string) : bool :=
  negb (Str.contains "/" x) && negb (Str.contains "?" x)
  && negb (Str.contains "#" x) && negb (Str.contains ";" x).

(** A directory of a URL path: a non-empty plain segment other than [.]
    and [..]. *)
Definition directory (x : string) : bool :=
  Str.truthy x && negb (String.eqb x ".") && negb (String.eqb x "..")
  && plain x.

(** A would-be network location with an opening square bracket and no
    closing one, or the other way round. *)
Definition unpaired_brackets (netloc : string) : bool :=
  negb (Str.contains "/" netloc) && negb (Str.contains "?" netloc)
  && negb (Str.contains "#" netloc)
  && negb (Bool.eqb (Str.contains "[" netloc) (Str.contains "]" netloc)).

(** ** The input schemas (lines 15-82) *)

(** The schemas are built at import time out of dicts and lists that are
    copied and then changed in place, so they are modelled on a heap.
    What a name, a list slot or a dict slot holds is an immutable value
    or a reference to a list or a dict of the heap; [ILazy] is the proxy
    [ugettext_lazy] returns for a message. *)
Inductive item : Type :=
  | IStr (s : string)
  | ILazy (message : string)
  | IBool (b : bool)
  | Ref (address : nat).

(** The keys of the dicts of this module are [str] literals.  A dict is
    kept by key: the order of insertion, which only shows in the order a
    dict is iterated in, is not kept. *)
Inductive object : Type :=
  | ObjList (items : list item)
  | ObjDict (entries : gmap string item).

#[local] Instance item_eq_dec : EqDecision item.
Proof. solve_decision. Defined.

#[local] Instance object_eq_dec : EqDecision object.
Proof. solve_decision. Defined.

(** A statement of the module's top level: runs on a heap, returns or
    raises ([None]), and leaves a heap. *)
Definition Init (A : Type) : Type := list object -> option A * list object.

Definition iret {A} (a : A) : Init A := fun h => (Some a, h).

Definition ifail {A} : Init A := fun h => (None, h).

Definition ibind {A B} (m : Init A) (k : A -> Init B) : Init B :=
  fun h =>
    match m h with
    | (Some a, h') => k a h'
    | (None, h') => (None, h')
    end.

Notation "'let+' x ':=' m 'in' k" := (ibind m (fun x => k))
  (at level 10, x name, m at level 100, k at level 200).
Notation "m ';+' k" := (ibind m (fun _ => k))
  (at level 100, k at level 200, right associativity).

Fixpoint ifold {A B} (f : B -> A -> Init B) (b : B) (l : list A) : Init B :=
  match l with
  | [] => iret b
  | a :: l' => let+ b' := f b a in ifold f b' l'
  end.

Definition alloc (o : object) : Init item :=
  fun h => (Some (Ref (List.length h)), h ++ [o]).

Definition load (x : item) : Init object :=
  fun h =>
    (match x with
     | Ref a => h !! a
     | _ => None
     end, h).

Definition store (x : item) (o : object) : Init unit :=
  fun h =>
    match x with
    | Ref a =>
        match h !! a with
        | Some _ => (Some tt, <[a := o]> h)
        | None => (None, h)
        end
    | _ => (None, h)
    end.

(** A list display [[x, ...]] and a dict display [{k: v, ...}] of already
    evaluated items; in a dict display a later entry wins. *)
Definition new_list (items : list item) : Init item := alloc (ObjList items).

Definition new_dict (entries : list (string * item)) : Init item :=
  alloc (ObjDict (fold_left (fun m kv => <[fst kv := snd kv]> m) entries ∅)).

(** [d[key]]. *)
Definition dict_getitem (d : item) (key : string) : Init item :=
  let+ o := load d in
  match o with
  | ObjDict entries =>
      match entries !! key with
      | Some v => iret v
      | None => ifail
      end
  | ObjList _ => ifail
  end.

(** [d[key] = v]. *)
Definition dict_setitem (d : item) (key : string) (v : item) : Init unit :=
  let+ o := load d in
  match o with
  | ObjDict entries => store d (ObjDict (<[key := v]> entries))
  | ObjList _ => ifail
  end.

(** [l.append(x)]. *)
Definition list_append (l x : item) : Init unit :=
  let+ o := load l in
  match o with
  | ObjList items => store l (ObjList (items ++ [x]))
  | ObjDict _ => ifail
  end.

(** [l.extend(xs)] for a list [xs], the only kind the module passes. *)
Definition list_extend (l xs : item) : Init unit :=
  let+ o := load l in
  let+ more := load xs in
  match o, more with
  | ObjList items, ObjList items' => store l (ObjList (items ++ items'))
  | _, _ => ifail
  end.

(** [a + b]: a new list. *)
Definition list_add (a b : item) : Init item :=
  let+ o := load a in
  let+ o' := load b in
  match o, o' with
  | ObjList items, ObjList items' => new_list (items ++ items')
  | _, _ => ifail
  end.

(** [copy.deepcopy]: strings, booleans and lazy messages are returned as
    they are; a list or a dict is copied into a new object, registered in
    the memo before its elements are copied one by one, so that an object
    reached twice is copied once.  The fuel bounds the depth of nesting
    (the interpreter's recursion limit). *)
Fixpoint deepcopy_memo (fuel : nat) (memo : gmap nat item) (x : item)
  : Init (item * gmap nat item) :=
  match x with
  | Ref a =>
      match memo !! a with
      | Some y => iret (y, memo)
      | None =>
          match fuel with
          | O => ifail
          | S fuel' =>
              let+ o := load x in
              match o with
              | ObjList items =>
                  let+ y := new_list [] in
                  let+ memo' :=
                    ifold (fun memo a =>
                             let+ c := deepcopy_memo fuel' memo a in
                             list_append y (fst c) ;+ iret (snd c))
                          (<[a := y]> memo) items in
                  iret (y, memo')
              | ObjDict entries =>
                  let+ y := new_dict [] in
                  let+ memo' :=
                    ifold (fun memo kv =>
                             let+ c := deepcopy_memo fuel' memo (snd kv) in
                             dict_setitem y (fst kv) (fst c) ;+ iret (snd c))
                          (<[a := y]> memo) (map_to_list entries) in
                  iret (y, memo')
              end
          end
      end
  | _ => iret (x, memo)
  end.

Definition recursion_limit : nat := 1000.

Definition deepcopy (x : item) : Init item :=
  let+ c := deepcopy_memo recursion_limit ∅ x in iret (fst c).

(** Lines 15-42. *)
Definition base_inputs_display : Init item :=
  let+ url :=
    new_dict [("id", IStr "url"); ("label", ILazy "Server URL");
              ("type", IStr "string"); ("format", IStr "url");
              ("help_text", ILazy "The URL to the HashiCorp Vault")] in
  let+ token :=
    new_dict [("id", IStr "token"); ("label", ILazy "Token");
              ("type", IStr "string"); ("secret", IBool true);
              ("help_text",
               ILazy "The access token used to authenticate to the Vault server")] in
  let+ cacert :=
    new_dict [("id", IStr "cacert"); ("label", ILazy "CA Certificate");
              ("type", IStr "string"); ("multiline", IBool true);
              ("help_text",
               ILazy "The CA certificate used to verify the SSL certificate of the Vault server")] in
  let+ fields := new_list [url; token; cacert] in
  let+ secret_path :=
    new_dict [("id", IStr "secret_path"); ("label", ILazy "Path to Secret");
              ("type", IStr "string");
              ("help_text",
               ILazy "The path to the secret e.g., /some-engine/some-secret/")] in
  let+ metadata := new_list [secret_path] in
  let+ required := new_list [IStr "url"; IStr "token"; IStr "secret_path"] in
  new_dict [("fields", fields); ("metadata", metadata); ("required", required)].

(** Lines 44-63. *)
Definition hashi_kv_inputs_statements (base_inputs : item) : Init item :=
  let+ hashi_kv_inputs := deepcopy base_inputs in
  let+ fields := dict_getitem hashi_kv_inputs "fields" in
  let+ choices := new_list [IStr "v1"; IStr "v2"] in
  let+ api_version :=
    new_dict [("id", IStr "api_version"); ("label", ILazy "API Version");
              ("choices", choices);
              ("help_text",
               ILazy "API v1 is for static key/value lookups.  API v2 is for versioned key/value lookups.");
              ("default", IStr "v1")] in
  list_append fields api_version ;+
  let+ metadata := dict_getitem hashi_kv_inputs "metadata" in
  let+ secret_key :=
    new_dict [("id", IStr "secret_key"); ("label", ILazy "Key Name");
              ("type", IStr "string");
              ("help_text",
               ILazy "The name of the key to look up in the secret.")] in
  let+ secret_version :=
    new_dict [("id", IStr "secret_version");
              ("label", ILazy "Secret Version (v2 only)");
              ("type", IStr "string");
              ("help_text",
               ILazy "Used to specify a specific secret version (if left empty, the latest version will be used).")] in
  let+ more := new_list [secret_key; secret_version] in
  list_extend metadata more ;+
  let+ required := dict_getitem hashi_kv_inputs "required" in
  let+ more := new_list [IStr "api_version"; IStr "secret_key"] in
  list_extend required more ;+
  iret hashi_kv_inputs.

(** Lines 65-82. *)
Definition hashi_ssh_inputs_statements (base_inputs : item) : Init item :=
  let+ hashi_ssh_inputs := deepcopy base_inputs in
  let+ public_key :=
    new_dict [("id", IStr "public_key"); ("label", ILazy "Unsigned Public Key");
              ("type", IStr "string"); ("multiline", IBool true)] in
  let+ before := new_list [public_key] in
  let+ metadata := dict_getitem hashi_ssh_inputs "metadata" in
  let+ left := list_add before metadata in
  let+ role :=
    new_dict [("id", IStr "role"); ("label", ILazy "Role Name");
              ("type", IStr "string");
              ("help_text", ILazy "The name of the role used to sign.")] in
  let+ valid_principals :=
    new_dict [("id", IStr "valid_principals"); ("label", ILazy "Valid Principals");
              ("type", IStr "string");
              ("help_text",
               ILazy "Valid principals (either usernames or hostnames) that the certificate should be signed for.")] in
  let+ after := new_list [role; valid_principals] in
  let+ metadata := list_add left after in
  dict_setitem hashi_ssh_inputs "metadata" metadata ;+
  let+ required := dict_getitem hashi_ssh_inputs "required" in
  let+ more := new_list [IStr "public_key"; IStr "role"] in
  list_extend required more ;+
  iret hashi_ssh_inputs.

(** The module's global names once it is imported. *)
Record Globals : Type := mkGlobals {
  base_inputs : item;
  hashi_kv_inputs : item;
  hashi_ssh_inputs : item;
}.

#[local] Instance Globals_eq_dec : EqDecision Globals.
Proof. solve_decision. Defined.

Definition module_body : Init Globals :=
  let+ base := base_inputs_display in
  let+ kv := hashi_kv_inputs_statements base in
  let+ ssh := hashi_ssh_inputs_statements base in
  iret (mkGlobals base kv ssh).

(** The [inputs] each plugin is registered with (lines 172-182). *)
Definition plugin_inputs (g : Globals) (p : plugin) : item :=
  match p with
  | hashivault_kv_plugin => hashi_kv_inputs g
  | hashivault_ssh_plugin => hashi_ssh_inputs g
  end.

(** ** Reading a schema *)

Definition items_at (h : list object) (x : item) : list item :=
  match x with
  | Ref a =>
      match h !! a with
      | Some (ObjList items) => items
      | _ => []
      end
  | _ => []
  end.

Definition entry_at (h : list object) (x : item) (key : string) : option item :=
  match x with
  | Ref a =>
      match h !! a with
      | Some (ObjDict entries) => entries !! key
      | _ => None
      end
  | _ => None
  end.

Definition str_of (x : item) : option string :=
  match x with
  | IStr s => Some s
  | _ => None
  end.

(** The elements of the list [inputs[name]]. *)
Definition section_of (h : list object) (inputs : item) (name : string)
  : list item :=
  match entry_at h inputs name with
  | Some l => items_at h l
  | None => []
  end.

(** The ids [inputs['required']] lists. *)
Definition required_ids (h : list object) (inputs : item) : list string :=
  omap str_of (section_of h inputs "required").

(** The ids of the entries of [inputs['fields']] and
    [inputs['metadata']]. *)
Definition declared_ids (h : list object) (inputs : item) : list string :=
  omap (fun entry => match entry_at h entry "id" with
                     | Some x => str_of x
                     | None => None
                     end)
       (section_of h inputs "fields" ++ section_of h inputs "metadata").

(** The lists and dicts that can be reached from an item. *)
Fixpoint reachable (fuel : nat) (h : list object) (x : item) : list nat :=
  match x, fuel with
  | Ref a, S fuel' =>
      a :: match h !! a with
           | Some (ObjList items) => flat_map (reachable fuel' h) items
           | Some (ObjDict entries) =>
               flat_map (fun kv => reachable fuel' h (snd kv))
                        (map_to_list entries)
           | None => []
           end
  | _, _ => []
  end.

(** The module once imported: its globals and its heap. *)
Definition imported : option Globals * list object := module_body [].

Definition required (p : plugin) : list string :=
  match imported with
  | (Some g, h) => required_ids h (plugin_inputs g p)
  | (None, _) => []
  end.

Definition declared (p : plugin) : list string :=
  match imported with
  | (Some g, h) => declared_ids h (plugin_inputs g p)
  | (None, _) => []
  end.

(** * Properties *)

(** ** Strings *)

Lemma append_assoc (a b c : string) : (a +:+ b) +:+ c = a +:+ (b +:+ c).
Proof. induction a as [|x a IH]; simpl; [reflexivity | now rewrite IH]. Qed.

Lemma truthy_true (s : string) : Str.truthy s = true <-> s <> EmptyString.
Proof. destruct s; simpl; split; congruence. Qed.

Lemma take_all (s : string) (n : nat) :
  (String.length s <= n)%nat -> Str.take n s = s.
Proof.
  revert n; induction s as [|a s IH]; intros [|n] H; simpl in *;
    try reflexivity; try lia.
  rewrite IH; [reflexivity | lia].
Qed.

Lemma drop_all (s : string) (n : nat) :
  (String.length s <= n)%nat -> Str.drop n s = EmptyString.
Proof.
  revert n; induction s as [|a s IH]; intros [|n] H; simpl in *;
    try reflexivity; try lia.
  apply IH; lia.
Qed.

Lemma bound_nonneg (s : string) (i : Z) :
  0 <= i -> Str.bound s i = Nat.min (String.length s) (Z.to_nat i).
Proof.
  intros Hi. unfold Str.bound, Str.len.
  destruct (Z.ltb_spec i 0); lia.
Qed.

Lemma take_min (s : string) (n : nat) :
  Str.take (Nat.min (String.length s) n) s = Str.take n s.
Proof.
  destruct (Nat.le_ge_cases (String.length s) n) as [H|H].
  - rewrite Nat.min_l by assumption. now rewrite !take_all by lia.
  - now rewrite Nat.min_r by assumption.
Qed.

Lemma drop_min (s : string) (n : nat) :
  Str.drop (Nat.min (String.length s) n) s = Str.drop n s.
Proof.
  destruct (Nat.le_ge_cases (String.length s) n) as [H|H].
  - rewrite Nat.min_l by assumption. now rewrite !drop_all by lia.
  - now rewrite Nat.min_r by assumption.
Qed.

(** For a bound that is not negative a slice is a plain prefix or suffix. *)
Lemma slice_to_nonneg (s : string) (i : Z) :
  0 <= i -> Str.slice_to s i = Str.take (Z.to_nat i) s.
Proof.
  intros Hi. unfold Str.slice_to. rewrite bound_nonneg by assumption.
  apply take_min.
Qed.

Lemma slice_from_nonneg (s : string) (i : Z) :
  0 <= i -> Str.slice_from s i = Str.drop (Z.to_nat i) s.
Proof.
  intros Hi. unfold Str.slice_from. rewrite bound_nonneg by assumption.
  apply drop_min.
Qed.

Lemma slice_from_len (s : string) :
  Str.slice_from s (Str.len s) = EmptyString.
Proof.
  rewrite slice_from_nonneg by (unfold Str.len; lia).
  apply drop_all. unfold Str.len. lia.
Qed.

Lemma find_at_absent (c : ascii) (s : string) (pos start : Z) :
  Str.contains c s = false -> Str.find_at c s pos start = -1.
Proof.
  revert pos; induction s as [|a s IH]; intros pos H; simpl in *.
  - reflexivity.
  - destruct (Ascii.eqb a c); [discriminate |].
    rewrite andb_false_r. now apply IH.
Qed.

Lemma join_app_cons (sep : string) (l : list string) (x : string) (l' : list string) :
  Str.join sep (l ++ x :: l') =
  match l with
  | [] => Str.join sep (x :: l')
  | _ => Str.join sep l +:+ sep +:+ Str.join sep (x :: l')
  end.
Proof.
  induction l as [|y l IH]; [reflexivity |].
  destruct l as [|z l].
  - reflexivity.
  - change (Str.join sep ((y :: z :: l) ++ x :: l'))
      with (y +:+ sep +:+ Str.join sep ((z :: l) ++ x :: l')).
    rewrite IH. cbv beta iota.
    change (Str.join sep (y :: z :: l)) with (y +:+ sep +:+ Str.join sep (z :: l)).
    now rewrite !append_assoc.
Qed.

Lemma join_truthy (sep x : string) (l : list string) :
  Str.truthy x = true -> Str.truthy (Str.join sep (x :: l)) = true.
Proof.
  intros Hx. destruct x as [|a x]; [discriminate |].
  destruct l; reflexivity.
Qed.

(** [rstrip] removes a run of the character at the end and nothing else,
    and what is left does not end with that character. *)
Lemma rstrip_spec (c : ascii) (s : string) :
  Str.endswith c (Str.rstrip c s) = false /\
  exists k : nat, s = Str.rstrip c s +:+ Str.mul c k.
Proof.
  induction s as [|a s [IH1 [k IH2]]]; simpl.
  - split; [reflexivity | exists 0%nat; reflexivity].
  - destruct (Str.rstrip c s) as [|b r] eqn:E.
    + destruct (Ascii.eqb_spec a c) as [->|Hne].
      * split; [reflexivity |]. exists (S k). simpl in *. now rewrite IH2 at 1.
      * split; [simpl; now apply Ascii.eqb_neq |].
        exists k. simpl. now rewrite IH2 at 1.
    + split.
      * simpl in *. exact IH1.
      * exists k. simpl. now rewrite IH2 at 1.
Qed.

(** ** [urljoin] on a server URL without a path *)

Lemma len_cons (a : ascii) (s : string) : Str.len (String a s) = Str.len s + 1.
Proof. unfold Str.len. simpl String.length. lia. Qed.

Lemma take_empty (n : nat) : Str.take n EmptyString = EmptyString.
Proof. now destruct n. Qed.

Lemma length_drop (s : string) (n : nat) :
  String.length (Str.drop n s) = (String.length s - n)%nat.
Proof.
  revert n; induction s as [|a s IH]; intros [|n]; simpl; try reflexivity.
  apply IH.
Qed.

Lemma slice_nonneg (s : string) (i j : Z) :
  0 <= i <= j ->
  Str.slice s i j = Str.take (Z.to_nat (j - i)) (Str.drop (Z.to_nat i) s).
Proof.
  intros Hij. unfold Str.slice. rewrite !bound_nonneg by lia.
  destruct (Nat.le_gt_cases (String.length s) (Z.to_nat i)) as [Hi|Hi].
  - rewrite (Nat.min_l _ (Z.to_nat i)) by lia.
    rewrite !drop_all by lia. now rewrite !take_empty.
  - rewrite (Nat.min_r _ (Z.to_nat i)) by lia.
    destruct (Nat.le_gt_cases (String.length s) (Z.to_nat j)) as [Hj|Hj].
    + rewrite Nat.min_l by lia.
      rewrite !take_all; [reflexivity | |]; rewrite length_drop; lia.
    + rewrite Nat.min_r by lia. f_equal. lia.
Qed.

Lemma splitnetloc_whole (netloc : string) :
  is_netloc netloc = true ->
  Urllib.splitnetloc ("//" +:+ netloc) 2 = (netloc, EmptyString).
Proof.
  unfold is_netloc. intros H.
  repeat (apply andb_prop in H as [H ?]).
  repeat match goal with
         | X : negb _ = true |- _ => apply negb_true_iff in X
         end.
  change ("//" +:+ netloc) with (String "/" (String "/" netloc)).
  set (url := String "/" (String "/" netloc)).
  assert (Hfind : forall c, Str.contains c netloc = false ->
            Str.find_from c url 2 = -1).
  { intros c Hc. unfold Str.find_from, url. simpl. now apply find_at_absent. }
  assert (Hlen : Str.len url = Str.len netloc + 2).
  { unfold url. rewrite !len_cons. lia. }
  unfold Urllib.splitnetloc. cbv [fold_left].
  rewrite !Hfind by assumption. change (0 <=? -1) with false.
  cbv beta iota.
  rewrite slice_from_len. f_equal.
  rewrite slice_nonneg by (rewrite Hlen; unfold Str.len; lia).
  rewrite Hlen. change (Z.to_nat 2) with 2%nat. unfold url. simpl Str.drop.
  apply take_all. unfold Str.len. lia.
Qed.

Lemma brackets_paired (netloc : string) :
  Bool.eqb (Str.contains "[" netloc) (Str.contains "]" netloc) = true ->
  Str.contains "[" netloc && negb (Str.contains "]" netloc)
  || Str.contains "]" netloc && negb (Str.contains "[" netloc) = false.
Proof. now destruct (Str.contains "[" netloc), (Str.contains "]" netloc). Qed.

Lemma split_after_scheme_netloc (scheme netloc : string) :
  is_netloc netloc = true ->
  Urllib.split_after_scheme scheme ("//" +:+ netloc)
  = Ok (scheme, netloc, EmptyString, EmptyString, EmptyString).
Proof.
  intros H. unfold Urllib.split_after_scheme.
  rewrite slice_to_nonneg by lia.
  change (Str.take (Z.to_nat 2) ("//" +:+ netloc)) with "//".
  change (String.eqb "//" "//") with true. cbv iota.
  rewrite splitnetloc_whole by assumption.
  unfold is_netloc in H. apply andb_prop in H as [_ H].
  now rewrite brackets_paired.
Qed.

Lemma urlsplit_http (netloc : string) :
  is_netloc netloc = true ->
  Urllib.urlsplit ("http://" +:+ netloc) EmptyString
  = Ok ("http", netloc, EmptyString, EmptyString, EmptyString).
Proof.
  intros H. unfold Urllib.urlsplit.
  change ("http://" +:+ netloc)
    with (String "h" (String "t" (String "t" (String "p"
            (String ":" ("//" +:+ netloc)))))).
  set (rest := "//" +:+ netloc).
  change (Str.find ":" (String "h" (String "t" (String "t" (String "p"
            (String ":" rest)))))) with 4.
  change (0 <? 4) with true. cbv iota.
  rewrite slice_to_nonneg, slice_from_nonneg by lia.
  simpl Str.take. simpl Str.drop. simpl String.eqb. cbv iota.
  now apply split_after_scheme_netloc.
Qed.

Lemma urlsplit_https (netloc : string) :
  is_netloc netloc = true ->
  Urllib.urlsplit ("https://" +:+ netloc) EmptyString
  = Ok ("https", netloc, EmptyString, EmptyString, EmptyString).
Proof.
  intros H. unfold Urllib.urlsplit.
  change ("https://" +:+ netloc)
    with (String "h" (String "t" (String "t" (String "p" (String "s"
            (String ":" ("//" +:+ netloc))))))).
  set (rest := "//" +:+ netloc).
  change (Str.find ":" (String "h" (String "t" (String "t" (String "p"
            (String "s" (String ":" rest))))))) with 5.
  change (0 <? 5) with true. cbv iota.
  rewrite slice_to_nonneg, slice_from_nonneg by lia.
  simpl Str.take. simpl Str.drop. simpl String.eqb. cbv iota.
  change (Str.all_in Urllib.scheme_chars "https") with true. cbv iota.
  unfold rest at 1 2.
  change ("//" +:+ netloc) with (String "/" (String "/" netloc)).
  simpl Str.truthy. simpl Str.all_in. simpl negb. simpl orb. cbv iota.
  now apply split_after_scheme_netloc.
Qed.

Lemma urljoin_no_path (scheme netloc : string) :
  scheme = "http" \/ scheme = "https" ->
  is_netloc netloc = true ->
  Urllib.urljoin (scheme +:+ "://" +:+ netloc) "v1"
  = Ok (scheme +:+ "://" +:+ netloc +:+ "/v1").
Proof.
  intros [-> | ->] H.
  - unfold Urllib.urljoin.
    change ("http" +:+ "://" +:+ netloc) with ("http://" +:+ netloc).
    change (Str.truthy ("http://" +:+ netloc)) with true.
    simpl negb. cbv iota. unfold Urllib.urlparse.
    rewrite urlsplit_http by assumption.
    simpl. now rewrite orb_true_r.
  - unfold Urllib.urljoin.
    change ("https" +:+ "://" +:+ netloc) with ("https://" +:+ netloc).
    change (Str.truthy ("https://" +:+ netloc)) with true.
    simpl negb. cbv iota. unfold Urllib.urlparse.
    rewrite urlsplit_https by assumption.
    simpl. now rewrite orb_true_r.
Qed.

(** ** Decomposition of the secret location *)

Lemma lstrip_no_sep (c : ascii) (s : string) :
  Str.contains c s = false -> Str.lstrip c s = s.
Proof.
  destruct s as [|a s]; simpl; [reflexivity |].
  now destruct (Ascii.eqb a c).
Qed.

Lemma parts_single (s : string) :
  Str.contains "/" s = false ->
  Pathlib.parts s = if Pathlib.wanted s then [s] else [].
Proof.
  intros H. destruct s as [|a s]; [reflexivity |].
  unfold Pathlib.parts, Pathlib.parse_parts, Pathlib.splitroot.
  pose proof H as H'. simpl in H'.
  destruct (Ascii.eqb a "/") eqn:E; [discriminate |].
  cbv beta iota zeta. rewrite H.
  change (Str.truthy (String a s)) with true.
  change (Str.truthy EmptyString) with false.
  cbv beta iota zeta. simpl negb. simpl orb. cbv iota.
  now destruct (Pathlib.wanted (String a s)).
Qed.

Lemma wanted_truthy (x : string) : Pathlib.wanted x = true -> Str.truthy x = true.
Proof. unfold Pathlib.wanted. now intros [H _]%andb_prop. Qed.

(** Every component that [pathlib] reports is a non-empty string. *)
Lemma parts_truthy (s : string) :
  Forall (fun x => Str.truthy x = true) (Pathlib.parts s).
Proof.
  unfold Pathlib.parts, Pathlib.parse_parts.
  destruct (negb (Str.truthy s)); [constructor |].
  destruct (Pathlib.splitroot s) as [[drv root] rel].
  apply Forall_rev.
  assert (Hparsed : Forall (fun x => Str.truthy x = true)
            (if Str.contains "/" rel
             then List.filter Pathlib.wanted (rev (Str.split "/" rel))
             else if Pathlib.wanted rel then [rel] else [])).
  { destruct (Str.contains "/" rel).
    - apply Forall_forall. intros x Hx%list_elem_of_In.
      apply filter_In in Hx as [_ Hx]. now apply wanted_truthy.
    - destruct (Pathlib.wanted rel) eqn:E; repeat constructor.
      now apply wanted_truthy. }
  destruct (Str.truthy drv || Str.truthy root) eqn:E; [| exact Hparsed].
  apply Forall_app. split; [exact Hparsed |].
  repeat constructor.
  destruct drv; [| reflexivity]. simpl in *. exact E.
Qed.

Lemma mount_point_and_path_cases (secret_path mount_point : string)
    (path : list string) :
  mount_point_and_path secret_path = Ok (mount_point, path) ->
  path = [] \/ exists x l, path = x :: l /\ Str.truthy x = true.
Proof.
  unfold mount_point_and_path, try_except, try_mount_point_and_path.
  pose proof (parts_truthy (Str.lstrip "/" secret_path)) as HF.
  destruct (Pathlib.parts (Str.lstrip "/" secret_path)) as [|m p]; simpl.
  - intros [= <- <-]. now left.
  - intros [= <- <-]. apply Forall_inv_tail in HF.
    destruct p as [|x l]; [now left | right].
    exists x, l. split; [reflexivity | now apply Forall_inv in HF].
Qed.

(** ** The base URL *)

Lemma urljoin_raises (base url : string) (e : exception) :
  Urllib.urljoin base url = Raise e -> e = ValueError "Invalid IPv6 URL".
Proof.
  assert (Hsplit : forall scheme u e',
            Urllib.split_after_scheme scheme u = Raise e' ->
            e' = ValueError "Invalid IPv6 URL").
  { intros scheme u e'. unfold Urllib.split_after_scheme.
    destruct (String.eqb _ _); [| simpl].
    - destruct (Urllib.splitnetloc u 2) as [n r].
      destruct (_ || _); simpl; [congruence |].
      destruct (if Str.contains "#" r then _ else _) as [u0 f].
      destruct (if Str.contains "?" u0 then _ else _); discriminate.
    - destruct (if Str.contains "#" u then _ else _) as [u0 f].
      destruct (if Str.contains "?" u0 then _ else _); discriminate. }
  assert (Hurlsplit : forall u scheme e',
            Urllib.urlsplit u scheme = Raise e' ->
            e' = ValueError "Invalid IPv6 URL").
  { intros u scheme e'. unfold Urllib.urlsplit.
    repeat match goal with
           | |- context [if ?b then _ else _] => destruct b
           end; apply Hsplit. }
  assert (Hparse : forall u scheme e',
            Urllib.urlparse u scheme = Raise e' ->
            e' = ValueError "Invalid IPv6 URL").
  { intros u scheme e'. unfold Urllib.urlparse.
    destruct (Urllib.urlsplit u scheme) as [[[[[s n] p] q] f]|e0] eqn:E; simpl.
    - destruct (_ && _); [destruct (Urllib.splitparams p) |]; discriminate.
    - intros [= <-]. eapply Hurlsplit, E. }
  unfold Urllib.urljoin.
  destruct (negb (Str.truthy base)); [discriminate |].
  destruct (negb (Str.truthy url)); [discriminate |].
  destruct (Urllib.urlparse base EmptyString)
    as [[[[[[bs bn] bp] bpa] bq] bf]|e0] eqn:Eb; simpl.
  - destruct (Urllib.urlparse url bs) as [[[[[[s n] p] pa] q] f]|e1] eqn:Eu; simpl.
    + repeat match goal with
             | |- context [if ?b then _ else _] => destruct b
             end; discriminate.
    + intros [= <-]. eapply Hparse, Eu.
  - intros [= <-]. eapply Hparse, Eb.
Qed.

Lemma mount_point_and_path_ok (secret_path : string) :
  exists mount_point path,
    mount_point_and_path secret_path = Ok (mount_point, path).
Proof.
  unfold mount_point_and_path, try_except, try_mount_point_and_path.
  destruct (unpack_first _) as [[m p]|e]; simpl; eauto.
Qed.

Lemma app_one_neq {A} (l : list A) (x : A) : l <> l ++ [x].
Proof.
  intros H. apply (f_equal (@List.length A)) in H.
  rewrite length_app in H. simpl in H. lia.
Qed.

Lemma base_url_raises (kwargs : gmap string string) (e : exception) :
  base_url kwargs = Raise e ->
  e = KeyError "url" \/ e = ValueError "Invalid IPv6 URL".
Proof.
  unfold base_url, getitem. destruct (kwargs !! "url") as [server|]; simpl.
  - intros H. right. eapply urljoin_raises, H.
  - intros [= <-]. now left.
Qed.

(** ** Responses *)

Lemma kv_handle_ok (api_version : string) (secret_key : option string)
    (secret_path : string) (response : Response) (v : value) :
  kv_handle api_version secret_key secret_path response = Ok v ->
  exists body mapping,
    decoded response = Some body /\
    secret_mapping api_version body = Ok mapping /\
    match secret_key with
    | Some key =>
        if Str.truthy key then subscript mapping key = Ok v else v = mapping
    | None => v = mapping
    end.
Proof.
  unfold kv_handle, response_json, secret_mapping.
  destruct (raise_for_status response) as [[]|]; [simpl | discriminate].
  destruct (decoded response) as [body|]; [simpl | discriminate].
  intros H. exists body.
  destruct (String.eqb api_version "v2"); simpl in *.
  - destruct (subscript body "data") as [json|]; [simpl in * | discriminate].
    destruct secret_key as [key|]; simpl in *;
      [destruct (Str.truthy key) |]; eauto.
    destruct (subscript json "data") as [d|[]]; simpl in *; try discriminate.
    exists d. split; [reflexivity |]. split; [reflexivity |].
    destruct (subscript d key) as [x|[]]; congruence.
  - destruct secret_key as [key|]; simpl in *;
      [destruct (Str.truthy key) |]; eauto.
    destruct (subscript body "data") as [d|[]]; simpl in *; try discriminate.
    exists d. split; [reflexivity |]. split; [reflexivity |].
    destruct (subscript d key) as [x|[]]; congruence.
Qed.

Lemma kv_handle_not_runtime (api_version secret_path : string)
    (secret_key : option string) (response : Response) (msg : string) :
  truthy_opt secret_key = false ->
  kv_handle api_version secret_key secret_path response
  <> Raise (RuntimeError msg).
Proof.
  intros Hk. unfold kv_handle, raise_for_status, response_json, subscript.
  rewrite Hk.
  destruct (_ && _); [discriminate | simpl].
  destruct (decoded response) as [body|]; [simpl | discriminate].
  destruct (String.eqb api_version "v2"); simpl.
  - destruct body; try discriminate.
    destruct (d !! "data") as [json|]; [simpl | discriminate].
    destruct json; try discriminate. now destruct (d0 !! "data").
  - destruct body; try discriminate. now destruct (d !! "data").
Qed.

Lemma raise_for_status_2xx (response : Response) :
  200 <= status_code response < 300 -> raise_for_status response = Ok tt.
Proof.
  intros H. unfold raise_for_status.
  destruct (Z.leb_spec 400 (status_code response)); [lia | reflexivity].
Qed.

Lemma raise_for_status_error (response : Response) :
  400 <= status_code response < 600 ->
  raise_for_status response = Raise (HTTPError response).
Proof.
  intros H. unfold raise_for_status.
  destruct (Z.leb_spec 400 (status_code response)); [| lia].
  destruct (Z.ltb_spec (status_code response) 600); [reflexivity | lia].
Qed.

(** ** Invocations *)

Section Invocations.

Variable candidate_name : nat -> string.
Variable default_headers : gmap string string.
Variable remote : Request -> Response + string.

Abbreviation kv := (kv_backend candidate_name default_headers remote).
Abbreviation ssh := (ssh_backend candidate_name default_headers remote).
Abbreviation run := (backend candidate_name default_headers remote).

Lemma initial_kwargs_run (cacert : option string) (w : World) :
  exists rk w',
    initial_kwargs candidate_name cacert w = (Ok rk, w') /\
    sent w' = sent w /\
    kw_timeout rk = 30 /\ kw_params rk = None /\ kw_json rk = None /\
    kw_verify rk =
      if truthy_opt cacert
      then Some (candidate_name (List.length (fifos w))) else None.
Proof.
  unfold initial_kwargs. destruct (truthy_opt cacert); simpl.
  - unfold bind, create_temporary_fifo, ret. simpl. eauto 10.
  - unfold ret. eauto 10.
Qed.

Lemma kv_backend_run (kwargs : gmap string string) (w : World)
    (token url secret_path api_version : string) :
  kwargs !! "token" = Some token ->
  base_url kwargs = Ok url ->
  kwargs !! "secret_path" = Some secret_path ->
  kwargs !! "api_version" = Some api_version ->
  exists req w',
    kv_backend candidate_name default_headers remote kwargs w =
      (match remote req with
       | inl response =>
           kv_handle api_version (kwargs !! "secret_key") secret_path response
       | inr msg => Raise (ConnectionError msg)
       end, w') /\
    sent w' = sent w ++ [req] /\
    method req = GET /\
    headers req = session_headers default_headers token /\
    kw_timeout (request_kwargs req) = 30 /\
    kw_json (request_kwargs req) = None /\
    kw_verify (request_kwargs req) =
      (if truthy_opt (kwargs !! "cacert")
       then Some (candidate_name (List.length (fifos w))) else None) /\
    if String.eqb api_version "v2" then
      exists mount_point path,
        mount_point_and_path secret_path = Ok (mount_point, path) /\
        request_url req =
          Str.rstrip "/" (Str.join "/" ([url; mount_point; "data"] ++ path)) /\
        kw_params (request_kwargs req) =
          if truthy_opt (kwargs !! "secret_version")
          then Some {[ "version" := default EmptyString (kwargs !! "secret_version") ]}
          else None
    else
      request_url req = Str.rstrip "/" (Str.join "/" [url; secret_path]) /\
      kw_params (request_kwargs req) = None.
Proof.
  intros Htoken Hurl Hpath Hapi.
  unfold kv_backend, bind, lift, getitem.
  rewrite Htoken, Hurl, Hpath, Hapi.
  destruct (initial_kwargs_run (kwargs !! "cacert") w)
    as (rk & w1 & -> & Hsent & Ht & Hp & Hj & Hv).
  destruct (String.eqb api_version "v2") eqn:Ev.
  - destruct (mount_point_and_path_ok secret_path) as (m & p & Hmp).
    rewrite Hmp.
    set (rk' := if truthy_opt (kwargs !! "secret_version")
                then {| kw_timeout := kw_timeout rk; kw_verify := kw_verify rk;
                        kw_params := Some {[ "version" :=
                           default EmptyString (kwargs !! "secret_version") ]};
                        kw_json := kw_json rk |}
                else rk).
    exists (mkRequest GET
              (Str.rstrip "/" (Str.join "/" ([url; m; "data"] ++ p)))
              (session_headers default_headers token) rk').
    exists {| fifos := fifos w1;
              sent := sent w1 ++
                [mkRequest GET
                   (Str.rstrip "/" (Str.join "/" ([url; m; "data"] ++ p)))
                   (session_headers default_headers token) rk'] |}.
    split.
    + subst rk'. unfold send, ret, kv_handle, raise, rbind.
      destruct (kwargs !! "secret_version") as [v|]; simpl;
        [destruct (Str.truthy v); simpl |].
      all: rewrite Ev.
      all: match goal with
           | |- context [remote ?r] => destruct (remote r) as [resp|msg]
           end; [| reflexivity].
      all: destruct (raise_for_status resp) as [[]|]; [| reflexivity].
      all: destruct (response_json resp) as [body|]; [| reflexivity].
      all: destruct (subscript body "data") as [json|]; [| reflexivity].
      all: destruct (kwargs !! "secret_key") as [key|]; simpl;
        [destruct (Str.truthy key); simpl |]; try reflexivity.
      all: destruct (subscript json "data") as [d|[]];
        simpl; try reflexivity.
      all: destruct (subscript d key) as [x|[]]; reflexivity.
    + simpl. rewrite Hsent. subst rk'.
      destruct (truthy_opt (kwargs !! "secret_version")); simpl; eauto 15.
  - exists (mkRequest GET (Str.rstrip "/" (Str.join "/" [url; secret_path]))
              (session_headers default_headers token) rk).
    exists {| fifos := fifos w1;
              sent := sent w1 ++
                [mkRequest GET (Str.rstrip "/" (Str.join "/" [url; secret_path]))
                   (session_headers default_headers token) rk] |}.
    split.
    + unfold send, ret, kv_handle, raise, rbind. rewrite Ev.
      match goal with
      | |- context [remote ?r] => destruct (remote r) as [resp|msg]
      end; [| reflexivity].
      destruct (raise_for_status resp) as [[]|]; [| reflexivity].
      destruct (response_json resp) as [json|]; [| reflexivity].
      destruct (kwargs !! "secret_key") as [key|]; simpl;
        [destruct (Str.truthy key); simpl |]; try reflexivity.
      destruct (subscript json "data") as [d|[]];
        simpl; try reflexivity.
      destruct (subscript d key) as [x|[]]; reflexivity.
    + simpl. rewrite Hsent. eauto 15.
Qed.

(** Either the four parameters [kv_backend] reads first are there, or
    it raises before touching anything. *)
Lemma kv_backend_shape (kwargs : gmap string string) (w : World) :
  (exists token url secret_path api_version,
      kwargs !! "token" = Some token /\ base_url kwargs = Ok url /\
      kwargs !! "secret_path" = Some secret_path /\
      kwargs !! "api_version" = Some api_version)
  \/ (exists e, kv kwargs w = (Raise e, w) /\ early_error e).
Proof.
  unfold kv_backend, bind, lift, getitem, early_error.
  destruct (kwargs !! "token") as [token|]; [| right; eauto 10].
  destruct (base_url kwargs) as [url|e] eqn:Eu.
  2:{ right. exists e. split; [reflexivity |].
      apply base_url_raises in Eu as [-> | ->]; eauto. }
  destruct (kwargs !! "secret_path") as [secret_path|]; [| right; eauto 10].
  destruct (kwargs !! "api_version") as [api_version|]; [| right; eauto 10].
  left. eauto 10.
Qed.

Lemma ssh_backend_run (kwargs : gmap string string) (w : World)
    (token url secret_path role public_key : string) :
  kwargs !! "token" = Some token ->
  base_url kwargs = Ok url ->
  kwargs !! "secret_path" = Some secret_path ->
  kwargs !! "role" = Some role ->
  kwargs !! "public_key" = Some public_key ->
  exists req w',
    ssh kwargs w =
      (match remote req with
       | inl resp => ssh_handle resp
       | inr msg => Raise (ConnectionError msg)
       end, w') /\
    sent w' = sent w ++ [req] /\
    method req = POST /\
    headers req = session_headers default_headers token /\
    request_url req =
      Str.rstrip "/" (Str.join "/" [url; secret_path; "sign"; role]) /\
    kw_timeout (request_kwargs req) = 30 /\
    kw_params (request_kwargs req) = None /\
    kw_verify (request_kwargs req) =
      (if truthy_opt (kwargs !! "cacert")
       then Some (candidate_name (List.length (fifos w))) else None) /\
    kw_json (request_kwargs req) =
      Some (PyDict
              (if truthy_opt (kwargs !! "valid_principals")
               then <["valid_principals" :=
                        PyStr (default EmptyString (kwargs !! "valid_principals"))]>
                      {[ "public_key" := PyStr public_key ]}
               else {[ "public_key" := PyStr public_key ]})).
Proof.
  intros Htoken Hurl Hpath Hrole Hkey.
  unfold ssh_backend, bind, lift, getitem.
  rewrite Htoken, Hurl, Hpath, Hrole.
  destruct (initial_kwargs_run (kwargs !! "cacert") w)
    as (rk & w1 & -> & Hsent & Ht & Hp & Hj & Hv).
  rewrite Hkey.
  set (body := if truthy_opt (kwargs !! "valid_principals")
               then <["valid_principals" :=
                        PyStr (default EmptyString (kwargs !! "valid_principals"))]>
                      ({[ "public_key" := PyStr public_key ]} : gmap string value)
               else {[ "public_key" := PyStr public_key ]}).
  set (req := mkRequest POST
                (Str.rstrip "/" (Str.join "/" [url; secret_path; "sign"; role]))
                (session_headers default_headers token)
                {| kw_timeout := kw_timeout rk; kw_verify := kw_verify rk;
                   kw_params := kw_params rk; kw_json := Some (PyDict body) |}).
  exists req, {| fifos := fifos w1; sent := sent w1 ++ [req] |}.
  split.
  - subst req body. unfold send, ret, ssh_handle, rbind.
    destruct (kwargs !! "valid_principals") as [v|]; simpl;
      [destruct (Str.truthy v); simpl |].
    all: match goal with
         | |- context [remote ?r] => destruct (remote r) as [resp|msg]
         end; [| reflexivity].
    all: destruct (raise_for_status resp) as [[]|]; [| reflexivity].
    all: destruct (response_json resp) as [b|]; [| reflexivity].
    all: destruct (subscript b "data") as [d|]; reflexivity.
  - simpl. rewrite Hsent. eauto 15.
Qed.

(** [ssh_backend] sends nothing unless its five required parameters are
    there. *)
Lemma ssh_backend_shape (kwargs : gmap string string) (w : World) :
  (exists token url secret_path role public_key,
      kwargs !! "token" = Some token /\ base_url kwargs = Ok url /\
      kwargs !! "secret_path" = Some secret_path /\
      kwargs !! "role" = Some role /\
      kwargs !! "public_key" = Some public_key)
  \/ (exists e w', ssh kwargs w = (Raise e, w') /\ sent w' = sent w
                   /\ early_error e).
Proof.
  unfold ssh_backend, bind, lift, getitem, early_error.
  destruct (kwargs !! "token") as [token|]; [| right; eauto 10].
  destruct (base_url kwargs) as [url|e] eqn:Eu.
  2:{ right. exists e, w. split; [reflexivity |]. split; [reflexivity |].
      apply base_url_raises in Eu as [-> | ->]; eauto. }
  destruct (kwargs !! "secret_path") as [secret_path|]; [| right; eauto 10].
  destruct (kwargs !! "role") as [role|]; [| right; eauto 10].
  destruct (initial_kwargs_run (kwargs !! "cacert") w)
    as (rk & w1 & -> & Hsent & _).
  destruct (kwargs !! "public_key") as [public_key|]; [| right; eauto 10].
  left. eauto 10.
Qed.

(** The request an invocation sent determines its outcome. *)
Lemma kv_backend_sent (kwargs : gmap string string) (w : World) (req : Request) :
  sent (snd (kv kwargs w)) = sent w ++ [req] ->
  exists token url secret_path api_version,
    kwargs !! "token" = Some token /\ base_url kwargs = Ok url /\
    kwargs !! "secret_path" = Some secret_path /\
    kwargs !! "api_version" = Some api_version /\
    fst (kv kwargs w) =
      match remote req with
      | inl response =>
          kv_handle api_version (kwargs !! "secret_key") secret_path response
      | inr msg => Raise (ConnectionError msg)
      end.
Proof.
  intros Hsent.
  destruct (kv_backend_shape kwargs w)
    as [(token & url & secret_path & api_version & Ht & Hu & Hp & Ha)
       | (e & He & _)].
  - exists token, url, secret_path, api_version.
    destruct (kv_backend_run kwargs w _ _ _ _ Ht Hu Hp Ha)
      as (req' & w' & Hrun & Hsent' & _).
    rewrite Hrun in Hsent |- *. simpl in Hsent |- *.
    rewrite Hsent' in Hsent. apply app_inj_tail in Hsent as [_ ->].
    auto.
  - rewrite He in Hsent. simpl in Hsent. now apply app_one_neq in Hsent.
Qed.

Lemma ssh_backend_sent (kwargs : gmap string string) (w : World) (req : Request) :
  sent (snd (ssh kwargs w)) = sent w ++ [req] ->
  fst (ssh kwargs w) =
    match remote req with
    | inl resp => ssh_handle resp
    | inr msg => Raise (ConnectionError msg)
    end.
Proof.
  intros Hsent.
  destruct (ssh_backend_shape kwargs w)
    as [(token & url & secret_path & role & public_key
         & Ht & Hu & Hp & Hr & Hk)
       | (e & w' & He & Hw' & _)].
  - destruct (ssh_backend_run kwargs w _ _ _ _ _ Ht Hu Hp Hr Hk)
      as (req' & w' & Hrun & Hsent' & _).
    rewrite Hrun in Hsent |- *. simpl in Hsent |- *.
    rewrite Hsent' in Hsent. now apply app_inj_tail in Hsent as [_ ->].
  - rewrite He in Hsent. simpl in Hsent. rewrite Hw' in Hsent.
    now apply app_one_neq in Hsent.
Qed.

Lemma kv_backend_ok (kwargs : gmap string string) (w w' : World) (v : value) :
  kv kwargs w = (Ok v, w') ->
  exists api_version req response body mapping,
    kwargs !! "api_version" = Some api_version /\
    sent w' = sent w ++ [req] /\
    remote req = inl response /\
    decoded response = Some body /\
    secret_mapping api_version body = Ok mapping /\
    match kwargs !! "secret_key" with
    | Some key =>
        if Str.truthy key then subscript mapping key = Ok v else v = mapping
    | None => v = mapping
    end.
Proof.
  intros Hrun.
  destruct (kv_backend_shape kwargs w)
    as [(token & url & secret_path & api_version & Ht & Hu & Hp & Ha)
       | (e & He & _)]; [| congruence].
  destruct (kv_backend_run kwargs w _ _ _ _ Ht Hu Hp Ha)
    as (req & w1 & Hrun1 & Hsent & _).
  rewrite Hrun1 in Hrun. injection Hrun as Hres <-.
  destruct (remote req) as [response|msg] eqn:Er; [| discriminate].
  apply kv_handle_ok in Hres as (body & mapping & Hd & Hm & Hv).
  exists api_version, req, response, body, mapping. auto 10.
Qed.

(** C1. A KV invocation that returns a value has sent one request, got a
    response whose body decodes to JSON, and returns what the body holds:
    with [mapping] the response's [data.data] when the engine version is
    [v2] and its top-level [data] otherwise, the value is
    [mapping[secret_key]] when a key name was supplied, and [mapping]
    itself when none was. *)
Theorem kv_backend_returns_extracted_value
    (kwargs : gmap string string) (w w' : World) (v : value) :
  kv kwargs w = (Ok v, w') ->
  exists api_version req response body mapping,
    kwargs !! "api_version" = Some api_version /\
    sent w' = sent w ++ [req] /\
    remote req = inl response /\
    decoded response = Some body /\
    (if String.eqb api_version "v2"
     then exists data, subscript body "data" = Ok data
                       /\ subscript data "data" = Ok mapping
     else subscript body "data" = Ok mapping) /\
    match kwargs !! "secret_key" with
    | Some key =>
        if Str.truthy key then subscript mapping key = Ok v else v = mapping
    | None => v = mapping
    end.
Proof.
  intros Hrun.
  apply kv_backend_ok in Hrun
    as (api_version & req & response & body & mapping
        & Ha & Hs & Hr & Hd & Hm & Hv).
  exists api_version, req, response, body, mapping.
  repeat (split; [assumption |]). split; [| exact Hv].
  unfold secret_mapping in Hm. destruct (String.eqb api_version "v2").
  - destruct (subscript body "data") as [data|]; [| discriminate].
    now exists data.
  - exact Hm.
Qed.

(** The request of a KV invocation, in terms of the decomposition of the
    location and of [rstrip]. *)
Lemma kv_request_shape
    (kwargs : gmap string string) (w : World)
    (token url secret_path api_version : string) :
  kwargs !! "token" = Some token ->
  base_url kwargs = Ok url ->
  kwargs !! "secret_path" = Some secret_path ->
  kwargs !! "api_version" = Some api_version ->
  exists req,
    sent (snd (kv kwargs w)) = sent w ++ [req] /\
    method req = GET /\
    if String.eqb api_version "v2" then
      exists mount_point path,
        mount_point_and_path secret_path = Ok (mount_point, path) /\
        let sub_path := Str.join "/" path in
        request_url req =
          Str.rstrip "/"
            (url +:+ "/" +:+ mount_point +:+ "/data"
                 +:+ (if Str.truthy sub_path then "/" +:+ sub_path
                      else EmptyString)) /\
        kw_params (request_kwargs req) =
          match kwargs !! "secret_version" with
          | Some version =>
              if Str.truthy version then Some {[ "version" := version ]}
              else None
          | None => None
          end
    else
      request_url req = Str.rstrip "/" (url +:+ "/" +:+ secret_path) /\
      kw_params (request_kwargs req) = None.
Proof.
  intros Ht Hu Hp Ha.
  destruct (kv_backend_run kwargs w _ _ _ _ Ht Hu Hp Ha)
    as (req & w1 & Hrun & Hsent & Hm & _ & _ & _ & _ & Hshape).
  exists req. rewrite Hrun. simpl.
  split; [exact Hsent |]. split; [exact Hm |].
  destruct (String.eqb api_version "v2").
  - destruct Hshape as (mount_point & path & Hmp & Hreq & Hpar).
    exists mount_point, path. split; [exact Hmp |]. simpl. split.
    + rewrite Hreq. f_equal.
      destruct (mount_point_and_path_cases _ _ _ Hmp)
        as [-> | (x & l & -> & Hx)].
      * reflexivity.
      * rewrite (join_truthy "/" x l Hx).
        rewrite (join_app_cons "/" [url; mount_point; "data"] x l).
        cbv beta iota. generalize (Str.join "/" (x :: l)). intros sub_path.
        change (Str.join "/" [url; mount_point; "data"])
          with (url +:+ "/" +:+ mount_point +:+ "/data").
        now rewrite !append_assoc.
    + rewrite Hpar. now destruct (kwargs !! "secret_version") as [v|].
  - exact Hshape.
Qed.

(** C5. When a key name was supplied and the secret mapping the service
    returned does not hold it, the invocation raises the error
    ['<key> is not present at <location>'], whose message names both the
    key and the secret location, and no value is returned. *)
Theorem kv_backend_key_not_present
    (kwargs : gmap string string) (w : World) (req : Request)
    (response : Response) (body : value) (mapping : gmap string value)
    (api_version secret_path key : string) :
  kwargs !! "api_version" = Some api_version ->
  kwargs !! "secret_path" = Some secret_path ->
  kwargs !! "secret_key" = Some key ->
  key <> EmptyString ->
  sent (snd (kv kwargs w)) = sent w ++ [req] ->
  remote req = inl response ->
  raise_for_status response = Ok tt ->
  decoded response = Some body ->
  secret_mapping api_version body = Ok (PyDict mapping) ->
  mapping !! key = None ->
  fst (kv kwargs w) =
    Raise (RuntimeError (key +:+ " is not present at " +:+ secret_path)).
Proof.
  intros Ha Hp Hk Hne Hsent Hr Hs Hd Hm Hkey.
  apply kv_backend_sent in Hsent
    as (token & url & secret_path' & api_version' & _ & _ & Hp' & Ha' & ->).
  rewrite Hp in Hp'. rewrite Ha in Ha'.
  injection Hp' as <-. injection Ha' as <-.
  rewrite Hr, Hk. unfold kv_handle, response_json.
  rewrite Hs, Hd. simpl.
  apply truthy_true in Hne. rewrite Hne.
  unfold secret_mapping in Hm.
  destruct (String.eqb api_version "v2"); simpl.
  - destruct (subscript body "data") as [json|]; [simpl in * | discriminate].
    rewrite Hm. simpl. now rewrite Hkey.
  - rewrite Hm. simpl. now rewrite Hkey.
Qed.

(** C10. A key name supplied as the empty string counts as no key name:
    the invocation behaves exactly as without the parameter, it never
    raises the key-not-found error, and when it returns, it returns the
    full secret mapping. *)
Theorem kv_backend_empty_key_name (kwargs : gmap string string) (w : World) :
  kwargs !! "secret_key" = Some EmptyString ->
  kv kwargs w = kv (delete "secret_key" kwargs) w /\
  (forall msg, fst (kv kwargs w) <> Raise (RuntimeError msg)) /\
  (forall v w',
      kv kwargs w = (Ok v, w') ->
      exists api_version req response body,
        kwargs !! "api_version" = Some api_version /\
        sent w' = sent w ++ [req] /\
        remote req = inl response /\
        decoded response = Some body /\
        secret_mapping api_version body = Ok v).
Proof.
  intros Hk. split; [| split].
  - unfold kv_backend, base_url, getitem.
    rewrite !lookup_delete_ne by discriminate.
    rewrite lookup_delete_eq, Hk. reflexivity.
  - intros msg.
    destruct (kv_backend_shape kwargs w)
      as [(token & url & secret_path & api_version & Ht & Hu & Hp & Ha)
         | (e & He & Hearly)].
    + destruct (kv_backend_run kwargs w _ _ _ _ Ht Hu Hp Ha)
        as (req & w1 & Hrun & _).
      rewrite Hrun. simpl.
      destruct (remote req) as [response|m]; [| discriminate].
      apply kv_handle_not_runtime. now rewrite Hk.
    + rewrite He. simpl. destruct Hearly as [[key ->] | ->]; discriminate.
  - intros v w' Hrun.
    apply kv_backend_ok in Hrun
      as (api_version & req & response & body & mapping
          & Ha & Hs & Hr & Hd & Hm & Hv).
    rewrite Hk in Hv. simpl in Hv. subst v.
    exists api_version, req, response, body. auto.
Qed.

(** The request of an SSH invocation and what it returns, in terms of
    [rstrip] and of the subscripts. *)
Lemma ssh_request_shape
    (kwargs : gmap string string) (w : World)
    (token url secret_path role public_key : string) :
  kwargs !! "token" = Some token ->
  base_url kwargs = Ok url ->
  kwargs !! "secret_path" = Some secret_path ->
  kwargs !! "role" = Some role ->
  kwargs !! "public_key" = Some public_key ->
  exists req,
    sent (snd (ssh kwargs w)) = sent w ++ [req] /\
    method req = POST /\
    request_url req =
      Str.rstrip "/" (url +:+ "/" +:+ secret_path +:+ "/sign/" +:+ role) /\
    kw_json (request_kwargs req) =
      Some (PyDict
              match kwargs !! "valid_principals" with
              | Some principals =>
                  if Str.truthy principals
                  then {[ "public_key" := PyStr public_key;
                          "valid_principals" := PyStr principals ]}
                  else {[ "public_key" := PyStr public_key ]}
              | None => {[ "public_key" := PyStr public_key ]}
              end) /\
    forall response body data signed_key,
      remote req = inl response ->
      raise_for_status response = Ok tt ->
      decoded response = Some body ->
      subscript body "data" = Ok data ->
      subscript data "signed_key" = Ok signed_key ->
      fst (ssh kwargs w) = Ok signed_key.
Proof.
  intros Ht Hu Hp Hr Hk.
  destruct (ssh_backend_run kwargs w _ _ _ _ _ Ht Hu Hp Hr Hk)
    as (req & w1 & Hrun & Hsent & Hm & _ & Hurl & _ & _ & _ & Hjson).
  exists req. rewrite Hrun. simpl.
  split; [exact Hsent |]. split; [exact Hm |]. split; [| split].
  - rewrite Hurl. reflexivity.
  - rewrite Hjson. do 2 f_equal.
    destruct (kwargs !! "valid_principals") as [principals|]; simpl;
      [| reflexivity].
    destruct (Str.truthy principals); [| reflexivity].
    apply insert_insert_ne. discriminate.
  - intros response body data signed_key Hresp Hs Hd Hdata Hsigned.
    rewrite Hresp. unfold ssh_handle, response_json.
    rewrite Hs, Hd. simpl. rewrite Hdata. simpl. exact Hsigned.
Qed.

(** C7, as the code has it.  A response with a client-error or
    server-error status (4xx or 5xx) makes either backend raise
    [HTTPError], which carries the response with its status and body;
    this happens before the body is looked at, and no value is
    returned. *)
Theorem error_status_raises_http_error
    (p : plugin) (kwargs : gmap string string) (w : World) (req : Request)
    (response : Response) :
  sent (snd (run p kwargs w)) = sent w ++ [req] ->
  remote req = inl response ->
  400 <= status_code response < 600 ->
  fst (run p kwargs w) = Raise (HTTPError response).
Proof.
  intros Hsent Hr Hstatus. apply raise_for_status_error in Hstatus.
  destruct p; simpl in *.
  - apply kv_backend_sent in Hsent as (? & ? & ? & ? & _ & _ & _ & _ & ->).
    rewrite Hr. unfold kv_handle. now rewrite Hstatus.
  - apply ssh_backend_sent in Hsent as ->.
    rewrite Hr. unfold ssh_handle. now rewrite Hstatus.
Qed.

(** C8, as the code has it.  A 2xx response whose JSON object lacks the
    expected field never yields a value: the invocation raises.  The SSH
    backend raises [KeyError] for a missing [data] and for a missing
    [signed_key].  The KV backend raises whenever the [data] field that
    holds the secret mapping is missing, and what it raises is [KeyError]
    when no key name was supplied and when the missing field is the
    top-level [data] of a [v2] response. *)
Theorem missing_field_raises
    (p : plugin) (kwargs : gmap string string) (w : World) (req : Request)
    (response : Response) (fields : gmap string value) :
  sent (snd (run p kwargs w)) = sent w ++ [req] ->
  remote req = inl response ->
  200 <= status_code response < 300 ->
  decoded response = Some (PyDict fields) ->
  match p with
  | hashivault_kv_plugin =>
      exists api_version,
        kwargs !! "api_version" = Some api_version /\
        (secret_mapping api_version (PyDict fields) = Raise (KeyError "data") ->
         (exists e, fst (kv kwargs w) = Raise e) /\
         (truthy_opt (kwargs !! "secret_key") = false ->
          fst (kv kwargs w) = Raise (KeyError "data")) /\
         (String.eqb api_version "v2" = true ->
          fields !! "data" = None ->
          fst (kv kwargs w) = Raise (KeyError "data")))
  | hashivault_ssh_plugin =>
      (fields !! "data" = None ->
       fst (ssh kwargs w) = Raise (KeyError "data")) /\
      (forall data,
          fields !! "data" = Some (PyDict data) ->
          data !! "signed_key" = None ->
          fst (ssh kwargs w) = Raise (KeyError "signed_key"))
  end.
Proof.
  intros Hsent Hr Hstatus Hd. apply raise_for_status_2xx in Hstatus.
  destruct p; simpl in Hsent.
  - apply kv_backend_sent in Hsent
      as (token & url & secret_path & api_version & _ & _ & Hp & Ha & ->).
    exists api_version. split; [exact Ha |].
    rewrite Hr. unfold kv_handle, response_json, secret_mapping.
    rewrite Hstatus, Hd. simpl.
    destruct (String.eqb api_version "v2"); simpl.
    + destruct (fields !! "data") as [json|]; simpl.
      * destruct json; simpl; try discriminate.
        destruct (d !! "data") as [x|] eqn:Ex; [discriminate |]. intros _.
        destruct (truthy_opt (kwargs !! "secret_key")); simpl; rewrite ?Ex;
          simpl; repeat split; eauto; discriminate.
      * intros _.
        destruct (truthy_opt (kwargs !! "secret_key")); repeat split; eauto.
    + destruct (fields !! "data") as [json|]; [discriminate |]. intros _.
      destruct (truthy_opt (kwargs !! "secret_key")); simpl;
        repeat split; eauto; discriminate.
  - apply ssh_backend_sent in Hsent as ->.
    rewrite Hr. unfold ssh_handle, response_json.
    rewrite Hstatus, Hd. simpl. split.
    + intros ->. reflexivity.
    + intros data -> Hsigned. simpl. now rewrite Hsigned.
Qed.

(** C3, as the code has it.  For a server URL [http://<netloc>] or
    [https://<netloc>] without path, query or fragment, the base URL of
    either backend is [<server URL>/v1], whatever the engine-version
    selector, and the URL of the request the backend sends is built on
    it. *)
Theorem base_url_of_server_without_path
    (p : plugin) (kwargs : gmap string string) (w : World)
    (scheme netloc server : string) :
  scheme = "http" \/ scheme = "https" ->
  is_netloc netloc = true ->
  server = scheme +:+ "://" +:+ netloc ->
  kwargs !! "url" = Some server ->
  base_url kwargs = Ok (server +:+ "/v1") /\
  (forall api_version,
      base_url (<["api_version" := api_version]> kwargs)
      = Ok (server +:+ "/v1")) /\
  (forall req,
      sent (snd (run p kwargs w)) = sent w ++ [req] ->
      exists segments,
        request_url req =
          Str.rstrip "/" (Str.join "/" ((server +:+ "/v1") :: segments))).
Proof.
  intros Hscheme Hnetloc -> Hurl.
  assert (Hbase : base_url kwargs
                  = Ok ((scheme +:+ "://" +:+ netloc) +:+ "/v1")).
  { unfold base_url, getitem. rewrite Hurl. unfold rbind.
    rewrite urljoin_no_path by assumption. now rewrite !append_assoc. }
  split; [exact Hbase |]. split.
  - intros api_version. rewrite <- Hbase. unfold base_url, getitem.
    now rewrite lookup_insert_ne by discriminate.
  - intros req Hsent. destruct p; simpl in Hsent.
    + destruct (kv_backend_shape kwargs w)
        as [(token & url & secret_path & api_version & Ht & Hu & Hp & Ha)
           | (e & He & _)].
      2:{ rewrite He in Hsent. simpl in Hsent. now apply app_one_neq in Hsent. }
      rewrite Hbase in Hu. injection Hu as <-.
      destruct (kv_backend_run kwargs w _ _ _ _ Ht Hbase Hp Ha)
        as (req' & w' & Hrun & Hsent' & _ & _ & _ & _ & _ & Hshape).
      rewrite Hrun in Hsent. simpl in Hsent. rewrite Hsent' in Hsent.
      apply app_inj_tail in Hsent as [_ ->].
      destruct (String.eqb api_version "v2").
      * destruct Hshape as (mount_point & path & _ & -> & _).
        now exists ([mount_point; "data"] ++ path).
      * destruct Hshape as [-> _]. now exists [secret_path].
    + destruct (ssh_backend_shape kwargs w)
        as [(token & url & secret_path & role & public_key
             & Ht & Hu & Hp & Hr & Hk)
           | (e & w' & He & Hw' & _)].
      2:{ rewrite He in Hsent. simpl in Hsent. rewrite Hw' in Hsent.
          now apply app_one_neq in Hsent. }
      destruct (ssh_backend_run kwargs w _ _ _ _ _ Ht Hbase Hp Hr Hk)
        as (req' & w' & Hrun & Hsent' & _ & _ & Hreq & _).
      rewrite Hrun in Hsent. simpl in Hsent. rewrite Hsent' in Hsent.
      apply app_inj_tail in Hsent as [_ ->].
      rewrite Hreq. now exists [secret_path; "sign"; role].
Qed.

End Invocations.

(** ** The model on concrete inputs *)

Example rstrip_example : Str.rstrip "/" "a/b//" = "a/b".
Proof. reflexivity. Qed.

Example split_example : Str.split "/" "a//b/" = ["a"; ""; "b"; ""].
Proof. reflexivity. Qed.

Example parts_example :
  Pathlib.parts "kv/team//db/./x/" = ["kv"; "team"; "db"; "x"].
Proof. reflexivity. Qed.

Example parts_dot_example : Pathlib.parts "." = [].
Proof. reflexivity. Qed.

Example urljoin_examples :
  Urllib.urljoin "http://vault:8200" "v1" = Ok "http://vault:8200/v1" /\
  Urllib.urljoin "http://vault:8200/" "v1" = Ok "http://vault:8200/v1" /\
  Urllib.urljoin "https://vault:8200/foo/" "v1" = Ok "https://vault:8200/foo/v1" /\
  Urllib.urljoin "https://vault:8200/foo/bar?x=1#f" "v1"
    = Ok "https://vault:8200/foo/v1" /\
  Urllib.urljoin "https://h/a/b/c" "../../x;y?z#w" = Ok "https://h/x;y?z#w" /\
  Urllib.urljoin "http://[::1" "v1" = Raise (ValueError "Invalid IPv6 URL").
Proof. repeat split; vm_compute; reflexivity. Qed.

Example mount_point_examples :
  mount_point_and_path "/kv/team/db/" = Ok ("kv", ["team"; "db"]) /\
  mount_point_and_path "kv" = Ok ("kv", []) /\
  mount_point_and_path "/" = Ok ("/", []) /\
  mount_point_and_path "./." = Ok ("./.", []).
Proof. repeat split; vm_compute; reflexivity. Qed.

(** The two responses of the specification. *)
Example kv_v2_example :
  kv_backend sample_names no_headers (always (json_response 200 v2_body))
    kv_v2_kwargs fresh_world
  = (Ok (PyStr "bar"), {| fifos := []; sent := [kv_v2_request] |}).
Proof. vm_compute. reflexivity. Qed.

Example kv_v1_example :
  kv_backend sample_names no_headers (always (json_response 200 v1_body))
    kv_v1_kwargs fresh_world
  = (Ok (PyDict foo_bar), {| fifos := []; sent := [kv_v1_request] |}).
Proof. vm_compute. reflexivity. Qed.

Example ssh_example :
  ssh_backend sample_names no_headers (always (json_response 200 ssh_body))
    ssh_kwargs fresh_world
  = (Ok (PyStr "ssh-rsa-cert-v01 AAAA"),
     {| fifos := []; sent := [ssh_request] |}).
Proof. vm_compute. reflexivity. Qed.

Example cacert_example :
  kv_backend sample_names no_headers (always (json_response 200 v1_body))
    (<["cacert" := "PEM"]> kv_v1_kwargs) fresh_world
  = (Ok (PyDict foo_bar),
     {| fifos := [mkFifo "/tmp/tmpdir/x" 384 "PEM"];
        sent := [mkRequest GET "http://vault:8200/v1/kv/creds"
                   {[ "Authorization" := "Bearer s.token" ]}
                   {| kw_timeout := 30; kw_verify := Some "/tmp/tmpdir/x";
                      kw_params := None; kw_json := None |}] |}).
Proof. vm_compute. reflexivity. Qed.

(** ** Where the code departs from the specification *)

(** C3.  A server URL with a path that does not end in a slash loses its
    last segment: the base URL is not [<server URL>/v1], and the request
    goes to the root of the host. *)
Lemma base_url_drops_last_segment :
  base_url proxied_kwargs = Ok "https://vault.example.com/v1" /\
  base_url proxied_kwargs <> Ok ("https://vault.example.com/vault" +:+ "/v1") /\
  map request_url
      (sent (snd (kv_backend sample_names no_headers
                    (always (json_response 200 v1_body))
                    proxied_kwargs fresh_world)))
  = ["https://vault.example.com/v1/kv/creds"].
Proof.
  split; [| split].
  - vm_compute. reflexivity.
  - vm_compute. intros H. discriminate H.
  - vm_compute. reflexivity.
Qed.

(** C7.  A response with status 300 is not a 2xx response, yet the
    invocation goes on to read the body and returns a value. *)
Lemma redirect_status_yields_value :
  ~ (200 <= status_code (json_response 300 v1_body) < 300) /\
  fst (kv_backend sample_names no_headers (always (json_response 300 v1_body))
         kv_v1_kwargs fresh_world)
  = Ok (PyDict foo_bar) /\
  fst (ssh_backend sample_names no_headers (always (json_response 300 ssh_body))
         ssh_kwargs fresh_world)
  = Ok (PyStr "ssh-rsa-cert-v01 AAAA").
Proof.
  split; [| split].
  - simpl. lia.
  - vm_compute. reflexivity.
  - vm_compute. reflexivity.
Qed.

(** C8.  With a key name supplied, a response without [data] is reported
    with the key-not-found error, the very error raised when [data] is
    there and the key is not. *)
Lemma missing_data_reported_as_missing_key :
  fst (kv_backend sample_names no_headers
         (always (json_response 200 (PyDict ∅)))
         (<["secret_key" := "foo"]> kv_v1_kwargs) fresh_world)
  = Raise (RuntimeError "foo is not present at kv/creds") /\
  fst (kv_backend sample_names no_headers
         (always (json_response 200 (PyDict {[ "data" := PyDict ∅ ]})))
         (<["secret_key" := "foo"]> kv_v1_kwargs) fresh_world)
  = Raise (RuntimeError "foo is not present at kv/creds").
Proof. split; vm_compute; reflexivity. Qed.

(** C4.  A single segment with a separator before or after it is not its
    own mount point: the separators are dropped. *)
Lemma single_segment_loses_separators :
  mount_point_and_path "/kv/" = Ok ("kv", []) /\
  mount_point_and_path "/kv" = Ok ("kv", []) /\
  mount_point_and_path "kv/" = Ok ("kv", []) /\
  mount_point_and_path "/kv/" <> Ok ("/kv/", []) /\
  mount_point_and_path "/kv" <> Ok ("/kv", []) /\
  mount_point_and_path "kv/" <> Ok ("kv/", []).
Proof. repeat split; vm_compute; (reflexivity || discriminate). Qed.

(** ** The theorems at the sample invocations *)

Lemma kv_backend_returns_extracted_value_witness :
  exists api_version req response body mapping,
    kv_v2_kwargs !! "api_version" = Some api_version /\
    [kv_v2_request] = [] ++ [req] /\
    always (json_response 200 v2_body) req = inl response /\
    decoded response = Some body /\
    (if String.eqb api_version "v2"
     then exists data, subscript body "data" = Ok data
                       /\ subscript data "data" = Ok mapping
     else subscript body "data" = Ok mapping) /\
    match kv_v2_kwargs !! "secret_key" with
    | Some key =>
        if Str.truthy key then subscript mapping key = Ok (PyStr "bar")
        else PyStr "bar" = mapping
    | None => PyStr "bar" = mapping
    end.
Proof.
  apply (kv_backend_returns_extracted_value sample_names no_headers
           (always (json_response 200 v2_body)) kv_v2_kwargs fresh_world
           {| fifos := []; sent := [kv_v2_request] |} (PyStr "bar")).
  vm_compute. reflexivity.
Defined.

Lemma base_url_of_server_without_path_witness :
  base_url ssh_kwargs = Ok ("https://vault.example.com" +:+ "/v1") /\
  (forall api_version,
      base_url (<["api_version" := api_version]> ssh_kwargs)
      = Ok ("https://vault.example.com" +:+ "/v1")) /\
  (forall req,
      sent (snd (ssh_backend sample_names no_headers
                   (always (json_response 200 ssh_body)) ssh_kwargs fresh_world))
      = sent fresh_world ++ [req] ->
      exists segments,
        request_url req =
          Str.rstrip "/"
            (Str.join "/" (("https://vault.example.com" +:+ "/v1") :: segments))).
Proof.
  apply (base_url_of_server_without_path sample_names no_headers
           (always (json_response 200 ssh_body)) hashivault_ssh_plugin
           ssh_kwargs fresh_world "https" "vault.example.com"
           "https://vault.example.com").
  - right. reflexivity.
  - vm_compute. reflexivity.
  - reflexivity.
  - vm_compute. reflexivity.
Defined.

Lemma kv_backend_key_not_present_witness :
  fst (kv_backend sample_names no_headers (always (json_response 200 v2_body))
         (<["secret_key" := "password"]> kv_v2_kwargs) fresh_world)
  = Raise (RuntimeError ("password" +:+ " is not present at " +:+ "/kv/team/db/")).
Proof.
  apply (kv_backend_key_not_present sample_names no_headers
           (always (json_response 200 v2_body))
           (<["secret_key" := "password"]> kv_v2_kwargs) fresh_world
           kv_v2_request (json_response 200 v2_body) v2_body foo_bar
           "v2" "/kv/team/db/" "password");
    try (vm_compute; reflexivity).
  discriminate.
Defined.

Lemma error_status_raises_http_error_witness :
  fst (ssh_backend sample_names no_headers
         (always (json_response 403 ssh_body)) ssh_kwargs fresh_world)
  = Raise (HTTPError (json_response 403 ssh_body)).
Proof.
  apply (error_status_raises_http_error sample_names no_headers
           (always (json_response 403 ssh_body)) hashivault_ssh_plugin
           ssh_kwargs fresh_world ssh_request (json_response 403 ssh_body)).
  - vm_compute. reflexivity.
  - reflexivity.
  - simpl. lia.
Defined.

Lemma missing_field_raises_witness :
  exists api_version,
    kv_v1_kwargs !! "api_version" = Some api_version /\
    (secret_mapping api_version (PyDict ∅) = Raise (KeyError "data") ->
     (exists e,
         fst (kv_backend sample_names no_headers
                (always (json_response 200 (PyDict ∅))) kv_v1_kwargs fresh_world)
         = Raise e) /\
     (truthy_opt (kv_v1_kwargs !! "secret_key") = false ->
      fst (kv_backend sample_names no_headers
             (always (json_response 200 (PyDict ∅))) kv_v1_kwargs fresh_world)
      = Raise (KeyError "data")) /\
     (String.eqb api_version "v2" = true ->
      (∅ : gmap string value) !! "data" = None ->
      fst (kv_backend sample_names no_headers
             (always (json_response 200 (PyDict ∅))) kv_v1_kwargs fresh_world)
      = Raise (KeyError "data"))).
Proof.
  apply (missing_field_raises sample_names no_headers
           (always (json_response 200 (PyDict ∅))) hashivault_kv_plugin
           kv_v1_kwargs fresh_world kv_v1_request
           (json_response 200 (PyDict ∅)) ∅).
  - vm_compute. reflexivity.
  - reflexivity.
  - simpl. lia.
  - reflexivity.
Defined.

Lemma kv_backend_empty_key_name_witness :
  fst (kv_backend sample_names no_headers (always (json_response 200 v1_body))
         (<["secret_key" := EmptyString]> kv_v1_kwargs) fresh_world)
  = Ok (PyDict foo_bar) /\
  kv_backend sample_names no_headers (always (json_response 200 v1_body))
    (<["secret_key" := EmptyString]> kv_v1_kwargs) fresh_world
  = kv_backend sample_names no_headers (always (json_response 200 v1_body))
      (delete "secret_key" (<["secret_key" := EmptyString]> kv_v1_kwargs))
      fresh_world.
Proof.
  split; [vm_compute; reflexivity |].
  apply (kv_backend_empty_key_name sample_names no_headers
           (always (json_response 200 v1_body))
           (<["secret_key" := EmptyString]> kv_v1_kwargs) fresh_world).
  vm_compute. reflexivity.
Defined.

(** * Further properties of the backends *)

Section Requests.

Variable candidate_name : nat -> string.
Variable default_headers : gmap string string.
Variable remote : Request -> Response + string.

Abbreviation kv := (kv_backend candidate_name default_headers remote).
Abbreviation ssh := (ssh_backend candidate_name default_headers remote).
Abbreviation run := (backend candidate_name default_headers remote).

Abbreviation pipe := (pipe_for candidate_name).
Abbreviation after := (world_after candidate_name).

Lemma initial_kwargs_world (cacert : option string) (w : World) :
  snd (initial_kwargs candidate_name cacert w) =
    {| fifos := if truthy_opt cacert
                then fifos w ++ [pipe w (default EmptyString cacert)]
                else fifos w;
       sent := sent w |}.
Proof.
  unfold initial_kwargs. destruct (truthy_opt cacert); simpl.
  - reflexivity.
  - now destruct w.
Qed.

Lemma kv_backend_world (kwargs : gmap string string) (w : World)
    (token url secret_path api_version : string) :
  kwargs !! "token" = Some token ->
  base_url kwargs = Ok url ->
  kwargs !! "secret_path" = Some secret_path ->
  kwargs !! "api_version" = Some api_version ->
  exists req, snd (kv kwargs w) = after w (kwargs !! "cacert") req.
Proof.
  intros Ht Hu Hp Ha.
  unfold kv_backend, bind, lift, getitem. rewrite Ht, Hu, Hp, Ha.
  pose proof (initial_kwargs_world (kwargs !! "cacert") w) as Hw.
  destruct (initial_kwargs candidate_name (kwargs !! "cacert") w)
    as [[rk|e] w1] eqn:Ei.
  2:{ destruct (initial_kwargs_run candidate_name (kwargs !! "cacert") w)
        as (? & ? & Hi & _). congruence. }
  simpl in Hw. subst w1. unfold world_after.
  destruct (String.eqb api_version "v2").
  - destruct (mount_point_and_path_ok secret_path) as (m & p & ->).
    unfold send, ret, raise.
    destruct (kwargs !! "secret_version") as [v|]; simpl;
      [destruct (Str.truthy v); simpl |].
    all: match goal with
         | |- context [remote ?r] => exists r; destruct (remote r) as [resp|msg]
         end; [| reflexivity].
    all: destruct (raise_for_status resp) as [[]|]; [| reflexivity].
    all: destruct (response_json resp) as [body|]; [| reflexivity].
    all: destruct (subscript body "data") as [json|]; [| reflexivity].
    all: destruct (kwargs !! "secret_key") as [key|]; simpl;
      [destruct (Str.truthy key); simpl |]; try reflexivity.
    all: destruct (subscript json "data") as [d|[]]; simpl; try reflexivity.
    all: destruct (subscript d key) as [x|[]]; reflexivity.
  - unfold send, ret, raise.
    match goal with
    | |- context [remote ?r] => exists r; destruct (remote r) as [resp|msg]
    end; [| reflexivity].
    destruct (raise_for_status resp) as [[]|]; [| reflexivity].
    destruct (response_json resp) as [json|]; [| reflexivity].
    destruct (kwargs !! "secret_key") as [key|]; simpl;
      [destruct (Str.truthy key); simpl |]; try reflexivity.
    destruct (subscript json "data") as [d|[]]; simpl; try reflexivity.
    destruct (subscript d key) as [x|[]]; reflexivity.
Qed.

Lemma ssh_backend_world (kwargs : gmap string string) (w : World)
    (token url secret_path role public_key : string) :
  kwargs !! "token" = Some token ->
  base_url kwargs = Ok url ->
  kwargs !! "secret_path" = Some secret_path ->
  kwargs !! "role" = Some role ->
  kwargs !! "public_key" = Some public_key ->
  exists req, snd (ssh kwargs w) = after w (kwargs !! "cacert") req.
Proof.
  intros Ht Hu Hp Hr Hk.
  unfold ssh_backend, bind, lift, getitem. rewrite Ht, Hu, Hp, Hr.
  pose proof (initial_kwargs_world (kwargs !! "cacert") w) as Hw.
  destruct (initial_kwargs candidate_name (kwargs !! "cacert") w)
    as [[rk|e] w1] eqn:Ei.
  2:{ destruct (initial_kwargs_run candidate_name (kwargs !! "cacert") w)
        as (? & ? & Hi & _). congruence. }
  simpl in Hw. subst w1. rewrite Hk. unfold world_after, send, ret.
  destruct (kwargs !! "valid_principals") as [v|]; simpl;
    [destruct (Str.truthy v); simpl |].
  all: match goal with
       | |- context [remote ?r] => exists r; destruct (remote r) as [resp|msg]
       end; [| reflexivity].
  all: destruct (raise_for_status resp) as [[]|]; [| reflexivity].
  all: destruct (response_json resp) as [b|]; [| reflexivity].
  all: destruct (subscript b "data") as [d|]; reflexivity.
Qed.

(** Everything about an invocation of [kv_backend] that sent [req]. *)
Lemma kv_backend_request (kwargs : gmap string string) (w : World)
    (req : Request) :
  sent (snd (kv kwargs w)) = sent w ++ [req] ->
  exists token url secret_path api_version,
    kwargs !! "token" = Some token /\
    base_url kwargs = Ok url /\
    kwargs !! "secret_path" = Some secret_path /\
    kwargs !! "api_version" = Some api_version /\
    kv kwargs w =
      (match remote req with
       | inl response =>
           kv_handle api_version (kwargs !! "secret_key") secret_path response
       | inr msg => Raise (ConnectionError msg)
       end, after w (kwargs !! "cacert") req) /\
    method req = GET /\
    headers req = session_headers default_headers token /\
    kw_timeout (request_kwargs req) = 30 /\
    kw_verify (request_kwargs req) =
      (if truthy_opt (kwargs !! "cacert")
       then Some (candidate_name (List.length (fifos w))) else None).
Proof.
  intros Hsent.
  destruct (kv_backend_shape candidate_name default_headers remote kwargs w)
    as [(token & url & secret_path & api_version & Ht & Hu & Hp & Ha)
       | (e & He & _)].
  2:{ rewrite He in Hsent. simpl in Hsent. now apply app_one_neq in Hsent. }
  exists token, url, secret_path, api_version.
  destruct (kv_backend_run candidate_name default_headers remote
              kwargs w _ _ _ _ Ht Hu Hp Ha)
    as (req1 & w1 & Hrun & Hsent1 & Hm & Hh & Hto & _ & Hv & _).
  destruct (kv_backend_world kwargs w _ _ _ _ Ht Hu Hp Ha) as (req2 & Hw).
  rewrite Hrun in Hw, Hsent. simpl in Hw, Hsent. subst w1.
  simpl in Hsent1, Hsent.
  apply app_inj_tail in Hsent1 as [_ ->].
  apply app_inj_tail in Hsent as [_ ->].
  rewrite Hrun. auto 10.
Qed.

(** Everything about an invocation of [ssh_backend] that sent [req]. *)
Lemma ssh_backend_request (kwargs : gmap string string) (w : World)
    (req : Request) :
  sent (snd (ssh kwargs w)) = sent w ++ [req] ->
  exists token,
    kwargs !! "token" = Some token /\
    ssh kwargs w =
      (match remote req with
       | inl resp => ssh_handle resp
       | inr msg => Raise (ConnectionError msg)
       end, after w (kwargs !! "cacert") req) /\
    method req = POST /\
    headers req = session_headers default_headers token /\
    kw_timeout (request_kwargs req) = 30 /\
    kw_verify (request_kwargs req) =
      (if truthy_opt (kwargs !! "cacert")
       then Some (candidate_name (List.length (fifos w))) else None).
Proof.
  intros Hsent.
  destruct (ssh_backend_shape candidate_name default_headers remote kwargs w)
    as [(token & url & secret_path & role & public_key
         & Ht & Hu & Hp & Hr & Hk)
       | (e & w' & He & Hw' & _)].
  2:{ rewrite He in Hsent. simpl in Hsent. rewrite Hw' in Hsent.
      now apply app_one_neq in Hsent. }
  exists token.
  destruct (ssh_backend_run candidate_name default_headers remote
              kwargs w _ _ _ _ _ Ht Hu Hp Hr Hk)
    as (req1 & w1 & Hrun & Hsent1 & Hm & Hh & _ & Hto & _ & Hv & _).
  destruct (ssh_backend_world kwargs w _ _ _ _ _ Ht Hu Hp Hr Hk)
    as (req2 & Hw).
  rewrite Hrun in Hw, Hsent. simpl in Hw, Hsent. subst w1.
  simpl in Hsent1, Hsent.
  apply app_inj_tail in Hsent1 as [_ ->].
  apply app_inj_tail in Hsent as [_ ->].
  rewrite Hrun. auto 10.
Qed.

(** X1. Every request either backend sends carries the caller's token as
    [Authorization: Bearer <token>] on top of the session's default
    headers, has the 30 second timeout, and uses the backend's method:
    GET for the KV backend, POST for the SSH backend. *)
Theorem request_carries_bearer_token
    (p : plugin) (kwargs : gmap string string) (w : World) (req : Request) :
  sent (snd (run p kwargs w)) = sent w ++ [req] ->
  exists token,
    kwargs !! "token" = Some token /\
    headers req = <["Authorization" := "Bearer " +:+ token]> default_headers /\
    kw_timeout (request_kwargs req) = 30 /\
    method req = method_of p.
Proof.
  intros Hsent. destruct p; simpl in Hsent.
  - apply kv_backend_request in Hsent
      as (token & ? & ? & ? & Ht & _ & _ & _ & _ & Hm & Hh & Hto & _).
    exists token. auto.
  - apply ssh_backend_request in Hsent
      as (token & Ht & _ & Hm & Hh & Hto & _).
    exists token. auto.
Qed.

(** X2. An invocation of either backend calls the session at most once:
    one [sess.get] or one [sess.post], and never a second attempt.  When
    it makes no call, it has raised [KeyError] for a missing parameter or
    the [ValueError] of [urljoin]; so a value is only ever returned after
    exactly one call.  (How many requests that one call puts on the wire
    is up to [requests], which follows redirects.) *)
Theorem at_most_one_session_call
    (p : plugin) (kwargs : gmap string string) (w : World) :
  (exists e, fst (run p kwargs w) = Raise e /\ early_error e
             /\ sent (snd (run p kwargs w)) = sent w)
  \/ (exists req, sent (snd (run p kwargs w)) = sent w ++ [req]).
Proof.
  destruct p; simpl.
  - destruct (kv_backend_shape candidate_name default_headers remote kwargs w)
      as [(token & url & secret_path & api_version & Ht & Hu & Hp & Ha)
         | (e & He & Hearly)].
    + right.
      destruct (kv_backend_run candidate_name default_headers remote
                  kwargs w _ _ _ _ Ht Hu Hp Ha)
        as (req & w1 & Hrun & Hsent & _).
      exists req. now rewrite Hrun.
    + left. exists e. now rewrite He.
  - destruct (ssh_backend_shape candidate_name default_headers remote kwargs w)
      as [(token & url & secret_path & role & public_key
           & Ht & Hu & Hp & Hr & Hk)
         | (e & w' & He & Hw' & Hearly)].
    + right.
      destruct (ssh_backend_run candidate_name default_headers remote
                  kwargs w _ _ _ _ _ Ht Hu Hp Hr Hk)
        as (req & w1 & Hrun & Hsent & _).
      exists req. now rewrite Hrun.
    + left. exists e. now rewrite He.
Qed.

(** X3. The CA certificate reaches the HTTP client through a pipe and in
    no other way.  An invocation that sends its request with a non-empty
    [cacert] has created exactly one pipe, at the path [tempfile] picked,
    whose writer holds the certificate bytes and whose mode grants nothing
    to group and others, and [verify] is that path; with [cacert] absent
    or empty it has created no pipe and [verify] is not set. *)
Theorem certificate_goes_through_one_pipe
    (p : plugin) (kwargs : gmap string string) (w : World) (req : Request) :
  sent (snd (run p kwargs w)) = sent w ++ [req] ->
  match kwargs !! "cacert" with
  | Some (String c pem) =>
      fifos (snd (run p kwargs w)) =
        fifos w ++ [{| fifo_path := candidate_name (List.length (fifos w));
                       fifo_mode := S_IRUSR_IWUSR;
                       fifo_data := String c pem |}] /\
      Z.land S_IRUSR_IWUSR 63 = 0 /\
      kw_verify (request_kwargs req)
      = Some (candidate_name (List.length (fifos w)))
  | _ =>
      fifos (snd (run p kwargs w)) = fifos w /\
      kw_verify (request_kwargs req) = None
  end.
Proof.
  intros Hsent.
  assert (H : snd (run p kwargs w) = after w (kwargs !! "cacert") req /\
              kw_verify (request_kwargs req) =
                (if truthy_opt (kwargs !! "cacert")
                 then Some (candidate_name (List.length (fifos w)))
                 else None)).
  { destruct p; simpl in Hsent |- *.
    - apply kv_backend_request in Hsent
        as (? & ? & ? & ? & _ & _ & _ & _ & -> & _ & _ & _ & Hv). auto.
    - apply ssh_backend_request in Hsent
        as (? & _ & -> & _ & _ & _ & Hv). auto. }
  destruct H as [-> Hv]. rewrite Hv. unfold world_after, pipe_for.
  destruct (kwargs !! "cacert") as [[|c pem]|]; simpl; auto.
Qed.

(** X4. The KV backend reads every mandatory parameter and computes the
    base URL before it creates the pipe for the certificate.  So when a
    mandatory parameter is missing, or [urljoin] refuses the server URL,
    it raises and leaves the world as it found it, with no pipe and no
    writer thread, even when a certificate was supplied. *)
Theorem kv_backend_early_error_leaves_no_pipe
    (kwargs : gmap string string) (w : World) :
  first_missing (reads hashivault_kv_plugin) kwargs <> None
  \/ (exists e, base_url kwargs = Raise e) ->
  exists e, kv kwargs w = (Raise e, w) /\ early_error e.
Proof.
  intros Hearly.
  destruct (kv_backend_shape candidate_name default_headers remote kwargs w)
    as [(token & url & secret_path & api_version & Ht & Hu & Hp & Ha) | He];
    [exfalso | exact He].
  destruct Hearly as [Hmissing | [e He]]; [| congruence].
  apply Hmissing. simpl. rewrite Ht, Hp, Ha.
  unfold base_url, getitem in Hu.
  now destruct (kwargs !! "url").
Qed.

(** X5. The SSH backend reads [public_key] only after it has made the pipe
    for the certificate.  With a certificate and without a public key it
    raises [KeyError], sends nothing, and leaves the pipe with its writer
    thread behind. *)
Theorem ssh_backend_leaves_pipe_without_public_key
    (kwargs : gmap string string) (w : World)
    (token url secret_path role : string) (c : ascii) (pem : string) :
  kwargs !! "token" = Some token ->
  base_url kwargs = Ok url ->
  kwargs !! "secret_path" = Some secret_path ->
  kwargs !! "role" = Some role ->
  kwargs !! "cacert" = Some (String c pem) ->
  kwargs !! "public_key" = None ->
  ssh kwargs w =
    (Raise (KeyError "public_key"),
     {| fifos := fifos w ++ [pipe w (String c pem)]; sent := sent w |}).
Proof.
  intros Ht Hu Hp Hr Hc Hk.
  unfold ssh_backend, bind, lift, getitem.
  rewrite Ht, Hu, Hp, Hr, Hc, Hk. reflexivity.
Qed.

(** X6. A missing parameter is reported by name.  When the server URL, if
    there is one, is one [urljoin] accepts, the first of the parameters a
    backend reads with [kwargs[...]] that is missing makes it raise
    [KeyError] for that parameter, and no request is sent. *)
Theorem missing_parameter_raises_key_error
    (p : plugin) (kwargs : gmap string string) (w : World) (key : string) :
  (forall server, kwargs !! "url" = Some server ->
                  exists url, Urllib.urljoin server "v1" = Ok url) ->
  first_missing (reads p) kwargs = Some key ->
  fst (run p kwargs w) = Raise (KeyError key) /\
  sent (snd (run p kwargs w)) = sent w.
Proof.
  intros Hurl Hmiss.
  assert (Hbase : match kwargs !! "url" with
                  | Some _ => exists url, base_url kwargs = Ok url
                  | None => base_url kwargs = Raise (KeyError "url")
                  end).
  { unfold base_url, getitem, rbind.
    destruct (kwargs !! "url") as [server|]; [| reflexivity].
    destruct (Hurl server eq_refl) as [url ->]. now exists url. }
  clear Hurl.
  destruct p; simpl in *;
    unfold kv_backend, ssh_backend, bind, lift, getitem.
  - destruct (kwargs !! "token"); [| injection Hmiss as <-; auto].
    destruct (kwargs !! "url");
      [destruct Hbase as [url ->] | rewrite Hbase; injection Hmiss as <-; auto].
    destruct (kwargs !! "secret_path"); [| injection Hmiss as <-; auto].
    destruct (kwargs !! "api_version"); [discriminate |].
    injection Hmiss as <-. auto.
  - destruct (kwargs !! "token"); [| injection Hmiss as <-; auto].
    destruct (kwargs !! "url");
      [destruct Hbase as [url ->] | rewrite Hbase; injection Hmiss as <-; auto].
    destruct (kwargs !! "secret_path"); [| injection Hmiss as <-; auto].
    destruct (kwargs !! "role"); [| injection Hmiss as <-; auto].
    destruct (initial_kwargs_run candidate_name (kwargs !! "cacert") w)
      as (rk & w1 & -> & Hsent & _).
    destruct (kwargs !! "public_key"); [discriminate |].
    injection Hmiss as <-. auto.
Qed.

(** X7. A response that passes the status check but whose body is not
    JSON makes either backend raise the [ValueError] of
    [response.json()]; no value is returned. *)
Theorem undecodable_body_raises_value_error
    (p : plugin) (kwargs : gmap string string) (w : World) (req : Request)
    (response : Response) :
  sent (snd (run p kwargs w)) = sent w ++ [req] ->
  remote req = inl response ->
  raise_for_status response = Ok tt ->
  decoded response = None ->
  exists msg, fst (run p kwargs w) = Raise (ValueError msg).
Proof.
  intros Hsent Hr Hs Hd. destruct p; simpl in *.
  - apply kv_backend_request in Hsent
      as (? & ? & ? & ? & _ & _ & _ & _ & -> & _).
    simpl. rewrite Hr. unfold kv_handle, response_json.
    rewrite Hs, Hd. simpl. eauto.
  - apply ssh_backend_request in Hsent as (? & _ & -> & _).
    simpl. rewrite Hr. unfold ssh_handle, response_json.
    rewrite Hs, Hd. simpl. eauto.
Qed.

(** X8. The [except KeyError] handler of the KV backend catches nothing
    else.  When a key name is supplied and what the response holds in
    place of the secret mapping is not an object (a string, a list, a
    number, [null]), the [TypeError] of the subscript propagates; it is
    not turned into the key-not-found error. *)
Theorem non_mapping_secret_raises_type_error
    (kwargs : gmap string string) (w : World) (req : Request)
    (response : Response) (body mapping : value)
    (api_version key : string) :
  sent (snd (kv kwargs w)) = sent w ++ [req] ->
  remote req = inl response ->
  raise_for_status response = Ok tt ->
  decoded response = Some body ->
  kwargs !! "api_version" = Some api_version ->
  kwargs !! "secret_key" = Some key ->
  key <> EmptyString ->
  secret_mapping api_version body = Ok mapping ->
  is_dict mapping = false ->
  fst (kv kwargs w) = Raise TypeError.
Proof.
  intros Hsent Hr Hs Hd Ha Hk Hne Hm Hnd.
  apply kv_backend_request in Hsent
    as (? & ? & ? & api_version' & _ & _ & _ & Ha' & -> & _).
  rewrite Ha in Ha'. injection Ha' as <-.
  simpl. rewrite Hr, Hk. unfold kv_handle, response_json.
  rewrite Hs, Hd. simpl. apply truthy_true in Hne. rewrite Hne.
  unfold secret_mapping in Hm.
  destruct (String.eqb api_version "v2"); simpl in *.
  - destruct (subscript body "data") as [json|]; [simpl in * | discriminate].
    rewrite Hm. simpl. now destruct mapping.
  - rewrite Hm. simpl. now destruct mapping.
Qed.

(** X9. A response whose JSON body is not an object (a list, a string, a
    number, [null]) makes either backend raise [TypeError], whatever the
    parameters. *)
Theorem non_object_body_raises_type_error
    (p : plugin) (kwargs : gmap string string) (w : World) (req : Request)
    (response : Response) (body : value) :
  sent (snd (run p kwargs w)) = sent w ++ [req] ->
  remote req = inl response ->
  raise_for_status response = Ok tt ->
  decoded response = Some body ->
  is_dict body = false ->
  fst (run p kwargs w) = Raise TypeError.
Proof.
  intros Hsent Hr Hs Hd Hnd. destruct p; simpl in *.
  - apply kv_backend_request in Hsent
      as (? & ? & ? & api_version & _ & _ & _ & _ & -> & _).
    simpl. rewrite Hr. unfold kv_handle, response_json.
    rewrite Hs, Hd. simpl.
    destruct (String.eqb api_version "v2"); simpl.
    + now destruct body.
    + destruct (truthy_opt (kwargs !! "secret_key")); now destruct body.
  - apply ssh_backend_request in Hsent as (? & _ & -> & _).
    simpl. rewrite Hr. unfold ssh_handle, response_json.
    rewrite Hs, Hd. simpl. now destruct body.
Qed.

(** X10. The secret version only matters to the [v2] engine: for any other
    engine version the KV backend does exactly what it does without the
    [secret_version] parameter. *)
Theorem secret_version_only_matters_for_v2
    (kwargs : gmap string string) (w : World) :
  kwargs !! "api_version" <> Some "v2" ->
  kv kwargs w = kv (delete "secret_version" kwargs) w.
Proof.
  intros Hv.
  assert (Hk : forall key, key <> "secret_version" ->
                 delete "secret_version" kwargs !! key = kwargs !! key).
  { intros key Hne. now apply lookup_delete_ne. }
  unfold kv_backend, bind, lift, base_url, getitem.
  rewrite (Hk "token"), (Hk "url"), (Hk "secret_path"), (Hk "secret_key"),
    (Hk "cacert"), (Hk "api_version") by discriminate.
  destruct (kwargs !! "token") as [token|]; [| reflexivity].
  destruct (rbind _ _) as [url|]; [| reflexivity].
  destruct (kwargs !! "secret_path") as [secret_path|]; [| reflexivity].
  destruct (kwargs !! "api_version") as [selector|]; [| reflexivity].
  destruct (initial_kwargs _ _ _) as [[rk|e] w1]; [| reflexivity].
  destruct (String.eqb_spec selector "v2") as [-> | _];
    [congruence | reflexivity].
Qed.

(** X11. The engine-version selector is compared with ['v2'] and with
    nothing else: any other selector, known or not, makes the KV backend
    do exactly what it does for ['v1']. *)
Theorem other_selectors_behave_as_v1
    (kwargs : gmap string string) (w : World) (api_version : string) :
  api_version <> "v2" ->
  kv (<["api_version" := api_version]> kwargs) w
  = kv (<["api_version" := "v1"]> kwargs) w.
Proof.
  intros Hv.
  assert (Hk : forall selector key, key <> "api_version" ->
                 <["api_version" := selector]> kwargs !! key = kwargs !! key).
  { intros selector key Hne. now apply lookup_insert_ne. }
  unfold kv_backend, bind, lift, base_url, getitem.
  rewrite !(Hk _ "token"), !(Hk _ "url"), !(Hk _ "secret_path"),
    !(Hk _ "secret_key"), !(Hk _ "cacert"), !(Hk _ "secret_version")
    by discriminate.
  rewrite !lookup_insert_eq.
  destruct (kwargs !! "token") as [token|]; [| reflexivity].
  destruct (rbind _ _) as [url|]; [| reflexivity].
  destruct (kwargs !! "secret_path") as [secret_path|]; [| reflexivity].
  destruct (initial_kwargs _ _ _) as [[rk|e] w1]; [| reflexivity].
  apply String.eqb_neq in Hv. rewrite Hv. reflexivity.
Qed.

End Requests.

(** * Further properties of the secret location *)

Lemma split_elements (c : ascii) (s : string) :
  Forall (fun x => Str.contains c x = false) (Str.split c s).
Proof.
  induction s as [|a s IH]; simpl.
  - repeat constructor.
  - destruct (Ascii.eqb a c) eqn:E.
    + constructor; [reflexivity | exact IH].
    + destruct (Str.split c s) as [|h t].
      * repeat constructor. simpl. now rewrite E.
      * inversion IH as [|? ? Hh Ht]; subst.
        constructor; [| exact Ht]. simpl. now rewrite E.
Qed.

Lemma lstrip_head (c : ascii) (s : string) :
  match Str.lstrip c s with
  | String a _ => Ascii.eqb a c = false
  | EmptyString => True
  end.
Proof.
  induction s as [|a s IH]; simpl; [exact I |].
  destruct (Ascii.eqb a c) eqn:E; [exact IH | exact E].
Qed.

(** What [pathlib] makes of a location without its leading separators:
    components only. *)
Lemma parts_components (s : string) :
  Forall (fun x => component x = true) (Pathlib.parts (Str.lstrip "/" s)).
Proof.
  pose proof (lstrip_head "/" s) as Hhead.
  destruct (Str.lstrip "/" s) as [|a r]; [constructor |].
  unfold Pathlib.parts, Pathlib.parse_parts, Pathlib.splitroot.
  rewrite Hhead. change (Str.truthy (String a r)) with true.
  change (Str.truthy EmptyString) with false.
  cbv beta iota zeta. simpl negb. simpl orb. cbv iota.
  apply Forall_rev. unfold component.
  destruct (Str.contains "/" (String a r)) eqn:Hc.
  - apply Forall_forall. intros x Hx%list_elem_of_In.
    apply filter_In in Hx as [Hx Hw]. rewrite Hw. simpl.
    apply in_rev in Hx. apply list_elem_of_In in Hx.
    pose proof (split_elements "/" (String a r)) as Hs.
    rewrite Forall_forall in Hs. now rewrite (Hs x Hx).
  - destruct (Pathlib.wanted (String a r)) eqn:Hw; repeat constructor.
    now rewrite Hw, Hc.
Qed.

Lemma endswith_absent (c : ascii) (s : string) :
  Str.contains c s = false -> Str.endswith c s = false.
Proof.
  induction s as [|a s IH]; simpl; [reflexivity |].
  destruct (Ascii.eqb a c) eqn:E; [discriminate |].
  intros H. destruct s; [reflexivity | now apply IH].
Qed.

Lemma endswith_app (c : ascii) (a b : string) :
  b <> EmptyString -> Str.endswith c (a +:+ b) = Str.endswith c b.
Proof.
  intros Hb. induction a as [|x a IH]; [reflexivity |].
  simpl. rewrite <- IH. destruct (a +:+ b) eqn:E; [| reflexivity].
  destruct a; simpl in E; [congruence | discriminate].
Qed.

Lemma rstrip_id (c : ascii) (s : string) :
  Str.endswith c s = false -> Str.rstrip c s = s.
Proof.
  induction s as [|a s IH]; [reflexivity |].
  intros H. simpl in *. destruct s as [|b s].
  - simpl. now rewrite H.
  - rewrite IH by exact H. reflexivity.
Qed.

Lemma component_spec (x : string) :
  component x = true ->
  x <> EmptyString /\ x <> "." /\ Str.contains "/" x = false.
Proof.
  unfold component, Pathlib.wanted.
  intros [[Ht Hd]%andb_prop Hs]%andb_prop.
  apply negb_true_iff in Hd, Hs. repeat split.
  - now apply truthy_true.
  - now apply String.eqb_neq.
  - exact Hs.
Qed.

Lemma rstrip_app (c : ascii) (a b : string) :
  Str.rstrip c (a +:+ b) =
  match Str.rstrip c b with
  | EmptyString => Str.rstrip c a
  | r => a +:+ r
  end.
Proof.
  induction a as [|x a IH]; simpl.
  - now destruct (Str.rstrip c b).
  - rewrite IH. destruct (Str.rstrip c b) as [|y r]; [reflexivity |].
    destruct a; reflexivity.
Qed.

Lemma rstrip_mul (c : ascii) (k : nat) : Str.rstrip c (Str.mul c k) = EmptyString.
Proof.
  induction k as [|k IH]; simpl; [reflexivity |].
  rewrite IH. now rewrite Ascii.eqb_refl.
Qed.

Section Locations.

Variable candidate_name : nat -> string.
Variable default_headers : gmap string string.
Variable remote : Request -> Response + string.

Abbreviation kv := (kv_backend candidate_name default_headers remote).

(** The URL of the request is the one [kv_request_url] gives. *)
Lemma kv_backend_url (kwargs : gmap string string) (w : World)
    (token url secret_path api_version : string) :
  kwargs !! "token" = Some token ->
  base_url kwargs = Ok url ->
  kwargs !! "secret_path" = Some secret_path ->
  kwargs !! "api_version" = Some api_version ->
  exists req,
    snd (kv kwargs w) = world_after candidate_name w (kwargs !! "cacert") req /\
    kv_request_url api_version url secret_path = Ok (request_url req) /\
    req = mkRequest GET (request_url req)
            (session_headers default_headers token)
            {| kw_timeout := 30;
               kw_verify := if truthy_opt (kwargs !! "cacert")
                            then Some (candidate_name (List.length (fifos w)))
                            else None;
               kw_params :=
                 if String.eqb api_version "v2"
                    && truthy_opt (kwargs !! "secret_version")
                 then Some {[ "version" :=
                                default EmptyString (kwargs !! "secret_version") ]}
                 else None;
               kw_json := None |}.
Proof.
  intros Ht Hu Hp Ha.
  destruct (kv_backend_run candidate_name default_headers remote
              kwargs w _ _ _ _ Ht Hu Hp Ha)
    as (req & w1 & Hrun & Hsent & Hm & Hh & Hto & Hj & Hv & Hshape).
  destruct (kv_backend_world candidate_name default_headers remote
              kwargs w _ _ _ _ Ht Hu Hp Ha) as (req' & Hw).
  assert (req' = req) as ->.
  { rewrite Hrun in Hw. simpl in Hw. subst w1. simpl in Hsent.
    now apply app_inj_tail in Hsent as [_ ->]. }
  exists req. split; [exact Hw |].
  unfold kv_request_url.
  destruct req as [m u h [t v pa j]]. simpl in *. subst m h t j v.
  destruct (String.eqb api_version "v2"); simpl.
  - destruct Hshape as (mount_point & path & -> & -> & ->). simpl.
    split; reflexivity.
  - destruct Hshape as [-> ->]. split; reflexivity.
Qed.

(** Two secret locations that give the same request URL give the same
    request, and leave the same world. *)
Lemma kv_backend_same_url (kwargs : gmap string string) (w : World)
    (p1 p2 : string) :
  (forall api_version url,
      kwargs !! "api_version" = Some api_version ->
      kv_request_url api_version url p1 = kv_request_url api_version url p2) ->
  snd (kv (<["secret_path" := p1]> kwargs) w)
  = snd (kv (<["secret_path" := p2]> kwargs) w).
Proof.
  intros Hsame.
  assert (Hk : forall p key, key <> "secret_path" ->
                 <["secret_path" := p]> kwargs !! key = kwargs !! key).
  { intros p key Hne. now apply lookup_insert_ne. }
  assert (Hb : forall p, base_url (<["secret_path" := p]> kwargs)
                         = base_url kwargs).
  { intros p. unfold base_url, getitem. now rewrite Hk by discriminate. }
  destruct (kv_backend_shape candidate_name default_headers remote
              (<["secret_path" := p1]> kwargs) w)
    as [(token & url & sp & api_version & Ht & Hu & Hp & Ha)
       | (e & He & _)].
  - rewrite Hk in Ht, Ha by discriminate. rewrite Hb in Hu.
    clear Hp sp.
    destruct (kv_backend_url (<["secret_path" := p1]> kwargs) w
                token url p1 api_version)
      as (req1 & Hw1 & Hurl1 & Hreq1);
      rewrite ?Hk, ?Hb, ?lookup_insert_eq by discriminate; try assumption;
      try reflexivity.
    destruct (kv_backend_url (<["secret_path" := p2]> kwargs) w
                token url p2 api_version)
      as (req2 & Hw2 & Hurl2 & Hreq2);
      rewrite ?Hk, ?Hb, ?lookup_insert_eq by discriminate; try assumption;
      try reflexivity.
    rewrite Hw1, Hw2. rewrite !Hk by discriminate.
    rewrite (Hsame _ url Ha) in Hurl1. rewrite Hurl1 in Hurl2.
    injection Hurl2 as Hurl.
    rewrite !Hk in Hreq1, Hreq2 by discriminate.
    rewrite Hreq1, Hreq2, Hurl. reflexivity.
  - rewrite He. simpl.
    destruct (kv_backend_shape candidate_name default_headers remote
                (<["secret_path" := p2]> kwargs) w)
      as [(token & url & sp & api_version & Ht & Hu & Hp & Ha)
         | (e' & He' & _)]; [| now rewrite He'].
    rewrite Hk in Ht, Ha by discriminate. rewrite Hb in Hu.
    destruct (kv_backend_run candidate_name default_headers remote
                (<["secret_path" := p1]> kwargs) w token url p1 api_version)
      as (req & w1 & Hrun & Hsent & _);
      rewrite ?Hk, ?Hb, ?lookup_insert_eq by discriminate; try assumption;
      try reflexivity.
    rewrite He in Hrun. injection Hrun as _ <-.
    now apply app_one_neq in Hsent.
Qed.

Lemma v2_join_not_stripped (url mount_point : string) (path : list string) :
  Forall (fun x => component x = true) path ->
  Str.rstrip "/" (Str.join "/" ([url; mount_point; "data"] ++ path))
  = Str.join "/" ([url; mount_point; "data"] ++ path).
Proof.
  intros Hpath. apply rstrip_id.
  destruct path as [|y path'] using rev_ind.
  - change (Str.join "/" ([url; mount_point; "data"] ++ []))
      with (url +:+ "/" +:+ mount_point +:+ "/data").
    rewrite <- !append_assoc. now rewrite endswith_app.
  - clear IHpath'. apply Forall_app in Hpath as [_ Hy].
    apply Forall_inv in Hy. apply component_spec in Hy as (Hne & _ & Hs).
    rewrite app_assoc.
    rewrite (join_app_cons "/" ([url; mount_point; "data"] ++ path') y []).
    simpl app. cbv beta iota. change (Str.join "/" [y]) with y.
    rewrite <- append_assoc. rewrite endswith_app by exact Hne.
    now apply endswith_absent.
Qed.

(** X12. What the versioned engine is asked for.  The request URL of a
    [v2] invocation is [<base>/<mount_point>/data] followed by the path
    components, and nothing is ever stripped from it: every path
    component is non-empty, is not [.] and holds no separator.  The mount
    point is such a component too, unless the location has no component
    at all (it is empty or made of separators and dots), in which case
    the whole location is used as the mount point. *)
Theorem v2_request_url_components
    (kwargs : gmap string string) (w : World) (req : Request) :
  kwargs !! "api_version" = Some "v2" ->
  sent (snd (kv kwargs w)) = sent w ++ [req] ->
  exists url secret_path mount_point path,
    base_url kwargs = Ok url /\
    kwargs !! "secret_path" = Some secret_path /\
    mount_point_and_path secret_path = Ok (mount_point, path) /\
    request_url req = Str.join "/" ([url; mount_point; "data"] ++ path) /\
    Forall (fun x => x <> EmptyString /\ x <> "."
                     /\ Str.contains "/" x = false) path /\
    match Pathlib.parts (Str.lstrip "/" secret_path) with
    | [] => mount_point = secret_path /\ path = []
    | _ => mount_point <> EmptyString /\ mount_point <> "."
           /\ Str.contains "/" mount_point = false
    end.
Proof.
  intros Hv2 Hsent.
  destruct (kv_backend_shape candidate_name default_headers remote kwargs w)
    as [(token & url & secret_path & api_version & Ht & Hu & Hp & Ha)
       | (e & He & _)].
  2:{ rewrite He in Hsent. simpl in Hsent. now apply app_one_neq in Hsent. }
  rewrite Hv2 in Ha. injection Ha as <-.
  destruct (kv_backend_url kwargs w _ _ _ _ Ht Hu Hp Hv2)
    as (req' & Hw & Hurl & _).
  rewrite Hw in Hsent. simpl in Hsent. apply app_inj_tail in Hsent as [_ ->].
  unfold kv_request_url in Hurl.
  change (String.eqb "v2" "v2") with true in Hurl. cbv iota in Hurl.
  destruct (mount_point_and_path secret_path) as [[mount_point path]|] eqn:Hmp;
    unfold rbind in Hurl; [| discriminate].
  assert (Hcomp : Forall (fun x => component x = true) path /\
                  match Pathlib.parts (Str.lstrip "/" secret_path) with
                  | [] => mount_point = secret_path /\ path = []
                  | _ => component mount_point = true
                  end).
  { pose proof (parts_components secret_path) as Hparts.
    unfold mount_point_and_path, try_except, try_mount_point_and_path in Hmp.
    destruct (Pathlib.parts (Str.lstrip "/" secret_path)) as [|m p];
      simpl in Hmp; injection Hmp as <- <-.
    - split; [constructor | auto].
    - now apply Forall_cons in Hparts as [Hm Hp']. }
  destruct Hcomp as [Hpath Hmount].
  rewrite v2_join_not_stripped in Hurl by exact Hpath.
  injection Hurl as Hurl.
  exists url, secret_path, mount_point, path.
  repeat (split; [assumption || reflexivity |]).
  split; [now rewrite <- Hurl |]. split.
  - eapply Forall_impl; [exact Hpath |]. intros x. apply component_spec.
  - destruct (Pathlib.parts (Str.lstrip "/" secret_path));
      [exact Hmount | now apply component_spec].
Qed.

(** X13. The versioned engine sees a location through its components
    only.  Two locations with the same components (they differ in
    leading, trailing or repeated separators, or in [.] segments) make a
    [v2] invocation send the same request and leave the same world. *)
Theorem v2_request_depends_on_components
    (kwargs : gmap string string) (w : World) (p1 p2 : string) :
  kwargs !! "api_version" = Some "v2" ->
  Pathlib.parts (Str.lstrip "/" p1) = Pathlib.parts (Str.lstrip "/" p2) ->
  Pathlib.parts (Str.lstrip "/" p1) <> [] ->
  snd (kv (<["secret_path" := p1]> kwargs) w)
  = snd (kv (<["secret_path" := p2]> kwargs) w).
Proof.
  intros Hv2 Hparts Hne. apply kv_backend_same_url.
  intros api_version url Ha. rewrite Hv2 in Ha. injection Ha as <-.
  unfold kv_request_url, mount_point_and_path, try_except,
    try_mount_point_and_path.
  rewrite <- Hparts.
  destruct (Pathlib.parts (Str.lstrip "/" p1)); [congruence | reflexivity].
Qed.

(** X14. For the unversioned engine trailing separators of the location
    do not matter: with any number of them appended the invocation sends
    the same request and leaves the same world. *)
Theorem v1_request_ignores_trailing_separators
    (kwargs : gmap string string) (w : World) (secret_path : string)
    (k : nat) :
  kwargs !! "api_version" <> Some "v2" ->
  snd (kv (<["secret_path" := secret_path +:+ Str.mul "/" k]> kwargs) w)
  = snd (kv (<["secret_path" := secret_path]> kwargs) w).
Proof.
  intros Hv. apply kv_backend_same_url.
  intros api_version url Ha. unfold kv_request_url.
  destruct (String.eqb_spec api_version "v2") as [-> | _]; [congruence |].
  f_equal.
  change (Str.join "/" [url; secret_path +:+ Str.mul "/" k])
    with (url +:+ "/" +:+ secret_path +:+ Str.mul "/" k).
  change (Str.join "/" [url; secret_path])
    with (url +:+ "/" +:+ secret_path).
  rewrite <- !append_assoc. rewrite rstrip_app, rstrip_mul.
  now rewrite !append_assoc.
Qed.

End Locations.

(** * Further properties of the base URL *)

Lemma contains_app (c : ascii) (a b : string) :
  Str.contains c (a +:+ b) = Str.contains c a || Str.contains c b.
Proof.
  induction a as [|x a IH]; simpl; [reflexivity |].
  now destruct (Ascii.eqb x c).
Qed.

Lemma find_at_app_absent (c : ascii) (a b : string) (pos start : Z) :
  Str.contains c a = false ->
  Str.find_at c (a +:+ b) pos start = Str.find_at c b (pos + Str.len a) start.
Proof.
  revert pos. induction a as [|x a IH]; intros pos H; simpl in *.
  - f_equal. unfold Str.len. simpl. lia.
  - destruct (Ascii.eqb x c); [discriminate |].
    rewrite andb_false_r, IH by assumption. f_equal.
    rewrite len_cons. lia.
Qed.

Lemma take_length_app (a b : string) : Str.take (String.length a) (a +:+ b) = a.
Proof. induction a as [|x a IH]; simpl; [now destruct b | now rewrite IH]. Qed.

Lemma drop_length_app (a b : string) : Str.drop (String.length a) (a +:+ b) = b.
Proof. induction a as [|x a IH]; simpl; [now destruct b | exact IH]. Qed.

Lemma len_app (a b : string) : Str.len (a +:+ b) = Str.len a + Str.len b.
Proof.
  induction a as [|x a IH]; [unfold Str.len; simpl; lia |].
  simpl. rewrite !len_cons, IH. lia.
Qed.

Lemma len_nonneg (s : string) : 0 <= Str.len s.
Proof. unfold Str.len. lia. Qed.

Lemma find_at_skip (c a : ascii) (s : string) (pos start : Z) :
  (start <=? pos) && Ascii.eqb a c = false ->
  Str.find_at c (String a s) pos start = Str.find_at c s (pos + 1) start.
Proof. intros H. simpl. now rewrite H. Qed.

(** The network location of [//<netloc>/<rest>] ends at the first [/]. *)
Lemma splitnetloc_path (netloc rest : string) :
  Str.contains "/" netloc = false ->
  Str.contains "?" netloc = false ->
  Str.contains "#" netloc = false ->
  Str.contains "?" rest = false ->
  Str.contains "#" rest = false ->
  Urllib.splitnetloc ("//" +:+ netloc +:+ String "/" rest) 2
  = (netloc, String "/" rest).
Proof.
  intros Hs Hq Hf Hq' Hf'.
  change ("//" +:+ netloc +:+ String "/" rest)
    with (String "/" (String "/" (netloc +:+ String "/" rest))).
  set (url := String "/" (String "/" (netloc +:+ String "/" rest))).
  assert (Hlen : Str.len url = Str.len netloc + Str.len rest + 3).
  { unfold url. rewrite !len_cons, len_app, len_cons. lia. }
  assert (Hslash : Str.find_from "/" url 2 = 2 + Str.len netloc).
  { unfold Str.find_from, url. simpl.
    rewrite find_at_app_absent by assumption. simpl.
    pose proof (len_nonneg netloc).
    destruct (Z.leb_spec 2 (0 + 1 + 1 + Str.len netloc)); simpl; lia. }
  assert (Hother : forall c, c <> "/"%char ->
            Str.contains c netloc = false -> Str.contains c rest = false ->
            Str.find_from c url 2 = -1).
  { intros c Hc Hn Hr. unfold Str.find_from, url.
    rewrite !find_at_skip by reflexivity.
    rewrite find_at_app_absent by assumption.
    rewrite find_at_skip.
    - now apply find_at_absent.
    - apply andb_false_iff. right. apply Ascii.eqb_neq. congruence. }
  pose proof (len_nonneg netloc) as Hn. pose proof (len_nonneg rest) as Hr.
  unfold Urllib.splitnetloc. cbv [fold_left].
  rewrite Hslash, !Hother by (assumption || discriminate).
  change (0 <=? -1) with false. cbv beta iota.
  destruct (Z.leb_spec 0 (2 + Str.len netloc)); [| lia].
  rewrite Z.min_r by lia.
  rewrite slice_nonneg, slice_from_nonneg by lia.
  replace (Z.to_nat (2 + Str.len netloc - 2)) with (String.length netloc)
    by (unfold Str.len; lia).
  replace (Z.to_nat (2 + Str.len netloc)) with (S (S (String.length netloc)))
    by (unfold Str.len; lia).
  change (Z.to_nat 2) with 2%nat. unfold url. simpl Str.drop.
  now rewrite take_length_app, drop_length_app.
Qed.

Lemma split_after_scheme_path (scheme netloc rest : string) :
  is_netloc netloc = true ->
  Str.contains "?" rest = false ->
  Str.contains "#" rest = false ->
  Urllib.split_after_scheme scheme ("//" +:+ netloc +:+ String "/" rest)
  = Ok (scheme, netloc, String "/" rest, EmptyString, EmptyString).
Proof.
  intros H Hq Hf. unfold is_netloc in H.
  apply andb_prop in H as [H Hb]. apply andb_prop in H as [H Hf0].
  apply andb_prop in H as [Hs0 Hq0].
  apply negb_true_iff in Hs0, Hq0, Hf0.
  unfold Urllib.split_after_scheme.
  rewrite slice_to_nonneg by lia.
  change (Str.take (Z.to_nat 2) ("//" +:+ netloc +:+ String "/" rest))
    with "//".
  change (String.eqb "//" "//") with true. cbv iota.
  rewrite splitnetloc_path by assumption.
  rewrite brackets_paired by assumption. unfold rbind.
  change (Str.contains "#" (String "/" rest)) with (Str.contains "#" rest).
  rewrite Hf. cbv beta iota zeta.
  change (Str.contains "?" (String "/" rest)) with (Str.contains "?" rest).
  now rewrite Hq.
Qed.

(** Scheme detection on an [http] or [https] URL. *)
Lemma urlsplit_scheme (scheme tail : string) :
  scheme = "http" \/ scheme = "https" ->
  Urllib.urlsplit (scheme +:+ "://" +:+ tail) EmptyString
  = Urllib.split_after_scheme scheme ("//" +:+ tail).
Proof.
  intros [-> | ->]; unfold Urllib.urlsplit.
  - change ("http" +:+ "://" +:+ tail)
      with (String "h" (String "t" (String "t" (String "p"
              (String ":" ("//" +:+ tail)))))).
    set (rest := "//" +:+ tail).
    change (Str.find ":" (String "h" (String "t" (String "t" (String "p"
              (String ":" rest)))))) with 4.
    change (0 <? 4) with true. cbv iota.
    rewrite slice_to_nonneg, slice_from_nonneg by lia.
    reflexivity.
  - change ("https" +:+ "://" +:+ tail)
      with (String "h" (String "t" (String "t" (String "p" (String "s"
              (String ":" ("//" +:+ tail))))))).
    set (rest := "//" +:+ tail).
    change (Str.find ":" (String "h" (String "t" (String "t" (String "p"
              (String "s" (String ":" rest))))))) with 5.
    change (0 <? 5) with true. cbv iota.
    rewrite slice_to_nonneg, slice_from_nonneg by lia.
    simpl Str.take. simpl Str.drop. simpl String.eqb. cbv iota.
    change (Str.all_in Urllib.scheme_chars "https") with true. cbv iota.
    unfold rest at 1 2.
    change ("//" +:+ tail) with (String "/" (String "/" tail)).
    simpl Str.truthy. simpl Str.all_in. simpl negb. simpl orb. cbv iota.
    reflexivity.
Qed.

Lemma split_plain (c : ascii) (s : string) :
  Str.contains c s = false -> Str.split c s = [s].
Proof.
  induction s as [|a s IH]; simpl; [reflexivity |].
  destruct (Ascii.eqb a c); [discriminate |].
  intros H. now rewrite IH.
Qed.

Lemma split_app_sep (c : ascii) (a b : string) :
  Str.contains c a = false ->
  Str.split c (a +:+ String c b) = a :: Str.split c b.
Proof.
  induction a as [|x a IH]; simpl.
  - now rewrite Ascii.eqb_refl.
  - destruct (Ascii.eqb x c); [discriminate |].
    intros H. now rewrite IH.
Qed.

Lemma split_join (c : ascii) (l : list string) :
  Forall (fun x => Str.contains c x = false) l ->
  l <> [] ->
  Str.split c (Str.join (String c EmptyString) l) = l.
Proof.
  induction l as [|x l IH]; [congruence |].
  intros HF _. apply Forall_cons in HF as [Hx Hl].
  destruct l as [|y l].
  - simpl. now apply split_plain.
  - change (Str.join (String c EmptyString) (x :: y :: l))
      with (x +:+ String c (Str.join (String c EmptyString) (y :: l))).
    rewrite split_app_sep by assumption.
    now rewrite IH.
Qed.

Lemma contains_join (c : ascii) (sep : string) (l : list string) :
  Forall (fun x => Str.contains c x = false) l ->
  Str.contains c sep = false ->
  Str.contains c (Str.join sep l) = false.
Proof.
  intros HF Hsep. induction l as [|x l IH]; [reflexivity |].
  apply Forall_cons in HF as [Hx Hl].
  destruct l as [|y l]; [exact Hx |].
  change (Str.join sep (x :: y :: l)) with (x +:+ sep +:+ Str.join sep (y :: l)).
  rewrite !contains_app, Hx, Hsep. now apply IH.
Qed.

Lemma filter_truthy_id (l : list string) :
  Forall (fun x => Str.truthy x = true) l -> List.filter Str.truthy l = l.
Proof.
  induction l as [|x l IH]; [reflexivity |].
  intros HF. apply Forall_cons in HF as [Hx Hl].
  simpl. rewrite Hx. now rewrite IH.
Qed.

Lemma filter_middle_cons (first : string) (rest : list string) :
  rest <> [] ->
  Urllib.filter_middle (first :: rest)
  = first :: List.filter Str.truthy (removelast rest)
          ++ [List.last rest EmptyString].
Proof. destruct rest; [congruence | reflexivity]. Qed.

Lemma resolve_no_dots (l acc : list string) :
  Forall (fun x => String.eqb x ".." = false /\ String.eqb x "." = false) l ->
  fold_left
    (fun resolved_path seg =>
       if String.eqb seg ".." then removelast resolved_path
       else if String.eqb seg "." then resolved_path
       else resolved_path ++ [seg]) l acc
  = acc ++ l.
Proof.
  revert acc. induction l as [|x l IH]; intros acc HF; simpl.
  - now rewrite app_nil_r.
  - apply Forall_cons in HF as [[H1 H2] Hl].
    rewrite H1, H2, IH by assumption. now rewrite <- app_assoc.
Qed.

Lemma join_cons (sep x : string) (l : list string) :
  l <> [] -> Str.join sep (x :: l) = x +:+ sep +:+ Str.join sep l.
Proof. destruct l; [congruence | reflexivity]. Qed.

Lemma plain_spec (x : string) :
  plain x = true ->
  Str.contains "/" x = false /\ Str.contains "?" x = false /\
  Str.contains "#" x = false /\ Str.contains ";" x = false.
Proof.
  unfold plain. intros H.
  repeat (apply andb_prop in H as [H ?]).
  repeat match goal with
         | X : negb _ = true |- _ => apply negb_true_iff in X
         end.
  auto.
Qed.

Lemma directory_spec (x : string) :
  directory x = true ->
  Str.truthy x = true /\ String.eqb x "." = false /\
  String.eqb x ".." = false /\ plain x = true.
Proof.
  unfold directory. intros H.
  repeat (apply andb_prop in H as [H ?]).
  repeat match goal with
         | X : negb _ = true |- _ => apply negb_true_iff in X
         end.
  auto.
Qed.

(** The segments [urljoin] resolves for the reference [v1] against the base
    path [/<dirs>/<seg>]: the directories, then [v1]. *)
Lemma segments_of_v1 (dirs : list string) (seg : string) :
  Forall (fun x => directory x = true) dirs ->
  let base_parts := EmptyString :: dirs ++ [seg] in
  let base_parts :=
    if negb (String.eqb (List.last base_parts EmptyString) EmptyString)
    then removelast base_parts else base_parts in
  Urllib.filter_middle (base_parts ++ ["v1"]) = EmptyString :: dirs ++ ["v1"].
Proof.
  intros Hdirs. cbv zeta.
  assert (Htruthy : Forall (fun x => Str.truthy x = true) dirs).
  { eapply Forall_impl; [exact Hdirs |]. intros x Hx.
    now apply directory_spec in Hx. }
  change (EmptyString :: dirs ++ [seg]) with ((EmptyString :: dirs) ++ [seg]).
  rewrite last_last, removelast_last.
  destruct (String.eqb_spec seg EmptyString) as [-> | Hne]; simpl negb; cbv iota.
  - change (((EmptyString :: dirs) ++ [EmptyString]) ++ ["v1"])
      with (EmptyString :: ((dirs ++ [EmptyString]) ++ ["v1"])).
    rewrite filter_middle_cons by (now destruct dirs).
    rewrite last_last, removelast_last, List.filter_app.
    rewrite filter_truthy_id by exact Htruthy.
    simpl. now rewrite app_nil_r.
  - change ((EmptyString :: dirs) ++ ["v1"])
      with (EmptyString :: (dirs ++ ["v1"])).
    rewrite filter_middle_cons by (now destruct dirs).
    rewrite last_last, removelast_last.
    now rewrite filter_truthy_id by exact Htruthy.
Qed.

Lemma urljoin_path (scheme netloc : string) (dirs : list string)
    (seg : string) :
  scheme = "http" \/ scheme = "https" ->
  is_netloc netloc = true ->
  Forall (fun x => directory x = true) dirs ->
  plain seg = true ->
  Urllib.urljoin
    (scheme +:+ "://" +:+ netloc +:+ "/" +:+ Str.join "/" (dirs ++ [seg])) "v1"
  = Ok (scheme +:+ "://" +:+ netloc +:+ "/" +:+ Str.join "/" (dirs ++ ["v1"])).
Proof.
  intros Hscheme Hnetloc Hdirs Hseg.
  set (rest := Str.join "/" (dirs ++ [seg])).
  assert (Hall : forall c, (forall x, plain x = true -> Str.contains c x = false) ->
            c <> "/"%char -> Str.contains c rest = false).
  { intros c Hc Hne. apply contains_join.
    - apply Forall_app. split.
      + eapply Forall_impl; [exact Hdirs |]. intros x Hx.
        apply directory_spec in Hx. now apply Hc.
      + repeat constructor. now apply Hc.
    - change (Str.contains c "/")
        with (if Ascii.eqb "/" c then true else false).
      apply Ascii.eqb_neq in Hne. rewrite Ascii.eqb_sym in Hne.
      now rewrite Hne. }
  assert (Hq : Str.contains "?" rest = false).
  { apply Hall; [| discriminate]. intros x Hx. now apply plain_spec in Hx. }
  assert (Hf : Str.contains "#" rest = false).
  { apply Hall; [| discriminate]. intros x Hx. now apply plain_spec in Hx. }
  assert (Hp : Str.contains ";" rest = false).
  { apply Hall; [| discriminate]. intros x Hx. now apply plain_spec in Hx. }
  assert (Hsplit : Str.split "/" rest = dirs ++ [seg]).
  { apply split_join; [| now destruct dirs].
    apply Forall_app. split.
    - eapply Forall_impl; [exact Hdirs |]. intros x Hx.
      apply directory_spec in Hx. now apply plain_spec.
    - repeat constructor. now apply plain_spec in Hseg. }
  assert (Hparse : Urllib.urlparse (scheme +:+ "://" +:+ netloc +:+ "/" +:+ rest)
                     EmptyString
                   = Ok (scheme, netloc, String "/" rest, EmptyString,
                         EmptyString, EmptyString)).
  { unfold Urllib.urlparse. rewrite urlsplit_scheme by assumption.
    change ("//" +:+ netloc +:+ "/" +:+ rest)
      with ("//" +:+ netloc +:+ String "/" rest).
    rewrite split_after_scheme_path by assumption. unfold rbind.
    change (Str.contains ";" (String "/" rest)) with (Str.contains ";" rest).
    rewrite Hp. now rewrite andb_false_r. }
  assert (Hv1 : Urllib.urlparse "v1" scheme
                = Ok (scheme, EmptyString, "v1", EmptyString, EmptyString,
                      EmptyString)).
  { destruct Hscheme as [-> | ->]; reflexivity. }
  assert (Hrel : Urllib.mem scheme Urllib.uses_relative = true
                 /\ Urllib.mem scheme Urllib.uses_netloc = true
                 /\ String.eqb scheme scheme = true
                 /\ Str.truthy scheme = true).
  { destruct Hscheme as [-> | ->]; repeat split; reflexivity. }
  destruct Hrel as (Hrel & Hnl & Heq & Hts).
  pose proof (segments_of_v1 dirs seg Hdirs) as Hsegs. cbv zeta in Hsegs.
  assert (Hdots : Forall (fun x => String.eqb x ".." = false
                                   /\ String.eqb x "." = false)
                    (EmptyString :: dirs ++ ["v1"])).
  { constructor; [now split |]. apply Forall_app. split.
    - eapply Forall_impl; [exact Hdirs |]. intros x Hx.
      apply directory_spec in Hx. tauto.
    - repeat constructor. }
  assert (Hjoin : Str.join "/" (EmptyString :: dirs ++ ["v1"])
                  = String "/" (Str.join "/" (dirs ++ ["v1"]))).
  { destruct dirs; reflexivity. }
  assert (Hserver : Str.truthy (scheme +:+ "://" +:+ netloc +:+ "/" +:+ rest)
                    = true).
  { destruct Hscheme as [-> | ->]; reflexivity. }
  unfold Urllib.urljoin. rewrite Hparse, Hserver. clearbody rest.
  cbn [negb orb andb Str.truthy]. unfold rbind at 1. cbv beta iota.
  rewrite Hv1. unfold rbind. cbv beta iota.
  rewrite Heq, Hrel, Hnl. cbn [negb orb andb Str.truthy].
  change (Str.slice_to "v1" 1) with "v".
  change (String.eqb "v" "/") with false. cbv iota.
  change (Str.split "/" "v1") with ["v1"].
  change (Str.split "/" (String "/" rest))
    with (EmptyString :: Str.split "/" rest).
  rewrite Hsplit, Hsegs.
  unfold Urllib.resolve. rewrite resolve_no_dots by exact Hdots.
  change ([] ++ EmptyString :: dirs ++ ["v1"])
    with (EmptyString :: dirs ++ ["v1"]).
  change (List.last (EmptyString :: dirs ++ ["v1"]) EmptyString)
    with (List.last ((EmptyString :: dirs) ++ ["v1"]) EmptyString).
  rewrite last_last.
  change (String.eqb "v1" ".") with false.
  change (String.eqb "v1" "..") with false.
  cbn [negb orb andb]. cbv iota.
  rewrite Hjoin. cbn [Str.truthy]. cbv iota.
  unfold Urllib.urlunparse, Urllib.urlunsplit.
  cbn [Str.truthy]. cbv iota.
  rewrite Hts, Hnl. rewrite slice_to_nonneg by lia.
  rewrite slice_to_nonneg by lia.
  change (Str.take (Z.to_nat 1) (String "/" ?x)) with "/".
  assert (Hhead : String.eqb
                    (Str.take (Z.to_nat 2)
                       (String "/" (Str.join "/" (dirs ++ ["v1"])))) "//"
                  = false).
  { destruct dirs as [|d ds]; [reflexivity |].
    apply Forall_inv in Hdirs. apply directory_spec in Hdirs as (Ht & _ & _ & Hpl).
    apply plain_spec in Hpl as (Hs & _).
    destruct d as [|a d]; [discriminate |]. simpl in Hs.
    destruct (Ascii.eqb a "/") eqn:Ea; [discriminate |].
    change ((String a d :: ds) ++ ["v1"]) with (String a d :: ds ++ ["v1"]).
    rewrite join_cons by (now destruct ds).
    change (Z.to_nat 2) with 2%nat.
    change (Str.take 2 (String "/" (String a d +:+ "/"
                                      +:+ Str.join "/" (ds ++ ["v1"]))))
      with (String "/" (String a EmptyString)).
    change (String.eqb (String "/" (String a EmptyString)) "//")
      with (if Ascii.eqb a "/" then true else false).
    now rewrite Ea. }
  rewrite Hhead. cbn [negb orb andb]. rewrite orb_true_r.
  change (Str.take (Z.to_nat 1) (String "/" (Str.join "/" (dirs ++ ["v1"]))))
    with "/".
  change (String.eqb "/" "/") with true. cbn [negb]. cbv iota.
  reflexivity.
Qed.

(** X15. What the base URL keeps of the server URL.  For a server URL
    [http(s)://<netloc>/<dir>/.../<dir>/<segment>] the base URL is
    [http(s)://<netloc>/<dir>/.../<dir>/v1]: the directories of the path
    are kept and its last segment, empty or not, is replaced by [v1].  So
    a trailing slash makes the difference between keeping and losing the
    last segment of the path. *)
Theorem base_url_replaces_last_segment
    (kwargs : gmap string string) (scheme netloc : string)
    (dirs : list string) (seg : string) :
  scheme = "http" \/ scheme = "https" ->
  is_netloc netloc = true ->
  Forall (fun x => directory x = true) dirs ->
  plain seg = true ->
  kwargs !! "url"
  = Some (scheme +:+ "://" +:+ netloc +:+ "/"
            +:+ Str.join "/" (dirs ++ [seg])) ->
  base_url kwargs
  = Ok (scheme +:+ "://" +:+ netloc +:+ "/" +:+ Str.join "/" (dirs ++ ["v1"])).
Proof.
  intros Hscheme Hnetloc Hdirs Hseg Hurl.
  unfold base_url, getitem. rewrite Hurl. unfold rbind.
  now apply urljoin_path.
Qed.

Lemma splitnetloc_no_path (netloc : string) :
  Str.contains "/" netloc = false ->
  Str.contains "?" netloc = false ->
  Str.contains "#" netloc = false ->
  Urllib.splitnetloc ("//" +:+ netloc) 2 = (netloc, EmptyString).
Proof.
  intros Hs Hq Hf.
  change ("//" +:+ netloc) with (String "/" (String "/" netloc)).
  set (url := String "/" (String "/" netloc)).
  assert (Hfind : forall c, Str.contains c netloc = false ->
            Str.find_from c url 2 = -1).
  { intros c Hc. unfold Str.find_from, url.
    rewrite !find_at_skip by reflexivity. now apply find_at_absent. }
  assert (Hlen : Str.len url = Str.len netloc + 2).
  { unfold url. rewrite !len_cons. lia. }
  pose proof (len_nonneg netloc).
  unfold Urllib.splitnetloc. cbv [fold_left].
  rewrite !Hfind by assumption. change (0 <=? -1) with false.
  cbv beta iota.
  rewrite slice_from_len. f_equal.
  rewrite slice_nonneg by lia.
  rewrite Hlen. change (Z.to_nat 2) with 2%nat. unfold url. simpl Str.drop.
  apply take_all. unfold Str.len. lia.
Qed.

Lemma urljoin_unpaired_brackets (scheme netloc : string) :
  scheme = "http" \/ scheme = "https" ->
  unpaired_brackets netloc = true ->
  Urllib.urljoin (scheme +:+ "://" +:+ netloc) "v1"
  = Raise (ValueError "Invalid IPv6 URL").
Proof.
  intros Hscheme H. unfold unpaired_brackets in H.
  apply andb_prop in H as [H Hb]. apply andb_prop in H as [H Hf].
  apply andb_prop in H as [Hs Hq].
  apply negb_true_iff in Hs, Hq, Hf, Hb.
  assert (Hserver : Str.truthy (scheme +:+ "://" +:+ netloc) = true).
  { destruct Hscheme as [-> | ->]; reflexivity. }
  unfold Urllib.urljoin. rewrite Hserver. cbn [negb Str.truthy].
  unfold Urllib.urlparse at 1. rewrite urlsplit_scheme by assumption.
  unfold Urllib.split_after_scheme.
  rewrite slice_to_nonneg by lia.
  change (Str.take (Z.to_nat 2) ("//" +:+ netloc)) with "//".
  change (String.eqb "//" "//") with true. cbv iota.
  rewrite splitnetloc_no_path by assumption.
  destruct (Str.contains "[" netloc), (Str.contains "]" netloc);
    try discriminate; reflexivity.
Qed.

Section ServerUrl.

Variable candidate_name : nat -> string.
Variable default_headers : gmap string string.
Variable remote : Request -> Response + string.

Abbreviation run := (backend candidate_name default_headers remote).

(** X16. A server URL whose network location has a square bracket without
    its partner (a mistyped IPv6 address) makes [urljoin] raise
    [ValueError]; either backend then raises it before it creates a pipe
    or sends anything. *)
Theorem unpaired_bracket_raises_value_error
    (p : plugin) (kwargs : gmap string string) (w : World)
    (token scheme netloc : string) :
  scheme = "http" \/ scheme = "https" ->
  unpaired_brackets netloc = true ->
  kwargs !! "token" = Some token ->
  kwargs !! "url" = Some (scheme +:+ "://" +:+ netloc) ->
  run p kwargs w = (Raise (ValueError "Invalid IPv6 URL"), w).
Proof.
  intros Hscheme Hb Ht Hurl.
  assert (Hbase : base_url kwargs = Raise (ValueError "Invalid IPv6 URL")).
  { unfold base_url, getitem. rewrite Hurl. unfold rbind.
    now apply urljoin_unpaired_brackets. }
  destruct p; simpl; unfold kv_backend, ssh_backend, bind, lift, getitem;
    now rewrite Ht, Hbase.
Qed.

End ServerUrl.

(** * The further properties at the sample invocations *)

Lemma request_carries_bearer_token_witness :
  exists token,
    ssh_kwargs !! "token" = Some token /\
    headers ssh_request = <["Authorization" := "Bearer " +:+ token]> no_headers /\
    kw_timeout (request_kwargs ssh_request) = 30 /\
    method ssh_request = method_of hashivault_ssh_plugin.
Proof.
  apply (request_carries_bearer_token sample_names no_headers
           (always (json_response 200 ssh_body)) hashivault_ssh_plugin
           ssh_kwargs fresh_world ssh_request).
  vm_compute. reflexivity.
Defined.

Lemma certificate_goes_through_one_pipe_witness :
  fifos (snd (kv_backend sample_names no_headers
                (always (json_response 200 v1_body)) pinned_kwargs fresh_world))
  = [] ++ [{| fifo_path := "/tmp/tmpdir/x"; fifo_mode := S_IRUSR_IWUSR;
              fifo_data := "PEM" |}] /\
  Z.land S_IRUSR_IWUSR 63 = 0 /\
  kw_verify (request_kwargs pinned_request) = Some "/tmp/tmpdir/x".
Proof.
  apply (certificate_goes_through_one_pipe sample_names no_headers
           (always (json_response 200 v1_body)) hashivault_kv_plugin
           pinned_kwargs fresh_world pinned_request).
  vm_compute. reflexivity.
Defined.

Lemma kv_backend_early_error_leaves_no_pipe_witness :
  exists e,
    kv_backend sample_names no_headers (always (json_response 200 v1_body))
      (delete "api_version" pinned_kwargs) fresh_world
    = (Raise e, fresh_world) /\ early_error e.
Proof.
  apply (kv_backend_early_error_leaves_no_pipe sample_names no_headers
           (always (json_response 200 v1_body))
           (delete "api_version" pinned_kwargs) fresh_world).
  left. vm_compute. discriminate.
Defined.

Lemma ssh_backend_leaves_pipe_without_public_key_witness :
  ssh_backend sample_names no_headers (always (json_response 200 ssh_body))
    (<["cacert" := "PEM"]> (delete "public_key" ssh_kwargs)) fresh_world
  = (Raise (KeyError "public_key"),
     {| fifos := fifos fresh_world ++ [pipe_for sample_names fresh_world "PEM"];
        sent := sent fresh_world |}).
Proof.
  apply (ssh_backend_leaves_pipe_without_public_key sample_names no_headers
           (always (json_response 200 ssh_body))
           (<["cacert" := "PEM"]> (delete "public_key" ssh_kwargs)) fresh_world
           "s.token" "https://vault.example.com/v1" "ssh-client-signer" "ops"
           "P" "EM");
    vm_compute; reflexivity.
Defined.

Lemma missing_parameter_raises_key_error_witness :
  fst (backend sample_names no_headers (always (json_response 200 ssh_body))
         hashivault_ssh_plugin (delete "role" ssh_kwargs) fresh_world)
  = Raise (KeyError "role") /\
  sent (snd (backend sample_names no_headers
               (always (json_response 200 ssh_body))
               hashivault_ssh_plugin (delete "role" ssh_kwargs) fresh_world))
  = sent fresh_world.
Proof.
  apply (missing_parameter_raises_key_error sample_names no_headers
           (always (json_response 200 ssh_body)) hashivault_ssh_plugin
           (delete "role" ssh_kwargs) fresh_world "role").
  - intros server Hserver. vm_compute in Hserver.
    injection Hserver as <-. eexists. vm_compute. reflexivity.
  - vm_compute. reflexivity.
Defined.

Lemma undecodable_body_raises_value_error_witness :
  exists msg,
    fst (kv_backend sample_names no_headers (always html_response)
           kv_v1_kwargs fresh_world)
    = Raise (ValueError msg).
Proof.
  apply (undecodable_body_raises_value_error sample_names no_headers
           (always html_response) hashivault_kv_plugin kv_v1_kwargs
           fresh_world kv_v1_request html_response).
  - vm_compute. reflexivity.
  - reflexivity.
  - vm_compute. reflexivity.
  - reflexivity.
Defined.

Lemma non_mapping_secret_raises_type_error_witness :
  fst (kv_backend sample_names no_headers (always (json_response 200 scalar_body))
         (<["secret_key" := "foo"]> kv_v1_kwargs) fresh_world)
  = Raise TypeError.
Proof.
  apply (non_mapping_secret_raises_type_error sample_names no_headers
           (always (json_response 200 scalar_body))
           (<["secret_key" := "foo"]> kv_v1_kwargs) fresh_world kv_v1_request
           (json_response 200 scalar_body) scalar_body (PyStr "s3cr3t")
           "v1" "foo").
  - vm_compute. reflexivity.
  - reflexivity.
  - vm_compute. reflexivity.
  - reflexivity.
  - vm_compute. reflexivity.
  - vm_compute. reflexivity.
  - discriminate.
  - vm_compute. reflexivity.
  - reflexivity.
Defined.

Lemma non_object_body_raises_type_error_witness :
  fst (ssh_backend sample_names no_headers
         (always (json_response 200 (PyList [PyStr "signed_key"])))
         ssh_kwargs fresh_world)
  = Raise TypeError.
Proof.
  apply (non_object_body_raises_type_error sample_names no_headers
           (always (json_response 200 (PyList [PyStr "signed_key"])))
           hashivault_ssh_plugin ssh_kwargs fresh_world ssh_request
           (json_response 200 (PyList [PyStr "signed_key"]))
           (PyList [PyStr "signed_key"])).
  - vm_compute. reflexivity.
  - reflexivity.
  - vm_compute. reflexivity.
  - reflexivity.
  - reflexivity.
Defined.

Lemma secret_version_only_matters_for_v2_witness :
  kv_backend sample_names no_headers (always (json_response 200 v1_body))
    (<["secret_version" := "3"]> kv_v1_kwargs) fresh_world
  = kv_backend sample_names no_headers (always (json_response 200 v1_body))
      (delete "secret_version" (<["secret_version" := "3"]> kv_v1_kwargs))
      fresh_world.
Proof.
  apply (secret_version_only_matters_for_v2 sample_names no_headers
           (always (json_response 200 v1_body))
           (<["secret_version" := "3"]> kv_v1_kwargs) fresh_world).
  vm_compute. discriminate.
Defined.

Lemma other_selectors_behave_as_v1_witness :
  kv_backend sample_names no_headers (always (json_response 200 v1_body))
    (<["api_version" := "V2"]> kv_v1_kwargs) fresh_world
  = kv_backend sample_names no_headers (always (json_response 200 v1_body))
      (<["api_version" := "v1"]> kv_v1_kwargs) fresh_world.
Proof.
  apply (other_selectors_behave_as_v1 sample_names no_headers
           (always (json_response 200 v1_body)) kv_v1_kwargs fresh_world "V2").
  discriminate.
Defined.

Lemma v2_request_url_components_witness :
  exists url secret_path mount_point path,
    base_url kv_v2_kwargs = Ok url /\
    kv_v2_kwargs !! "secret_path" = Some secret_path /\
    mount_point_and_path secret_path = Ok (mount_point, path) /\
    request_url kv_v2_request
    = Str.join "/" ([url; mount_point; "data"] ++ path) /\
    Forall (fun x => x <> EmptyString /\ x <> "."
                     /\ Str.contains "/" x = false) path /\
    match Pathlib.parts (Str.lstrip "/" secret_path) with
    | [] => mount_point = secret_path /\ path = []
    | _ => mount_point <> EmptyString /\ mount_point <> "."
           /\ Str.contains "/" mount_point = false
    end.
Proof.
  apply (v2_request_url_components sample_names no_headers
           (always (json_response 200 v2_body)) kv_v2_kwargs fresh_world
           kv_v2_request).
  - vm_compute. reflexivity.
  - vm_compute. reflexivity.
Defined.

Lemma v2_request_depends_on_components_witness :
  snd (kv_backend sample_names no_headers (always (json_response 200 v2_body))
         (<["secret_path" := "/kv/team/db/"]> kv_v2_kwargs) fresh_world)
  = snd (kv_backend sample_names no_headers (always (json_response 200 v2_body))
           (<["secret_path" := "kv//team/./db"]> kv_v2_kwargs) fresh_world).
Proof.
  apply (v2_request_depends_on_components sample_names no_headers
           (always (json_response 200 v2_body)) kv_v2_kwargs fresh_world
           "/kv/team/db/" "kv//team/./db").
  - vm_compute. reflexivity.
  - vm_compute. reflexivity.
  - vm_compute. discriminate.
Defined.

Lemma v1_request_ignores_trailing_separators_witness :
  snd (kv_backend sample_names no_headers (always (json_response 200 v1_body))
         (<["secret_path" := "kv/creds" +:+ Str.mul "/" 3]> kv_v1_kwargs)
         fresh_world)
  = snd (kv_backend sample_names no_headers (always (json_response 200 v1_body))
           (<["secret_path" := "kv/creds"]> kv_v1_kwargs) fresh_world).
Proof.
  apply (v1_request_ignores_trailing_separators sample_names no_headers
           (always (json_response 200 v1_body)) kv_v1_kwargs fresh_world
           "kv/creds" 3).
  vm_compute. discriminate.
Defined.

Lemma base_url_replaces_last_segment_witness :
  base_url slash_kwargs
  = Ok ("https" +:+ "://" +:+ "proxy.example.com" +:+ "/"
          +:+ Str.join "/" (["vault"] ++ ["v1"])).
Proof.
  apply (base_url_replaces_last_segment slash_kwargs "https"
           "proxy.example.com" ["vault"] EmptyString).
  - right. reflexivity.
  - vm_compute. reflexivity.
  - repeat constructor.
  - reflexivity.
  - vm_compute. reflexivity.
Defined.

Lemma unpaired_bracket_raises_value_error_witness :
  backend sample_names no_headers (always (json_response 200 v1_body))
    hashivault_kv_plugin bracket_kwargs fresh_world
  = (Raise (ValueError "Invalid IPv6 URL"), fresh_world).
Proof.
  apply (unpaired_bracket_raises_value_error sample_names no_headers
           (always (json_response 200 v1_body)) hashivault_kv_plugin
           bracket_kwargs fresh_world "s.token" "http" "[::1").
  - left. reflexivity.
  - vm_compute. reflexivity.
  - vm_compute. reflexivity.
  - vm_compute. reflexivity.
Defined.

(** * The input schemas *)

Lemma required_kv :
  required hashivault_kv_plugin
  = ["url"; "token"; "secret_path"; "api_version"; "secret_key"].
Proof. vm_compute. reflexivity. Qed.

Lemma required_ssh :
  required hashivault_ssh_plugin
  = ["url"; "token"; "secret_path"; "public_key"; "role"].
Proof. vm_compute. reflexivity. Qed.

Lemma declared_kv :
  declared hashivault_kv_plugin
  = ["url"; "token"; "cacert"; "api_version"; "secret_path"; "secret_key";
     "secret_version"].
Proof. vm_compute. reflexivity. Qed.

Lemma declared_ssh :
  declared hashivault_ssh_plugin
  = ["url"; "token"; "cacert"; "public_key"; "secret_path"; "role";
     "valid_principals"].
Proof. vm_compute. reflexivity. Qed.

Lemma base_url_with_server (kwargs : gmap string string) (server : string)
    (e : exception) :
  kwargs !! "url" = Some server ->
  base_url kwargs = Raise e ->
  e = ValueError "Invalid IPv6 URL".
Proof.
  intros Hserver Hbase. unfold base_url, getitem in Hbase.
  rewrite Hserver in Hbase. simpl in Hbase.
  eapply urljoin_raises, Hbase.
Qed.

Ltac present H :=
  repeat match type of H with
         | Forall _ (_ :: _) =>
             let Hhead := fresh "Hpresent" in
             apply Forall_cons in H as [Hhead H]
         end.

Section Schemas.

Variable candidate_name : nat -> string.
Variable default_headers : gmap string string.
Variable remote : Request -> Response + string.

Abbreviation run := (backend candidate_name default_headers remote).

(** X17. The [required] list of each plugin's schema covers what its
    backend needs to get as far as the server.  When the parameters hold
    every id the schema the plugin was registered with lists as required,
    the backend raises no [KeyError] for a parameter: it sends its
    request, or it raises the [ValueError] of [urljoin] and leaves the
    world as it was. *)
Theorem required_parameters_reach_the_server
    (p : plugin) (kwargs : gmap string string) (w : World) :
  Forall (fun key => is_Some (kwargs !! key)) (required p) ->
  (exists req, sent (snd (run p kwargs w)) = sent w ++ [req])
  \/ run p kwargs w = (Raise (ValueError "Invalid IPv6 URL"), w).
Proof.
  intros Hall. destruct p.
  - rewrite required_kv in Hall. present Hall.
    destruct Hpresent as [server Hserver], Hpresent0 as [token Htoken],
      Hpresent1 as [secret_path Hpath], Hpresent2 as [api_version Hapi].
    destruct (base_url kwargs) as [url|e] eqn:Hbase.
    + left.
      destruct (kv_backend_run candidate_name default_headers remote
                  kwargs w _ _ _ _ Htoken Hbase Hpath Hapi)
        as (req & w' & Hrun & Hsent & _).
      exists req. simpl. now rewrite Hrun.
    + right. apply (base_url_with_server _ _ _ Hserver) in Hbase as Hvalue.
      subst e. simpl. unfold kv_backend, bind, lift, getitem.
      now rewrite Htoken, Hbase.
  - rewrite required_ssh in Hall. present Hall.
    destruct Hpresent as [server Hserver], Hpresent0 as [token Htoken],
      Hpresent1 as [secret_path Hpath], Hpresent2 as [public_key Hkey],
      Hpresent3 as [role Hrole].
    destruct (base_url kwargs) as [url|e] eqn:Hbase.
    + left.
      destruct (ssh_backend_run candidate_name default_headers remote
                  kwargs w _ _ _ _ _ Htoken Hbase Hpath Hrole Hkey)
        as (req & w' & Hrun & Hsent & _).
      exists req. simpl. now rewrite Hrun.
    + right. apply (base_url_with_server _ _ _ Hserver) in Hbase as Hvalue.
      subst e. simpl. unfold ssh_backend, bind, lift, getitem.
      now rewrite Htoken, Hbase.
Qed.

(** X18. The backends depend on the declared parameters only.  Two sets
    of parameters that agree on every id the plugin's schema declares in
    [fields] and [metadata] make its backend do the same: an undeclared
    parameter is never read. *)
Theorem undeclared_parameters_are_ignored
    (p : plugin) (kwargs kwargs' : gmap string string) (w : World) :
  Forall (fun key => kwargs !! key = kwargs' !! key) (declared p) ->
  run p kwargs w = run p kwargs' w.
Proof.
  intros Hall. destruct p.
  - rewrite declared_kv in Hall. present Hall.
    simpl. unfold kv_backend, base_url, getitem.
    now rewrite Hpresent, Hpresent0, Hpresent1, Hpresent2, Hpresent3,
      Hpresent4, Hpresent5.
  - rewrite declared_ssh in Hall. present Hall.
    simpl. unfold ssh_backend, base_url, getitem.
    now rewrite Hpresent, Hpresent0, Hpresent1, Hpresent2, Hpresent3,
      Hpresent4, Hpresent5.
Qed.

End Schemas.

(** X19. The three schemas share no object.  Importing the module
    succeeds; the objects of the [base_inputs] display are never written
    after line 42, so [base_inputs] still is what its display says; and no
    list or dict can be reached twice from [base_inputs],
    [hashi_kv_inputs] and [hashi_ssh_inputs]: a later change of one
    schema cannot show in another. *)
Theorem schemas_share_no_object :
  exists g h base h0,
    imported = (Some g, h) /\
    base_inputs_display [] = (Some base, h0) /\
    base_inputs g = base /\
    take (List.length h0) h = h0 /\
    NoDup (reachable recursion_limit h (base_inputs g)
           ++ reachable recursion_limit h (hashi_kv_inputs g)
           ++ reachable recursion_limit h (hashi_ssh_inputs g)).
Proof.
  exists (mkGlobals (Ref 7) (Ref 8) (Ref 22)), (snd imported), (Ref 7),
    (snd (base_inputs_display [])).
  repeat apply conj; apply (bool_decide_unpack _); vm_compute; exact I.
Qed.

(** * The schema properties at the sample invocations *)

Lemma required_parameters_reach_the_server_witness :
  (exists req,
      sent (snd (backend sample_names no_headers
                   (always (json_response 200 ssh_body))
                   hashivault_ssh_plugin ssh_kwargs fresh_world))
      = sent fresh_world ++ [req])
  \/ backend sample_names no_headers (always (json_response 200 ssh_body))
       hashivault_ssh_plugin ssh_kwargs fresh_world
     = (Raise (ValueError "Invalid IPv6 URL"), fresh_world).
Proof.
  apply (required_parameters_reach_the_server sample_names no_headers
           (always (json_response 200 ssh_body)) hashivault_ssh_plugin
           ssh_kwargs fresh_world).
  vm_compute. repeat constructor; eexists; reflexivity.
Defined.

Lemma undeclared_parameters_are_ignored_witness :
  backend sample_names no_headers (always (json_response 200 v1_body))
    hashivault_kv_plugin (<["role" := "ops"]> kv_v1_kwargs) fresh_world
  = backend sample_names no_headers (always (json_response 200 v1_body))
      hashivault_kv_plugin kv_v1_kwargs fresh_world.
Proof.
  apply (undeclared_parameters_are_ignored sample_names no_headers
           (always (json_response 200 v1_body)) hashivault_kv_plugin
           (<["role" := "ops"]> kv_v1_kwargs) kv_v1_kwargs fresh_world).
  vm_compute. repeat constructor.
Defined.

(** * The location and the request URL, segment by segment *)

Lemma endswith_last (c : ascii) (s : string) :
  Str.endswith c (s +:+ String c EmptyString) = true.
Proof.
  induction s as [|a s IH]; simpl.
  - apply Ascii.eqb_refl.
  - destruct (s +:+ String c EmptyString) eqn:E; [| exact IH].
    destruct s; discriminate.
Qed.

Lemma not_endswith (c : ascii) (s : string) :
  Str.endswith c s = false -> forall t, s <> t +:+ String c EmptyString.
Proof.
  intros H t ->. now rewrite endswith_last in H.
Qed.

Lemma filter_split_lstrip (s : string) :
  List.filter Pathlib.wanted (Str.split "/" (Str.lstrip "/" s))
  = List.filter Pathlib.wanted (Str.split "/" s).
Proof.
  induction s as [|a s IH]; [reflexivity |].
  simpl Str.lstrip. destruct (Ascii.eqb a "/") eqn:E; [| reflexivity].
  simpl Str.split. rewrite E. simpl. exact IH.
Qed.

Lemma filter_rev {A} (f : A -> bool) (l : list A) :
  List.filter f (rev l) = rev (List.filter f l).
Proof.
  induction l as [|x l IH]; [reflexivity |].
  simpl. rewrite List.filter_app, IH. simpl.
  destruct (f x); simpl; [reflexivity | now rewrite app_nil_r].
Qed.

(** [pathlib] on a location without its leading separators: the segments
    between separators, the empty ones and [.] left out. *)
Lemma parts_split (s : string) :
  Pathlib.parts (Str.lstrip "/" s)
  = List.filter Pathlib.wanted (Str.split "/" s).
Proof.
  rewrite <- filter_split_lstrip.
  pose proof (lstrip_head "/" s) as Hhead.
  destruct (Str.lstrip "/" s) as [|a r]; [reflexivity |].
  unfold Pathlib.parts, Pathlib.parse_parts, Pathlib.splitroot.
  rewrite Hhead. change (Str.truthy (String a r)) with true.
  change (Str.truthy EmptyString) with false.
  cbv beta iota zeta. simpl negb. simpl orb. cbv iota.
  destruct (Str.contains "/" (String a r)) eqn:Hc.
  - now rewrite filter_rev, rev_involutive.
  - rewrite (split_plain "/" _ Hc). simpl List.filter.
    now destruct (Pathlib.wanted (String a r)).
Qed.

Lemma mount_point_and_path_segments (secret_path : string) (raw : list string) :
  Forall (fun x => Str.contains "/" x = false) raw ->
  secret_path = Str.join "/" raw ->
  mount_point_and_path secret_path =
    match List.filter Pathlib.wanted raw with
    | [] => Ok (secret_path, [])
    | segment :: rest => Ok (segment, rest)
    end.
Proof.
  intros Hraw ->.
  unfold mount_point_and_path, try_except, try_mount_point_and_path.
  rewrite parts_split.
  destruct raw as [|x raw']; [reflexivity |].
  rewrite (split_join "/" (x :: raw') Hraw) by discriminate.
  now destruct (List.filter Pathlib.wanted (x :: raw')).
Qed.

Lemma append_empty (s : string) : s +:+ EmptyString = s.
Proof. induction s; simpl; congruence. Qed.

Lemma join_separators (k1 k2 : nat) (segment : string) :
  Str.join "/" (repeat EmptyString k1 ++ segment :: repeat EmptyString k2)
  = Str.mul "/" k1 +:+ segment +:+ Str.mul "/" k2.
Proof.
  assert (Htail : forall k x, Str.join "/" (x :: repeat EmptyString k)
                              = x +:+ Str.mul "/" k).
  { induction k as [|k IH]; intros x.
    - simpl. now rewrite append_empty.
    - change (repeat EmptyString (S k))
        with (EmptyString :: repeat EmptyString k).
      rewrite join_cons by discriminate. rewrite IH. reflexivity. }
  induction k1 as [|k1 IH].
  - exact (Htail k2 segment).
  - change (repeat EmptyString (S k1) ++ segment :: repeat EmptyString k2)
      with (EmptyString
              :: (repeat EmptyString k1 ++ segment :: repeat EmptyString k2)).
    rewrite join_cons by (destruct k1; discriminate).
    rewrite IH. reflexivity.
Qed.

Lemma filter_separators (k1 k2 : nat) (segment : string) :
  Pathlib.wanted segment = true ->
  List.filter Pathlib.wanted
    (repeat EmptyString k1 ++ segment :: repeat EmptyString k2)
  = [segment].
Proof.
  intros Hw.
  assert (Hnone : forall k, List.filter Pathlib.wanted (repeat EmptyString k) = []).
  { induction k; [reflexivity | exact IHk]. }
  rewrite List.filter_app, Hnone. simpl. now rewrite Hw, Hnone.
Qed.

Lemma separators_plain (k1 k2 : nat) (segment : string) :
  Str.contains "/" segment = false ->
  Forall (fun x => Str.contains "/" x = false)
    (repeat EmptyString k1 ++ segment :: repeat EmptyString k2).
Proof.
  intros Hs. apply Forall_app. split; [| constructor; [exact Hs |]].
  - induction k1; constructor; [reflexivity | assumption].
  - induction k2; constructor; [reflexivity | assumption].
Qed.

Lemma mount_point_and_path_components (secret_path mount_point : string)
    (path : list string) :
  mount_point_and_path secret_path = Ok (mount_point, path) ->
  Forall (fun x => component x = true) path.
Proof.
  unfold mount_point_and_path, try_except, try_mount_point_and_path.
  pose proof (parts_components secret_path) as HF.
  destruct (Pathlib.parts (Str.lstrip "/" secret_path)) as [|m p]; simpl.
  - intros [= <- <-]. constructor.
  - intros [= <- <-]. now apply Forall_inv_tail in HF.
Qed.

(** The URL of a [v2] request, written with the sub-path. *)
Lemma v2_url_join (url mount_point : string) (path : list string) :
  Forall (fun x => component x = true) path ->
  url +:+ "/" +:+ mount_point +:+ "/data"
      +:+ (if Str.truthy (Str.join "/" path) then "/" +:+ Str.join "/" path
           else EmptyString)
  = Str.join "/" ([url; mount_point; "data"] ++ path).
Proof.
  intros Hpath. destruct path as [|x l].
  - reflexivity.
  - apply Forall_inv in Hpath. apply andb_prop in Hpath as [Hw _].
    apply wanted_truthy in Hw.
    rewrite (join_truthy "/" x l Hw).
    rewrite (join_app_cons "/" [url; mount_point; "data"] x l).
    cbv beta iota. generalize (Str.join "/" (x :: l)). intros sub_path.
    change (Str.join "/" [url; mount_point; "data"])
      with (url +:+ "/" +:+ mount_point +:+ "/data").
    now rewrite !append_assoc.
Qed.

(** C4, as the code has it.  The decomposition of a secret location never
    raises, whatever the string.  The mount point and the path are the
    segments of the location between separators, the empty ones and [.]
    left out; a location without any such segment is its own mount point
    with an empty path.  So a single segment is the mount point, with an
    empty path and an empty sub-path, whatever separators come before and
    after it: the mount point is the input itself only when the input has
    no separator. *)
Theorem mount_point_and_path_never_fails (secret_path : string) :
  exists mount_point path,
    mount_point_and_path secret_path = Ok (mount_point, path) /\
    (forall e, try_mount_point_and_path secret_path = Raise e ->
               mount_point = secret_path /\ path = []) /\
    (forall raw,
        Forall (fun x => Str.contains "/" x = false) raw ->
        secret_path = Str.join "/" raw ->
        match List.filter Pathlib.wanted raw with
        | [] => mount_point = secret_path /\ path = []
        | segment :: rest => mount_point = segment /\ path = rest
        end) /\
    (forall segment k1 k2,
        component segment = true ->
        secret_path = Str.mul "/" k1 +:+ segment +:+ Str.mul "/" k2 ->
        mount_point = segment /\ path = []
        /\ Str.join "/" path = EmptyString) /\
    (Str.contains "/" secret_path = false ->
     mount_point = secret_path /\ path = []
     /\ Str.join "/" path = EmptyString).
Proof.
  destruct (mount_point_and_path_ok secret_path) as (m & p & Hmp).
  exists m, p. split; [exact Hmp |].
  assert (Hraw : forall raw,
             Forall (fun x => Str.contains "/" x = false) raw ->
             secret_path = Str.join "/" raw ->
             match List.filter Pathlib.wanted raw with
             | [] => m = secret_path /\ p = []
             | segment :: rest => m = segment /\ p = rest
             end).
  { intros raw Hplain Hjoin.
    rewrite (mount_point_and_path_segments _ raw Hplain Hjoin) in Hmp.
    destruct (List.filter Pathlib.wanted raw); injection Hmp as <- <-; auto. }
  split; [| split; [exact Hraw | split]].
  - intros e He. unfold mount_point_and_path, try_except in Hmp.
    rewrite He in Hmp. injection Hmp as <- <-. auto.
  - intros segment k1 k2 Hc Hs.
    apply andb_prop in Hc as [Hw Hsep]. apply negb_true_iff in Hsep.
    rewrite <- join_separators in Hs.
    specialize (Hraw _ (separators_plain k1 k2 segment Hsep) Hs).
    rewrite (filter_separators k1 k2 segment Hw) in Hraw.
    destruct Hraw as [-> ->]. auto.
  - intros Hsep.
    specialize (Hraw [secret_path]).
    simpl in Hraw. destruct (Pathlib.wanted secret_path);
      destruct Hraw as [-> ->]; auto.
Qed.


Section RequestUrls.

Variable candidate_name : nat -> string.
Variable default_headers : gmap string string.
Variable remote : Request -> Response + string.

Abbreviation kv := (kv_backend candidate_name default_headers remote).
Abbreviation ssh := (ssh_backend candidate_name default_headers remote).

(** C2. The URL of the request a KV invocation sends, which never ends in
    a slash.  For the [v2] engine it is
    [<base>/<mount_point>/data/<sub_path>], the sub-path segment left out
    when it is empty, where the mount point and the path are the segments
    of the location between separators (the empty ones and [.] left out,
    the whole location as mount point when there is none); stripping the
    trailing slashes removes nothing from it; and the query parameter
    [version] is attached exactly when a version string was supplied.  For
    any other engine version it is [<base>/<location>] without its
    trailing slashes, and there are no query parameters. *)
Theorem kv_backend_request_url
    (kwargs : gmap string string) (w : World)
    (token url secret_path api_version : string) :
  kwargs !! "token" = Some token ->
  base_url kwargs = Ok url ->
  kwargs !! "secret_path" = Some secret_path ->
  kwargs !! "api_version" = Some api_version ->
  exists req,
    sent (snd (kv kwargs w)) = sent w ++ [req] /\
    method req = GET /\
    (forall s, request_url req <> s +:+ "/") /\
    if String.eqb api_version "v2" then
      exists mount_point path,
        mount_point_and_path secret_path = Ok (mount_point, path) /\
        (forall raw,
            Forall (fun x => Str.contains "/" x = false) raw ->
            secret_path = Str.join "/" raw ->
            match List.filter Pathlib.wanted raw with
            | [] => mount_point = secret_path /\ path = []
            | segment :: rest => mount_point = segment /\ path = rest
            end) /\
        let sub_path := Str.join "/" path in
        let unstripped :=
          url +:+ "/" +:+ mount_point +:+ "/data"
              +:+ (if Str.truthy sub_path then "/" +:+ sub_path
                   else EmptyString) in
        request_url req = Str.rstrip "/" unstripped /\
        request_url req = unstripped /\
        kw_params (request_kwargs req) =
          match kwargs !! "secret_version" with
          | Some version =>
              if Str.truthy version then Some {[ "version" := version ]}
              else None
          | None => None
          end
    else
      request_url req = Str.rstrip "/" (url +:+ "/" +:+ secret_path) /\
      (exists k, url +:+ "/" +:+ secret_path
                 = request_url req +:+ Str.mul "/" k) /\
      kw_params (request_kwargs req) = None.
Proof.
  intros Ht Hu Hp Ha.
  destruct (kv_request_shape candidate_name default_headers remote
              kwargs w _ _ _ _ Ht Hu Hp Ha)
    as (req & Hsent & Hm & Hshape).
  exists req. split; [exact Hsent |]. split; [exact Hm |].
  assert (Hstripped : forall s, request_url req = Str.rstrip "/" s ->
                        forall t, request_url req <> t +:+ "/").
  { intros s ->. apply not_endswith, rstrip_spec. }
  destruct (String.eqb api_version "v2").
  - destruct Hshape as (mount_point & path & Hmp & Hurl & Hpar).
    cbv zeta in Hurl. split; [exact (Hstripped _ Hurl) |].
    exists mount_point, path. split; [exact Hmp |]. split.
    + intros raw Hplain Hjoin.
      rewrite (mount_point_and_path_segments _ raw Hplain Hjoin) in Hmp.
      destruct (List.filter Pathlib.wanted raw); injection Hmp as <- <-; auto.
    + cbv zeta. split; [exact Hurl |]. split; [| exact Hpar].
      rewrite Hurl.
      pose proof (mount_point_and_path_components _ _ _ Hmp) as Hpath.
      rewrite (v2_url_join url mount_point path Hpath).
      now apply v2_join_not_stripped.
  - destruct Hshape as [Hurl Hpar].
    split; [exact (Hstripped _ Hurl) |]. split; [exact Hurl |].
    split; [| exact Hpar].
    rewrite Hurl. apply rstrip_spec.
Qed.

(** C6. An SSH invocation POSTs to [<base>/<secret location>/sign/<role>]
    without its trailing slashes, so to a URL that never ends in a slash;
    the JSON body is [{"public_key": P}] when no principals are supplied
    and [{"public_key": P, "valid_principals": L}] when they are; and when
    the response has no error status and its body is an object whose
    [data] is an object with a [signed_key], the invocation returns
    exactly that value. *)
Theorem ssh_backend_signs
    (kwargs : gmap string string) (w : World)
    (token url secret_path role public_key : string) :
  kwargs !! "token" = Some token ->
  base_url kwargs = Ok url ->
  kwargs !! "secret_path" = Some secret_path ->
  kwargs !! "role" = Some role ->
  kwargs !! "public_key" = Some public_key ->
  exists req,
    sent (snd (ssh kwargs w)) = sent w ++ [req] /\
    method req = POST /\
    request_url req =
      Str.rstrip "/" (url +:+ "/" +:+ secret_path +:+ "/sign/" +:+ role) /\
    (exists k, url +:+ "/" +:+ secret_path +:+ "/sign/" +:+ role
               = request_url req +:+ Str.mul "/" k) /\
    (forall s, request_url req <> s +:+ "/") /\
    kw_json (request_kwargs req) =
      Some (PyDict
              match kwargs !! "valid_principals" with
              | Some principals =>
                  if Str.truthy principals
                  then {[ "public_key" := PyStr public_key;
                          "valid_principals" := PyStr principals ]}
                  else {[ "public_key" := PyStr public_key ]}
              | None => {[ "public_key" := PyStr public_key ]}
              end) /\
    forall response body data signed_key,
      remote req = inl response ->
      ~ (400 <= status_code response < 600) ->
      decoded response = Some (PyDict body) ->
      body !! "data" = Some (PyDict data) ->
      data !! "signed_key" = Some signed_key ->
      fst (ssh kwargs w) = Ok signed_key.
Proof.
  intros Ht Hu Hp Hr Hk.
  destruct (ssh_request_shape candidate_name default_headers remote
              kwargs w _ _ _ _ _ Ht Hu Hp Hr Hk)
    as (req & Hsent & Hm & Hurl & Hjson & Hret).
  exists req. split; [exact Hsent |]. split; [exact Hm |].
  split; [exact Hurl |]. split; [| split; [| split; [exact Hjson |]]].
  - rewrite Hurl. apply rstrip_spec.
  - rewrite Hurl. apply not_endswith, rstrip_spec.
  - intros response body data signed_key Hresp Hstatus Hbody Hdata Hkey.
    apply (Hret response (PyDict body) (PyDict data) signed_key Hresp).
    + unfold raise_for_status.
      destruct (Z.leb_spec 400 (status_code response));
        destruct (Z.ltb_spec (status_code response) 600);
        simpl; try reflexivity. lia.
    + exact Hbody.
    + simpl. now rewrite Hdata.
    + simpl. now rewrite Hkey.
Qed.

End RequestUrls.

Lemma kv_backend_request_url_witness :
  (exists req,
      sent (snd (kv_backend sample_names no_headers
                   (always (json_response 200 v2_body)) kv_v2_kwargs
                   fresh_world))
      = sent fresh_world ++ [req] /\
      method req = GET /\
      request_url req = "http://vault:8200/v1/kv/data/team/db" /\
      kw_params (request_kwargs req) = Some {[ "version" := "3" ]}) /\
  (exists req,
      sent (snd (kv_backend sample_names no_headers
                   (always (json_response 200 v1_body))
                   (<["secret_path" := "kv/creds/"]> kv_v1_kwargs)
                   fresh_world))
      = sent fresh_world ++ [req] /\
      method req = GET /\
      request_url req = "http://vault:8200/v1/kv/creds" /\
      kw_params (request_kwargs req) = None).
Proof.
  split.
  - destruct (kv_backend_request_url sample_names no_headers
                (always (json_response 200 v2_body)) kv_v2_kwargs fresh_world
                "s.token" "http://vault:8200/v1" "/kv/team/db/" "v2")
      as (req & Hsent & Hm & _ & Hshape); try (vm_compute; reflexivity).
    exists req. split; [exact Hsent |]. split; [exact Hm |].
    change (String.eqb "v2" "v2") with true in Hshape. cbv iota in Hshape.
    destruct Hshape as (mount_point & path & Hmp & _ & Hurl & _ & Hpar).
    vm_compute in Hmp. injection Hmp as <- <-.
    split; [rewrite Hurl | rewrite Hpar]; vm_compute; reflexivity.
  - destruct (kv_backend_request_url sample_names no_headers
                (always (json_response 200 v1_body))
                (<["secret_path" := "kv/creds/"]> kv_v1_kwargs) fresh_world
                "s.token" "http://vault:8200/v1" "kv/creds/" "v1")
      as (req & Hsent & Hm & _ & Hshape); try (vm_compute; reflexivity).
    exists req. split; [exact Hsent |]. split; [exact Hm |].
    change (String.eqb "v1" "v2") with false in Hshape. cbv iota in Hshape.
    destruct Hshape as (Hurl & _ & Hpar).
    split; [rewrite Hurl; vm_compute; reflexivity | exact Hpar].
Defined.

Lemma ssh_backend_signs_witness :
  exists req,
    sent (snd (ssh_backend sample_names no_headers
                 (always (json_response 200 ssh_body))
                 (<["role" := "ops/"]> ssh_kwargs) fresh_world))
    = sent fresh_world ++ [req] /\
    method req = POST /\
    request_url req = "https://vault.example.com/v1/ssh-client-signer/sign/ops" /\
    kw_json (request_kwargs req)
    = Some (PyDict {[ "public_key" := PyStr "ssh-rsa AAAA";
                      "valid_principals" := PyStr "ubuntu" ]}) /\
    fst (ssh_backend sample_names no_headers
           (always (json_response 200 ssh_body))
           (<["role" := "ops/"]> ssh_kwargs) fresh_world)
    = Ok (PyStr "ssh-rsa-cert-v01 AAAA").
Proof.
  destruct (ssh_backend_signs sample_names no_headers
              (always (json_response 200 ssh_body))
              (<["role" := "ops/"]> ssh_kwargs) fresh_world
              "s.token" "https://vault.example.com/v1" "ssh-client-signer"
              "ops/" "ssh-rsa AAAA")
    as (req & Hsent & Hm & Hurl & _ & _ & Hjson & Hret);
    try (vm_compute; reflexivity).
  exists req. split; [exact Hsent |]. split; [exact Hm |].
  split; [rewrite Hurl; vm_compute; reflexivity |].
  split; [rewrite Hjson; vm_compute; reflexivity |].
  apply (Hret (json_response 200 ssh_body)
           {[ "data" := PyDict {[ "signed_key" := PyStr "ssh-rsa-cert-v01 AAAA" ]} ]}
           {[ "signed_key" := PyStr "ssh-rsa-cert-v01 AAAA" ]}).
  - reflexivity.
  - simpl. lia.
  - reflexivity.
  - vm_compute. reflexivity.
  - vm_compute. reflexivity.
Defined.
